(** * Foody web server (web/server.js): static asset resolution, fixed routes
      and listen port.

    The program is an Express application made of three [express.static]
    middlewares, two GET routes and a [listen] call.  The development gives
    an executable model of the primitives the file calls (Node's [path],
    [decodeURIComponent], the file resolver of [send] 0.x and
    [serve-static] 1.x, the router of Express 4 with its path expressions,
    [Number] and the port check of Node's [net]) and then the application
    itself, followed by the properties of the application.

    Conventions.  Strings are byte strings (UTF-8); a request target is the
    pathname of the request URL.  Requests carry no conditional or range
    headers.  The file system holds regular files and directories only. *)

From Stdlib Require Import String Ascii List NArith ZArith Bool Lia Sorted.
From Stdlib Require Import Decimal DecimalString DecimalN.
From stdpp Require Import gmap strings list.

Local Open Scope string_scope.
Local Open Scope list_scope.

#[local] Arguments String.append !s1 s2.

(** ** Characters and strings *)

Module Str.

Definition slash : ascii := "/"%char.
Definition backslash : ascii := "\"%char.
Definition dot : ascii := "."%char.
Definition percent : ascii := "%"%char.
Definition nul : ascii := Ascii.zero.

Definition is_slash (c : ascii) : bool := Ascii.eqb c slash.
Definition is_any_slash (c : ascii) : bool :=
  Ascii.eqb c slash || Ascii.eqb c backslash.

(** [s.split(sep)] for a one-character separator class: the pieces between
    separators, from left to right; never the empty list. *)
Fixpoint split_on (sep : ascii -> bool) (s : string) : list string :=
  match s with
  | EmptyString => [EmptyString]
  | String c s' =>
      if sep c then EmptyString :: split_on sep s'
      else match split_on sep s' with
           | [] => [String c EmptyString]
           | x :: xs => String c x :: xs
           end
  end.

(** [l.join('/')] *)
Fixpoint join (l : list string) : string :=
  match l with
  | [] => EmptyString
  | [x] => x
  | x :: rest => x +:+ String slash (join rest)
  end.

Fixpoint last_char (s : string) : option ascii :=
  match s with
  | EmptyString => None
  | String c EmptyString => Some c
  | String _ s' => last_char s'
  end.

Definition ends_with_slash (s : string) : bool :=
  match last_char s with
  | Some c => is_slash c
  | None => false
  end.

Definition starts_with_slash (s : string) : bool :=
  match s with
  | String c _ => is_slash c
  | EmptyString => false
  end.

Definition starts_with_dot (s : string) : bool :=
  match s with
  | String c _ => Ascii.eqb c dot
  | EmptyString => false
  end.

Fixpoint contains (c : ascii) (s : string) : bool :=
  match s with
  | EmptyString => false
  | String c' s' => Ascii.eqb c' c || contains c s'
  end.

(** ASCII case folding, as done by a regular expression with the [i] flag
    and no [u] flag. *)
Definition to_lower (c : ascii) : ascii :=
  let n := N_of_ascii c in
  if ((65 <=? n) && (n <=? 90))%N then ascii_of_N (n + 32) else c.

Fixpoint lower (s : string) : string :=
  match s with
  | EmptyString => EmptyString
  | String c s' => String (to_lower c) (lower s')
  end.

(** [strip_prefix_ci pre s]: when [s] starts with [pre] up to ASCII case,
    the rest of [s]. *)
Fixpoint strip_prefix_ci (pre s : string) : option string :=
  match pre, s with
  | EmptyString, _ => Some s
  | String a pre', String b s' =>
      if Ascii.eqb (to_lower b) (to_lower a) then strip_prefix_ci pre' s'
      else None
  | String _ _, EmptyString => None
  end.

Definition eqb_ci (a b : string) : bool := String.eqb (lower a) (lower b).

End Str.

(** ** [decodeURIComponent]

    Percent-escapes are replaced by the byte they denote; an escape that is
    cut short or not hexadecimal, and a run of escaped bytes that is not the
    UTF-8 encoding of a code point, raise [URIError] ([None]). *)

Module URI.

Definition hex_val (c : ascii) : option N :=
  let n := N_of_ascii c in
  if ((48 <=? n) && (n <=? 57))%N then Some (n - 48)%N
  else if ((65 <=? n) && (n <=? 70))%N then Some (n - 55)%N
  else if ((97 <=? n) && (n <=? 102))%N then Some (n - 87)%N
  else None.

Inductive token : Type :=
| Raw (c : ascii)
| Esc (b : N).

Fixpoint unescape (s : string) : option (list token) :=
  match s with
  | EmptyString => Some []
  | String c rest =>
      if Ascii.eqb c Str.percent then
        match rest with
        | String h1 (String h2 rest') =>
            match hex_val h1, hex_val h2 with
            | Some a, Some b =>
                match unescape rest' with
                | Some ts => Some (Esc (16 * a + b)%N :: ts)
                | None => None
                end
            | _, _ => None
            end
        | _ => None
        end
      else
        match unescape rest with
        | Some ts => Some (Raw c :: ts)
        | None => None
        end
  end.

(** What a lead byte announces: how many continuation bytes follow and the
    range allowed for the first of them (this excludes overlong forms,
    surrogates and code points above U+10FFFF). *)
Definition lead (b : N) : option (nat * N * N) :=
  (if (194 <=? b) && (b <=? 223) then Some (1%nat, 128, 191)
   else if b =? 224 then Some (2%nat, 160, 191)
   else if b =? 237 then Some (2%nat, 128, 159)
   else if (225 <=? b) && (b <=? 239) then Some (2%nat, 128, 191)
   else if b =? 240 then Some (3%nat, 144, 191)
   else if (241 <=? b) && (b <=? 243) then Some (3%nat, 128, 191)
   else if b =? 244 then Some (3%nat, 128, 143)
   else None)%N.

(** [utf8 need lo hi ts]: the bytes of [ts], when every escaped non-ASCII
    byte is part of a well-formed sequence; [need] continuation bytes are
    still due, the next one within [lo..hi]. *)
Fixpoint utf8 (need : nat) (lo hi : N) (ts : list token) : option string :=
  match ts with
  | [] => match need with O => Some EmptyString | S _ => None end
  | Raw c :: ts' =>
      match need with
      | O => match utf8 O 128 191 ts' with
             | Some s => Some (String c s)
             | None => None
             end
      | S _ => None
      end
  | Esc b :: ts' =>
      match need with
      | O =>
          if (b <? 128)%N then
            match utf8 O 128 191 ts' with
            | Some s => Some (String (ascii_of_N b) s)
            | None => None
            end
          else
            match lead b with
            | Some (n, lo', hi') =>
                match utf8 n lo' hi' ts' with
                | Some s => Some (String (ascii_of_N b) s)
                | None => None
                end
            | None => None
            end
      | S n =>
          if ((lo <=? b) && (b <=? hi))%N then
            match utf8 n 128 191 ts' with
            | Some s => Some (String (ascii_of_N b) s)
            | None => None
            end
          else None
      end
  end.

Definition decodeURIComponent (s : string) : option string :=
  match unescape s with
  | Some ts => utf8 O 128 191 ts
  | None => None
  end.

End URI.

(** ** Node's [path] module (POSIX flavour) *)

Module Path.

(** [normalizeString]: the segments of a path are scanned from left to
    right; empty segments and [.] are dropped, [..] removes the segment
    before it unless there is none or it is itself [..]; in that case [..]
    is kept when the path is relative ([allowAboveRoot]).  [stack] holds the
    result so far, last segment first. *)
Fixpoint normalize_segments (allowAboveRoot : bool) (stack : list string)
    (segs : list string) : list string :=
  match segs with
  | [] => rev stack
  | s :: rest =>
      if String.eqb s "" || String.eqb s "." then
        normalize_segments allowAboveRoot stack rest
      else if String.eqb s ".." then
        match stack with
        | top :: below =>
            if String.eqb top ".." then
              normalize_segments allowAboveRoot
                (if allowAboveRoot then ".." :: stack else stack) rest
            else normalize_segments allowAboveRoot below rest
        | [] =>
            normalize_segments allowAboveRoot
              (if allowAboveRoot then [".."] else []) rest
        end
      else normalize_segments allowAboveRoot (s :: stack) rest
  end.

(** [path.normalize('.' + sep + p)] for a non-empty [p]: the segments of the
    result (none when the result is [.] or [./]) and whether it ends with a
    separator. *)
Definition normalize_relative (p : string) : list string * bool :=
  (normalize_segments true [] ("." :: Str.split_on Str.is_slash p),
   Str.ends_with_slash p).

(** The suffix of [s] that starts at its last dot. *)
Fixpoint from_last_dot (s : string) : option string :=
  match s with
  | EmptyString => None
  | String c s' =>
      match from_last_dot s' with
      | Some e => Some e
      | None => if Ascii.eqb c Str.dot then Some s else None
      end
  end.

(** [path.extname] of a path whose last segment is [base]: from the last
    dot of [base] on, unless that dot is its first character or [base] is
    [..]. *)
Definition extname (base : string) : string :=
  match base with
  | EmptyString => EmptyString
  | String _ rest =>
      if String.eqb base ".." then EmptyString
      else match from_last_dot rest with
           | Some e => e
           | None => EmptyString
           end
  end.

(** [path.join(dir, name)] for a normalised absolute [dir] and a plain
    [name], on segment lists. *)
Definition join (dir : list string) (name : string) : list string :=
  dir ++ [name].

End Path.

(** ** The file system, as [fs.stat] sees it *)

Module FS.

#[warning="-register-all"]
Inductive node : Type :=
| File (content : string)
| Dir (entries : gmap string node).

(** The entries of the root directory. *)
Abbreviation t := (gmap string node).

Inductive errno : Type := ENOENT | ENOTDIR.

Inductive stat_result : Type :=
| IsFile (content : string)
| IsDir
| Err (e : errno).

Fixpoint walk (n : node) (p : list string) : stat_result :=
  match p with
  | [] => match n with
          | File c => IsFile c
          | Dir _ => IsDir
          end
  | s :: p' =>
      match n with
      | File _ => Err ENOTDIR
      | Dir es =>
          match es !! s with
          | Some n' => walk n' p'
          | None => Err ENOENT
          end
      end
  end.

(** [fs.stat] of the absolute path with segments [p]; [trailing] tells
    whether the path text ends with a separator, which a regular file does
    not accept. *)
Definition stat (fs : t) (p : list string) (trailing : bool) : stat_result :=
  match walk (Dir fs) p with
  | IsFile c => if trailing then Err ENOTDIR else IsFile c
  | r => r
  end.

End FS.

(** ** [send]: from a URL path to a file under a root *)

Module Send.

Inductive dotfile_policy : Type := Allow | Deny | Ignore.

Record options : Type := {
  index : list string;
  extensions : list string;
  dotfiles : option dotfile_policy;
  hidden : bool;
  fallthrough : bool;
  redirect : bool
}.

Inductive result : Type :=
| Stream (path : list string) (content : string)
| Directory
| Error (status : nat).

(** [UP_PATH_REGEXP]: some piece between slashes or backslashes is [..]. *)
Definition up_path (names : list string) : bool :=
  existsb
    (fun s => existsb (String.eqb "..") (Str.split_on Str.is_any_slash s))
    names.

(** The pieces of the normalised relative path, as [path.split(sep)] gives
    them. *)
Definition parts (names : list string) (trailing : bool) : list string :=
  match names, trailing with
  | [], false => ["."]
  | [], true => ["."; ""]
  | _, false => names
  | _, true => names ++ [""]
  end.

Definition containsDotFile (ps : list string) : bool :=
  existsb (fun p => (1 <? String.length p)%nat && Str.starts_with_dot p) ps.

(** The policy applied to a path that contains a dot file; without a
    [dotfiles] option the legacy rule looks at the last piece only. *)
Definition dotfile_access (o : options) (ps : list string) : dotfile_policy :=
  match dotfiles o with
  | Some a => a
  | None =>
      if Str.starts_with_dot (List.last ps "") then
        (if hidden o then Allow else Ignore)
      else Allow
  end.

(** [onStatError]: a missing file or a file used as a directory is a 404. *)
Definition onStatError (e : FS.errno) : result :=
  match e with
  | FS.ENOENT | FS.ENOTDIR => Error 404
  end.

(** [p + '.' + ext] *)
Definition add_extension (p : list string) (ext : string) : list string :=
  removelast p ++ [List.last p "" +:+ "." +:+ ext].

(** The loop of [sendFile] over the configured extensions; [err] is the
    error of the last failed [stat], if any. *)
Fixpoint try_extensions (fs : FS.t) (p : list string) (exts : list string)
    (err : option FS.errno) : result :=
  match exts with
  | [] => match err with
          | Some e => onStatError e
          | None => Error 404
          end
  | ext :: exts' =>
      let p' := add_extension p ext in
      match FS.stat fs p' false with
      | FS.Err e => try_extensions fs p exts' (Some e)
      | FS.IsDir => try_extensions fs p exts' None
      | FS.IsFile c => Stream p' c
      end
  end.

Definition sendFile (o : options) (fs : FS.t) (p : list string)
    (trailing : bool) : result :=
  match FS.stat fs p trailing with
  | FS.Err FS.ENOENT =>
      if (String.eqb (Path.extname (List.last p "")) "" && negb trailing)%bool
      then try_extensions fs p (extensions o) (Some FS.ENOENT)
      else onStatError FS.ENOENT
  | FS.Err e => onStatError e
  | FS.IsDir => Directory
  | FS.IsFile c => Stream p c
  end.

(** The loop of [sendIndex] over the configured index names. *)
Fixpoint try_indexes (fs : FS.t) (dir : list string) (names : list string)
    (err : option FS.errno) : result :=
  match names with
  | [] => match err with
          | Some e => onStatError e
          | None => Error 404
          end
  | name :: names' =>
      let p := Path.join dir name in
      match FS.stat fs p false with
      | FS.Err e => try_indexes fs dir names' (Some e)
      | FS.IsDir => try_indexes fs dir names' None
      | FS.IsFile c => Stream p c
      end
  end.

Definition sendIndex (o : options) (fs : FS.t) (dir : list string) : result :=
  try_indexes fs dir (index o) None.

(** [SendStream.prototype.pipe] for the URL path [raw] under [root].  The
    root is an absolute, normalised directory and the relative path is
    normalised and free of [..] once it passed the check, so that
    [normalize(join(root, path))] is [root ++ names]. *)
Definition pipe (o : options) (root : list string) (fs : FS.t)
    (raw : string) : result :=
  match URI.decodeURIComponent raw with
  | None => Error 400
  | Some d =>
      if Str.contains Str.nul d then Error 400
      else
        let '(names, trailing) :=
          if String.eqb d "" then ([], false) else Path.normalize_relative d in
        if up_path names then Error 403
        else
          let ps := if String.eqb d "" then [""] else parts names trailing in
          let blocked :=
            if containsDotFile ps then
              match dotfile_access o ps with
              | Allow => None
              | Deny => Some 403%nat
              | Ignore => Some 404%nat
              end
            else None in
          match blocked with
          | Some status => Error status
          | None =>
              let p := root ++ names in
              if (negb (Nat.eqb (List.length (index o)) 0)
                  && Str.ends_with_slash raw)%bool
              then sendIndex o fs p
              else sendFile o fs p trailing
          end
  end.

End Send.

(** ** HTTP requests and responses *)

Module Http.

(** The methods of the model.  OPTIONS, which the router answers itself on
    the path of a route, and the remaining methods are not part of it. *)
Inductive method : Type := GET | HEAD | POST.

(** [originalUrl] is the pathname the client asked for; [url] is what is
    left of it for the current middleware once a mount path was trimmed. *)
Record request : Type := {
  meth : method;
  originalUrl : string;
  url : string
}.

Definition get (p : string) : request :=
  {| meth := GET; originalUrl := p; url := p |}.

#[warning="-register-all"]
Inductive json : Type :=
| JBool (b : bool)
| JObject (fields : list (string * json)).

Inductive content_type : Type :=
| ApplicationJson
| TextHtml
| TextPlain
| ByExtension (ext : string).

(** The entity of a response (for HEAD it is computed but not sent).  A
    [JsonBody] stands for the JSON text of its value, a [RedirectNotice] and
    an [ErrorPage] for the short documents Express writes around the
    target and the path. *)
Inductive body : Type :=
| FileBody (path : list string) (content : string)
| JsonBody (value : json)
| RedirectNotice (target : string)
| ErrorPage (m : method) (path : string)
| Empty.

(** A [Location] header: the given text when every character of it is one
    that [encodeUrl] keeps, otherwise the encoding of the given text. *)
Inductive location : Type :=
| Exactly (target : string)
| Encoded (target : string).

Record response : Type := {
  status : nat;
  location_header : option location;
  ctype : option content_type;
  entity : body
}.

(** A middleware either ends the response, calls [next()], or calls
    [next(err)] with an HTTP status. *)
Inductive outcome : Type :=
| Respond (r : response)
| Next
| NextError (status : nat).

(** Characters [encodeUrl] never rewrites. *)
Definition url_char (c : ascii) : bool :=
  let n := N_of_ascii c in
  ((n =? 33) || ((38 <=? n) && (n <=? 59)) || (n =? 61)
   || ((63 <=? n) && (n <=? 91)) || (n =? 93) || (n =? 95)
   || ((97 <=? n) && (n <=? 122)) || (n =? 126))%N.

Fixpoint url_safe (s : string) : bool :=
  match s with
  | EmptyString => true
  | String c s' => url_char c && url_safe s'
  end.

Definition encodeUrl (s : string) : location :=
  if url_safe s then Exactly s else Encoded s.

End Http.

(** ** [serve-static] *)

Module ServeStatic.

Import Http.

Fixpoint drop_slashes (s : string) : string :=
  match s with
  | String c s' => if Str.is_slash c then drop_slashes s' else s
  | EmptyString => EmptyString
  end.

(** [collapseLeadingSlashes]: two or more slashes at the start become one. *)
Definition collapseLeadingSlashes (s : string) : string :=
  match s with
  | String a (String b rest) =>
      if (Str.is_slash a && Str.is_slash b)%bool
      then String Str.slash (drop_slashes rest)
      else s
  | _ => s
  end.

(** The 200 response that streams the file at [p]. *)
Definition ok_file (p : list string) (content : string) : response :=
  {| status := 200;
     location_header := None;
     ctype := Some (ByExtension (Path.extname (List.last p "")));
     entity := FileBody p content |}.

(** The 301 response that sends the client to [loc]. *)
Definition moved (loc : string) : response :=
  {| status := 301;
     location_header := Some (encodeUrl loc);
     ctype := Some TextHtml;
     entity := RedirectNotice loc |}.

(** The [directory] listener: with [redirect] on and no trailing slash on
    the path given to [send], a 301 to the original path with a slash added;
    otherwise a 404 error. *)
Definition onDirectory (o : Send.options) (req : request) (path : string)
    : nat + response :=
  if (Send.redirect o && negb (Str.ends_with_slash path))%bool
  then inr (moved (collapseLeadingSlashes (originalUrl req +:+ "/")))
  else inl 404%nat.

(** An error of [send] is passed on with [next(err)] when fall-through is
    off or the status is 500 or more, and dropped with [next()] otherwise. *)
Definition forward (o : Send.options) (status : nat) : outcome :=
  if (negb (Send.fallthrough o) || negb (status <? 500)%nat)%bool
  then NextError status else Next.

(** The path handed to [send]: the mount point itself, asked for without a
    trailing slash, is the empty path. *)
Definition send_path (req : request) : string :=
  if (String.eqb (url req) "/"
      && negb (Str.ends_with_slash (originalUrl req)))%bool
  then "" else url req.

(** The middleware [express.static(root, options)] returns. *)
Definition serveStatic (root : list string) (o : Send.options)
    (fs : FS.t) (req : request) : outcome :=
  match meth req with
  | POST =>
      if Send.fallthrough o then Next
      else Respond {| status := 405; location_header := None;
                      ctype := None; entity := Empty |}
  | GET | HEAD =>
      let path := send_path req in
      match Send.pipe o root fs path with
      | Send.Stream p content => Respond (ok_file p content)
      | Send.Directory =>
          match onDirectory o req path with
          | inr r => Respond r
          | inl status => forward o status
          end
      | Send.Error status => forward o status
      end
  end.

End ServeStatic.

(** ** The Express router *)

Module Express.

Import Http.

Definition handler : Type := FS.t -> request -> outcome.

Inductive layer : Type :=
| Use (mount : string) (h : handler)
| Route (m : method) (path : string) (h : handler).

Definition without_trailing_slash (s : string) : string :=
  if Str.ends_with_slash s
  then String.substring 0 (String.length s - 1) s else s.

(** A mount path [m] stands for the expression [^m\/?(?=\/|$)] with flag
    [i]; the result is what follows the matched text.  The mount path [/]
    matches every path and consumes nothing. *)
Definition match_mount (mount path : string) : option string :=
  if String.eqb mount "/" then Some path
  else
    match Str.strip_prefix_ci (without_trailing_slash mount) path with
    | None => None
    | Some EmptyString => Some EmptyString
    | Some (String c rest) =>
        if Str.is_slash c then
          if (String.eqb rest "" || Str.starts_with_slash rest)%bool
          then Some rest
          else Some (String c rest)
        else None
    end.

(** [trim_prefix]: the matched text is removed from [req.url] and a leading
    slash is restored. *)
Definition trim_prefix (rest : string) (req : request) : request :=
  {| meth := meth req;
     originalUrl := originalUrl req;
     url := if Str.starts_with_slash rest then rest else "/" +:+ rest |}.

(** A route path [r] stands for [^r\/?$] with flag [i], the last slash of
    [r] itself being optional. *)
Definition match_route (route path : string) : bool :=
  let r := without_trailing_slash route in
  (Str.eqb_ci path r || Str.eqb_ci path (r +:+ "/"))%bool.

(** A route registered for GET also answers HEAD. *)
Definition handles_method (m : method) (req : request) : bool :=
  match m, meth req with
  | GET, GET | GET, HEAD | HEAD, HEAD | POST, POST => true
  | _, _ => false
  end.

(** One layer applied to a request: [None] when the layer does not match
    (its handler is not called). *)
Definition run_layer (l : layer) (fs : FS.t) (req : request) : option outcome :=
  match l with
  | Use mount h =>
      match match_mount mount (url req) with
      | Some rest =>
          Some (h fs (if String.eqb mount "/" then req else trim_prefix rest req))
      | None => None
      end
  | Route m path h =>
      if (handles_method m req && match_route path (url req))%bool
      then Some (h fs req) else None
  end.

(** [finalhandler]: nothing answered. *)
Definition finalhandler (err : option nat) (req : request) : response :=
  {| status := match err with Some s => s | None => 404 end;
     location_header := None;
     ctype := Some TextHtml;
     entity := ErrorPage (meth req) (originalUrl req) |}.

(** The router's loop over the stack.  The first component of the result
    lists the positions (counted from [pos]) of the layers whose handler was
    called, in call order. *)
Fixpoint dispatch (stack : list layer) (pos : nat) (fs : FS.t)
    (req : request) : list nat * response :=
  match stack with
  | [] => ([], finalhandler None req)
  | l :: stack' =>
      match run_layer l fs req with
      | None => dispatch stack' (S pos) fs req
      | Some (Respond r) => ([pos], r)
      | Some Next =>
          let '(tr, r) := dispatch stack' (S pos) fs req in (pos :: tr, r)
      | Some (NextError s) => ([pos], finalhandler (Some s) req)
      end
  end.

(** [res.json(value)] *)
Definition json_response (value : json) : response :=
  {| status := 200; location_header := None;
     ctype := Some ApplicationJson; entity := JsonBody value |}.

Definition res_json (value : json) : outcome := Respond (json_response value).

(** [res.redirect(target)], for a request without an [Accept] header *)
Definition redirect_response (target : string) : response :=
  {| status := 302; location_header := Some (encodeUrl target);
     ctype := Some TextPlain; entity := RedirectNotice target |}.

Definition res_redirect (target : string) : outcome :=
  Respond (redirect_response target).

End Express.

(** ** [Number(s)] for a string

    The value of a string read as a number: white space trimmed at both
    ends, then nothing (zero), a hexadecimal, octal or binary integer, or a
    signed decimal literal with an optional fraction and exponent; anything
    else is [NaN].  The value is kept exact, as [m * 10^e]; which double it
    rounds to is decided where it matters. *)

Module Js.

Definition bytes (l : list N) : string :=
  fold_right (fun n s => String (ascii_of_N n) s) "" l.

(** The white space and line terminator characters, in UTF-8: U+0009 to
    U+000D, U+0020, U+00A0, U+1680, U+2000 to U+200A, U+2028, U+2029,
    U+202F, U+205F, U+3000 and U+FEFF. *)
Definition white_space : list string :=
  map bytes
    [ [9]; [10]; [11]; [12]; [13]; [32]; [194; 160]; [225; 154; 128];
      [226; 128; 128]; [226; 128; 129]; [226; 128; 130]; [226; 128; 131];
      [226; 128; 132]; [226; 128; 133]; [226; 128; 134]; [226; 128; 135];
      [226; 128; 136]; [226; 128; 137]; [226; 128; 138];
      [226; 128; 168]; [226; 128; 169]; [226; 128; 175];
      [226; 129; 159]; [227; 128; 128]; [239; 187; 191] ]%N.

Fixpoint drop_prefix (pre s : string) : option string :=
  match pre, s with
  | EmptyString, _ => Some s
  | String a pre', String b s' =>
      if Ascii.eqb a b then drop_prefix pre' s' else None
  | String _ _, EmptyString => None
  end.

(** [s] without the first of [ws] it starts with. *)
Fixpoint drop_one (ws : list string) (s : string) : option string :=
  match ws with
  | [] => None
  | w :: ws' =>
      match drop_prefix w s with
      | Some t => Some t
      | None => drop_one ws' s
      end
  end.

Fixpoint strip (ws : list string) (fuel : nat) (s : string) : string :=
  match fuel with
  | O => s
  | S fuel' =>
      match drop_one ws s with
      | Some t => strip ws fuel' t
      | None => s
      end
  end.

Definition reverse (s : string) : string :=
  string_of_list_ascii (rev (list_ascii_of_string s)).

(** [s.trim()] *)
Definition trim (s : string) : string :=
  let t := strip white_space (String.length s) s in
  reverse (strip (map reverse white_space) (String.length t) (reverse t)).

Inductive number : Type :=
| NaN
| Infinity (negative : bool)
| Finite (negative : bool) (m : N) (e : Z).

(** The value of the digit [c] in base [radix]. *)
Definition digit_of (radix : N) (c : ascii) : option N :=
  match URI.hex_val c with
  | Some d => if (d <? radix)%N then Some d else None
  | None => None
  end.

Fixpoint value_from (radix acc : N) (s : string) : option N :=
  match s with
  | EmptyString => Some acc
  | String c s' =>
      match digit_of radix c with
      | Some d => value_from radix (radix * acc + d)%N s'
      | None => None
      end
  end.

(** The value of a non-empty string of digits of base [radix]. *)
Definition digits_value (radix : N) (s : string) : option N :=
  match s with
  | EmptyString => None
  | _ => value_from radix 0%N s
  end.

Definition is_digit (c : ascii) : bool :=
  match digit_of 10 c with
  | Some _ => true
  | None => false
  end.

(** The longest prefix of decimal digits, and the rest. *)
Fixpoint span_digits (s : string) : string * string :=
  match s with
  | EmptyString => (EmptyString, EmptyString)
  | String c s' =>
      match digit_of 10 c with
      | Some _ => let '(ds, rest) := span_digits s' in (String c ds, rest)
      | None => (EmptyString, s)
      end
  end.

Definition radix_of (c : ascii) : option N :=
  if (Ascii.eqb c "x"%char || Ascii.eqb c "X"%char)%bool then Some 16%N
  else if (Ascii.eqb c "o"%char || Ascii.eqb c "O"%char)%bool then Some 8%N
  else if (Ascii.eqb c "b"%char || Ascii.eqb c "B"%char)%bool then Some 2%N
  else None.

(** [0x..], [0o..] and [0b..]: no sign, digits up to the end. *)
Definition non_decimal (s : string) : option number :=
  match s with
  | String a (String c ds) =>
      if Ascii.eqb a "0"%char then
        match radix_of c with
        | Some radix =>
            Some match digits_value radix ds with
                 | Some n => Finite false n 0
                 | None => NaN
                 end
        | None => None
        end
      else None
  | _ => None
  end.

Definition sign (s : string) : bool * string :=
  match s with
  | String c s' =>
      if Ascii.eqb c "+"%char then (false, s')
      else if Ascii.eqb c "-"%char then (true, s')
      else (false, s)
  | EmptyString => (false, s)
  end.

(** An exponent part up to the end of the string, or nothing. *)
Definition exponent (s : string) : option Z :=
  match s with
  | EmptyString => Some 0%Z
  | String c s' =>
      if (Ascii.eqb c "e"%char || Ascii.eqb c "E"%char)%bool then
        let '(neg, ds) := sign s' in
        match digits_value 10 ds with
        | Some x => Some (if neg then (- Z.of_N x)%Z else Z.of_N x)
        | None => None
        end
      else None
  end.

(** Digits with an optional fraction and exponent; at least one digit
    before or after the point. *)
Definition unsigned_decimal (s : string) : option (N * Z) :=
  let '(ip, r1) := span_digits s in
  let '(fp, r2) :=
    match r1 with
    | String c t => if Ascii.eqb c "."%char then span_digits t else (EmptyString, r1)
    | EmptyString => (EmptyString, r1)
    end in
  match digits_value 10 (ip +:+ fp), exponent r2 with
  | Some m, Some x => Some (m, (x - Z.of_nat (String.length fp))%Z)
  | _, _ => None
  end.

(** [Number(s)] *)
Definition Number (s : string) : number :=
  let t := trim s in
  match t with
  | EmptyString => Finite false 0 0
  | _ =>
      match non_decimal t with
      | Some v => v
      | None =>
          let '(neg, u) := sign t in
          if String.eqb u "Infinity" then Infinity neg
          else match unsigned_decimal u with
               | Some (m, e) => Finite neg m e
               | None => NaN
               end
      end
  end.

(** [m * 10^e] as a fraction. *)
Definition fraction (m : N) (e : Z) : N * N :=
  match e with
  | Zneg p => (m, 10 ^ Npos p)%N
  | _ => (m * 10 ^ Z.to_N e, 1)%N
  end.

(** The double nearest to [num/den] is the integer [n], for [n] up to
    65535: the doubles next to such an [n] lie [2^(k-52)] above it and as
    far below it (half as far when [n] is [2^k]), where [2^k <= n <
    2^(k+1)], and a value half way is rounded to [n], whose significand is
    even; next to zero lie the doubles [2^-1074] and its opposite. *)
Definition rounds_to (num den n : N) : bool :=
  if (n =? 0)%N then (num * 2 ^ 1075 <=? den)%N
  else
    let k := N.log2 n in
    let hi := (53 - k)%N in
    let lo := (if n =? 2 ^ k then 54 - k else 53 - k)%N in
    ((num * 2 ^ hi <=? (n * 2 ^ hi + 1) * den)
     && ((n * 2 ^ lo - 1) * den <=? num * 2 ^ lo))%N.

(** The integer up to 65535 that [num/den] is as a double, if it is one. *)
Definition small_integer (num den : N) : option N :=
  let a := (num / den)%N in
  if ((a <=? 65535) && rounds_to num den a)%N then Some a
  else if ((a + 1 <=? 65535) && rounds_to num den (a + 1))%N then Some (a + 1)%N
  else None.

End Js.

(** ** web/server.js *)

Module Server.

Import Http.

Section App.

(** [__dirname]: the segments of the absolute directory that holds
    server.js. *)
Variable dirname : list string.

(** [const WEB_DIR = path.join(__dirname, 'web')] *)
Definition WEB_DIR : list string := Path.join dirname "web".

(** [{ index: 'index.html', extensions: ['html'] }], the other options of
    [express.static] at their defaults. *)
Definition static_options : Send.options :=
  {| Send.index := ["index.html"];
     Send.extensions := ["html"];
     Send.dotfiles := None;
     Send.hidden := false;
     Send.fallthrough := true;
     Send.redirect := true |}.

(** [(req, res) => res.json({ ok: true })] *)
Definition health : Express.handler :=
  fun _ _ => Express.res_json (JObject [("ok", JBool true)]).

(** [(req, res) => { res.redirect('/web/buyer/') }] *)
Definition root : Express.handler :=
  fun _ _ => Express.res_redirect "/web/buyer/".

(** The middleware stack, in the order server.js registers it (the two
    layers Express itself installs before them always call [next()] and are
    left out; positions count from the first layer of server.js). *)
Definition app : list Express.layer :=
  [ Express.Use "/web" (ServeStatic.serveStatic WEB_DIR static_options);
    Express.Use "/" (ServeStatic.serveStatic WEB_DIR static_options);
    Express.Use "/" (ServeStatic.serveStatic dirname static_options);
    Express.Route GET "/health" health;
    Express.Route GET "/" root ].

(** The response to a request, with the layers that were called. *)
Definition handle_traced (fs : FS.t) (req : request) : list nat * response :=
  Express.dispatch app 0 fs req.

Definition handle (fs : FS.t) (req : request) : response :=
  snd (handle_traced fs req).

End App.

(** *** The listen port *)

Inductive js_value : Type :=
| JString (s : string)
| JNumber (n : N).

(** [a || b] on an environment entry: [undefined] and the empty string are
    falsy. *)
Definition or_default (a : option string) (b : N) : js_value :=
  match a with
  | Some s => if String.eqb s "" then JNumber b else JString s
  | None => JNumber b
  end.

(** [const PORT = process.env.PORT || 8080] *)
Definition PORT (env : gmap string string) : js_value :=
  or_default (env !! "PORT") 8080%N.

(** What [app.listen(PORT)] is asked to do: bind the TCP port [n] (from 1
    to 65535), bind a port of the system's choice (port 0), throw
    [ERR_SOCKET_BAD_PORT], or listen on the pipe or socket named [s]. *)
Inductive listen_target : Type :=
| TcpPort (n : N)
| AnyPort
| BadPort
| Pipe (s : string).

Definition port (n : N) : listen_target :=
  if (n =? 0)%N then AnyPort
  else if (n <=? 65535)%N then TcpPort n else BadPort.

(** [server.listen(v)] of Node's [net]: a string whose [Number] is [NaN] or
    negative is the name of a pipe; any other value is a port, which
    [validatePort] accepts when it is not blank and its number is an integer
    from 0 to 65535. *)
Definition listen (v : js_value) : listen_target :=
  match v with
  | JNumber n => port n
  | JString s =>
      match Js.Number s with
      | Js.NaN => Pipe s
      | Js.Infinity neg => if neg then Pipe s else BadPort
      | Js.Finite neg m e =>
          let '(num, den) := Js.fraction m e in
          if (neg && negb (Js.rounds_to num den 0))%bool then Pipe s
          else if String.eqb (Js.trim s) "" then BadPort
          else match Js.small_integer num den with
               | Some n => port n
               | None => BadPort
               end
      end
  end.

(** The running process: the environment it was started with (which the
    program does not read again) and the listener bound at start. *)
Record process : Type := {
  env : gmap string string;
  listening : listen_target
}.

(** [app.listen(PORT, ...)] at process start. *)
Definition start (e : gmap string string) : process :=
  {| env := e; listening := listen (PORT e) |}.



End Server.

(** ** Vocabulary of the specification *)

Module Spec.

Import Http Server.

(** *** Ordinary names and paths

    A plain name is a non-empty file name that does not start with a dot
    and holds no separator, escape or NUL character; a plain path is a
    non-empty list of plain names. *)

Definition plain_char (c : ascii) : bool :=
  negb (Str.is_any_slash c || Ascii.eqb c Str.percent || Ascii.eqb c Str.nul).

Fixpoint all_chars (f : ascii -> bool) (s : string) : bool :=
  match s with
  | EmptyString => true
  | String c s' => f c && all_chars f s'
  end.

(** A character that is neither a dot nor a percent sign. *)
Definition tame (c : ascii) : bool :=
  negb (Ascii.eqb c Str.dot) && negb (Ascii.eqb c Str.percent).

Definition plain_name (s : string) : bool :=
  negb (String.eqb s "") && negb (Str.starts_with_dot s)
  && all_chars plain_char s.

Definition plain_path (segs : list string) : bool :=
  match segs with
  | [] => false
  | _ => forallb plain_name segs
  end.

(** The request path that names [segs]. *)
Definition url_of (segs : list string) : string := "/" +:+ Str.join segs.

(** A name a directory entry can have. *)
Definition proper_name (s : string) : bool :=
  negb (String.eqb s "") && negb (String.eqb s ".")
  && negb (String.eqb s "..") && negb (Str.contains Str.slash s).

(** *** What exists in the file system *)

Definition is_file (r : FS.stat_result) : bool :=
  match r with
  | FS.IsFile _ => true
  | _ => false
  end.

Definition file_at (fs : FS.t) (p : list string) : bool :=
  is_file (FS.stat fs p false).

(** Nothing, neither a file nor a directory, exists at [p]. *)
Definition absent (fs : FS.t) (p : list string) : bool :=
  match FS.stat fs p false with
  | FS.Err _ => true
  | _ => false
  end.

(** [f] lies strictly below the directory [dir]. *)
Definition below (dir f : list string) : Prop :=
  exists rel, f = dir ++ rel /\ rel <> [] /\ forallb proper_name rel = true.

(** Where a file streamed by a lookup lies, relative to the root of the
    lookup: below it or at it, or beside it under the root's own name with
    [.html] added, when the root itself does not exist. *)
Definition placed (fs : FS.t) (root f : list string) : Prop :=
  (exists rel, f = root ++ rel /\ forallb proper_name rel = true)
  \/ (f = Send.add_extension root "html" /\ absent fs root = true).

(** *** The three lookup strategies

    [strip_web p]: [p] without its [/web] prefix, when [p] is [/web] itself
    or continues with a slash (the prefix is compared without regard to
    case). *)
Definition strip_web (p : string) : option string :=
  match Str.strip_prefix_ci "/web" p with
  | Some rest =>
      if (String.eqb rest "" || Str.starts_with_slash rest)%bool
      then Some rest else None
  | None => None
  end.

(** A strategy: the position of its middleware in the stack, the root it
    searches and the path it resolves there. *)
Definition strategy : Type := nat * (list string * string).

Definition strategies (dirname : list string) (p : string) : list strategy :=
  match strip_web p with
  | Some q => [(0%nat, (WEB_DIR dirname, q))]
  | None => []
  end ++ [(1%nat, (WEB_DIR dirname, p)); (2%nat, (dirname, p))].

(** The lookup of a strategy, with the index and extension rules. *)
Definition lookup (fs : FS.t) (s : strategy) : Send.result :=
  Send.pipe static_options (fst (snd s)) fs (snd (snd s)).

(** A lookup locates something when it ends on a file or on a directory. *)
Definition found (r : Send.result) : bool :=
  match r with
  | Send.Error _ => false
  | _ => true
  end.

Definition fails (fs : FS.t) (s : strategy) : bool := negb (found (lookup fs s)).

(** What the client receives when a lookup for the request path [p] ends
    on a file (the file) or on a directory (a redirect to [p/]). *)
Definition answer (p : string) (r : Send.result) : option response :=
  match r with
  | Send.Stream f c => Some (ServeStatic.ok_file f c)
  | Send.Directory =>
      Some (ServeStatic.moved (ServeStatic.collapseLeadingSlashes (p +:+ "/")))
  | Send.Error _ => None
  end.

(** The strategies tried one after the other, each only when those before
    it failed: the positions tried, and the answer of the first that
    locates something. *)
Fixpoint first_answer (fs : FS.t) (p : string) (ss : list strategy)
    : list nat * option response :=
  match ss with
  | [] => ([], None)
  | s :: ss' =>
      match answer p (lookup fs s) with
      | Some r => ([fst s], Some r)
      | None => let '(tr, a) := first_answer fs p ss' in (fst s :: tr, a)
      end
  end.

(** The first answer in a list of attempts. *)
Fixpoint first_of (answers : list (option response)) : option response :=
  match answers with
  | [] => None
  | Some r :: _ => Some r
  | None :: rest => first_of rest
  end.

(** The two routes of server.js, which follow the static middlewares. *)
Definition routes : list Express.layer :=
  [ Express.Route GET "/health" health; Express.Route GET "/" root ].

(** The layers of the stack that were called for a GET on [p]. *)
Definition consulted (dirname : list string) (fs : FS.t) (p : string) : list nat :=
  fst (handle_traced dirname fs (get p)).

(** *** Lookups of a plain path

    The absolute paths the strategies examine for the request [url_of segs],
    in order: below root (a) without the leading [web], when there is one;
    below root (a); below the base directory. *)
Definition lookups (dirname : list string) (segs : list string)
    : list (list string) :=
  (if Str.eqb_ci (List.hd "" segs) "web"
   then [WEB_DIR dirname ++ List.tl segs] else [])
  ++ [WEB_DIR dirname ++ segs; dirname ++ segs].

(** At [q] there is nothing, and [q.html] is not a file: a request for the
    file [q] is passed on. *)
Definition misses (fs : FS.t) (q : list string) : bool :=
  absent fs q && negb (file_at fs (Send.add_extension q "html")).

(** [q/index.html] is not a file: a request for the directory [q/] is
    passed on. *)
Definition no_index (fs : FS.t) (q : list string) : bool :=
  negb (file_at fs (Path.join q "index.html")).

(** *** Path traversal

    [climbs depth segs]: read from a directory [depth] levels below a root,
    the segments step above that root at some point. *)
Fixpoint climbs (depth : nat) (segs : list string) : bool :=
  match segs with
  | [] => false
  | s :: rest =>
      if (String.eqb s "" || String.eqb s ".")%bool then climbs depth rest
      else if String.eqb s ".." then
        match depth with
        | O => true
        | S d => climbs d rest
        end
      else climbs (S depth) rest
  end.

(** *** Numerals *)

(** The decimal numeral of [n], without leading zeros. *)
Definition numeral (n : N) : string := NilEmpty.string_of_uint (N.to_uint n).

(** *** Requests of any method *)

(** The request as it comes in: nothing trimmed yet. *)
Definition incoming (m : method) (p : string) : request :=
  {| meth := m; originalUrl := p; url := p |}.

(** [s] starts with two slashes (a browser reads such a [Location] as the
    name of another host). *)
Definition double_slash (s : string) : bool :=
  match s with
  | String a (String b _) => Str.is_slash a && Str.is_slash b
  | _ => false
  end.

End Spec.

(** ** Sample file systems *)

Module Samples.

Definition dir : list string := ["srv"; "food"].

(** Places a tree of entries at [dir]. *)
Definition at_dir (entries : gmap string FS.node) : FS.t :=
  {[ "srv" := FS.Dir {[ "food" := FS.Dir entries ]} ]}.

(** Only the server's own directory, empty. *)
Definition bare : FS.t := at_dir ∅.

(** web/index.html and web/buyer/index.html. *)
Definition site : FS.t :=
  at_dir {[ "web" := FS.Dir {[
              "index.html" := FS.File "<h1>home</h1>";
              "buyer" := FS.Dir {[ "index.html" := FS.File "<h1>buyer</h1>" ]};
              "about.html" := FS.File "<h1>about</h1>";
              "app.js" := FS.File "run()" ]} ]}.

(** A dot file in root (a), and a file with a percent sign in its name. *)
Definition with_dotfile : FS.t :=
  at_dir {[ "web" := FS.Dir {[ ".env" := FS.File "SECRET=1";
                               "100%.txt" := FS.File "all" ]} ]}.

(** [about] in root (a), [about.html] in the base directory. *)
Definition shadowed_html : FS.t :=
  at_dir {[ "web" := FS.Dir {[ "about" := FS.File "from web" ]};
            "about.html" := FS.File "from base" ]}.

(** [buyer/index.html] in both roots. *)
Definition shadowed_index : FS.t :=
  at_dir {[ "web" := FS.Dir {[
              "buyer" := FS.Dir {[ "index.html" := FS.File "web buyer" ]} ]};
            "buyer" := FS.Dir {[ "index.html" := FS.File "base buyer" ]} ]}.

(** Root (a) holds [logo.png] and a directory [web] with another
    [logo.png]. *)
Definition nested_web : FS.t :=
  at_dir {[ "web" := FS.Dir {[
              "logo.png" := FS.File "outer";
              "web" := FS.Dir {[ "logo.png" := FS.File "inner" ]} ]} ]}.

(** An empty directory [docs] in root (a). *)
Definition empty_docs : FS.t :=
  at_dir {[ "web" := FS.Dir {[ "docs" := FS.Dir ∅ ]} ]}.

(** No [web] directory: the pages lie in the base directory, beside
    server.js. *)
Definition flat : FS.t :=
  at_dir {[ "server.js" := FS.File "const express = require('express');";
            "buyer" := FS.Dir {[ "index.html" := FS.File "<h1>buyer</h1>" ]} ]}.

(** A file named [health] in root (a). *)
Definition with_health_file : FS.t :=
  at_dir {[ "web" := FS.Dir {[ "health" := FS.File "not json" ]} ]}.

(** A directory named [health] in root (a), and no file named [health] or
    [health.html] anywhere. *)
Definition health_directory : FS.t :=
  at_dir {[ "web" := FS.Dir {[
              "health" := FS.Dir {[ "readme.txt" := FS.File "checks" ]} ]} ]}.

(** Root (a) holds a directory [docs] and, in its directory [web], a file
    [docs]. *)
Definition directory_first : FS.t :=
  at_dir {[ "web" := FS.Dir {[
              "docs" := FS.Dir ∅;
              "web" := FS.Dir {[ "docs" := FS.File "the manual" ]} ]} ]}.

(** A file outside the server's directory. *)
Definition with_passwd : FS.t :=
  {[ "etc" := FS.Dir {[ "passwd" := FS.File "root:x:0:0" ]};
     "srv" := FS.Dir {[ "food" := FS.Dir {[ "web" := FS.Dir ∅ ]} ]} ]}.

End Samples.

(** * Properties of the model *)

(** ** Strings *)

Module StrFacts.

Import Str Spec.

Lemma all_chars_impl (f g : ascii -> bool) (s : string) :
  (forall c, f c = true -> g c = true) ->
  all_chars f s = true -> all_chars g s = true.
Proof.
  intros Hfg. induction s as [|c s IH]; simpl; [reflexivity|].
  intros H. apply andb_true_iff in H as [Hc Hs].
  rewrite (Hfg _ Hc), (IH Hs). reflexivity.
Qed.

Lemma split_on_nonempty (sep : ascii -> bool) (s : string) :
  split_on sep s <> [].
Proof.
  destruct s as [|c s]; simpl; [discriminate|].
  destruct (sep c); [discriminate|].
  destruct (split_on sep s); discriminate.
Qed.

Lemma split_on_none (sep : ascii -> bool) (s : string) :
  all_chars (fun c => negb (sep c)) s = true -> split_on sep s = [s].
Proof.
  induction s as [|c s IH]; simpl; [reflexivity|].
  intros H. apply andb_true_iff in H as [Hc Hs].
  apply negb_true_iff in Hc. rewrite Hc, (IH Hs). reflexivity.
Qed.

Lemma split_on_app (sep : ascii -> bool) (a : string) (c : ascii) (s : string) :
  all_chars (fun c => negb (sep c)) a = true -> sep c = true ->
  split_on sep (a +:+ String c s) = a :: split_on sep s.
Proof.
  intros Ha Hc. induction a as [|x a IH]; simpl.
  - rewrite Hc. reflexivity.
  - simpl in Ha. apply andb_true_iff in Ha as [Hx Ha].
    apply negb_true_iff in Hx. rewrite Hx, (IH Ha). reflexivity.
Qed.

Lemma plain_char_not_slash (c : ascii) :
  plain_char c = true -> negb (is_slash c) = true.
Proof.
  unfold plain_char, is_any_slash, is_slash. intros H.
  apply negb_true_iff in H. apply negb_true_iff.
  destruct (Ascii.eqb c slash); [discriminate H | reflexivity].
Qed.

Lemma plain_char_not_any_slash (c : ascii) :
  plain_char c = true -> negb (is_any_slash c) = true.
Proof.
  unfold plain_char. intros H. apply negb_true_iff in H. apply negb_true_iff.
  destruct (is_any_slash c); [discriminate H | reflexivity].
Qed.

Lemma plain_char_not_percent (c : ascii) :
  plain_char c = true -> Ascii.eqb c percent = false.
Proof.
  unfold plain_char. intros H. apply negb_true_iff in H.
  apply orb_false_iff in H as [H _]. apply orb_false_iff in H as [_ H]. exact H.
Qed.

Lemma plain_char_not_nul (c : ascii) :
  plain_char c = true -> Ascii.eqb c nul = false.
Proof.
  unfold plain_char. intros H. apply negb_true_iff in H.
  apply orb_false_iff in H as [_ H]. exact H.
Qed.

(** The three parts of [plain_name]. *)
Lemma plain_name_inv (s : string) :
  plain_name s = true ->
  s <> "" /\ starts_with_dot s = false /\ all_chars plain_char s = true.
Proof.
  unfold plain_name. intros H.
  apply andb_true_iff in H as [H Hc]. apply andb_true_iff in H as [He Hd].
  apply negb_true_iff in He, Hd. apply String.eqb_neq in He. auto.
Qed.

Lemma plain_name_no_slash (s : string) :
  plain_name s = true -> all_chars (fun c => negb (is_slash c)) s = true.
Proof.
  intros H. apply plain_name_inv in H as (_ & _ & H).
  revert H. apply all_chars_impl, plain_char_not_slash.
Qed.

Lemma plain_path_inv (segs : list string) :
  plain_path segs = true -> segs <> [] /\ forallb plain_name segs = true.
Proof. destruct segs; simpl; intros H; [discriminate | split; [discriminate | exact H]]. Qed.

Lemma split_join (segs : list string) :
  segs <> [] -> forallb plain_name segs = true ->
  split_on is_slash (join segs) = segs.
Proof.
  induction segs as [|x [|y r] IH]; intros Hne H; [congruence | |].
  - simpl in *. apply andb_true_iff in H as [Hx _].
    apply split_on_none, plain_name_no_slash, Hx.
  - change (join (x :: y :: r)) with (x +:+ String slash (join (y :: r))).
    apply andb_true_iff in H as [Hx Hr].
    rewrite split_on_app; [|apply plain_name_no_slash, Hx | reflexivity].
    rewrite IH; [reflexivity | discriminate | exact Hr].
Qed.

Lemma append_assoc (a b c : string) : (a +:+ b) +:+ c = a +:+ (b +:+ c).
Proof. induction a as [|x a IH]; simpl; [reflexivity | f_equal; exact IH]. Qed.

Lemma split_join_slash (segs : list string) :
  segs <> [] -> forallb plain_name segs = true ->
  split_on is_slash (join segs +:+ "/") = segs ++ [""].
Proof.
  induction segs as [|x [|y r] IH]; intros Hne H; [congruence | |].
  - simpl in H. apply andb_true_iff in H as [Hx _]. simpl join.
    rewrite split_on_app; [reflexivity | apply plain_name_no_slash, Hx | reflexivity].
  - change (join (x :: y :: r)) with (x +:+ String slash (join (y :: r))).
    apply andb_true_iff in H as [Hx Hr].
    rewrite append_assoc. change (String slash (join (y :: r)) +:+ "/")
      with (String slash (join (y :: r) +:+ "/")).
    rewrite split_on_app; [|apply plain_name_no_slash, Hx | reflexivity].
    rewrite IH; [reflexivity | discriminate | exact Hr].
Qed.

Lemma ends_with_slash_cons (c : ascii) (s : string) :
  s <> "" -> ends_with_slash (String c s) = ends_with_slash s.
Proof. destruct s; [congruence | reflexivity]. Qed.

Lemma ends_with_slash_app (a b : string) :
  b <> "" -> ends_with_slash (a +:+ b) = ends_with_slash b.
Proof.
  intros Hb. induction a as [|x a IH]; simpl; [reflexivity|].
  rewrite ends_with_slash_cons; [exact IH|].
  destruct a; simpl; [exact Hb | discriminate].
Qed.

Lemma no_slash_ends (s : string) :
  all_chars (fun c => negb (is_slash c)) s = true -> ends_with_slash s = false.
Proof.
  induction s as [|c s IH]; [reflexivity|]. simpl all_chars.
  intros H. apply andb_true_iff in H as [Hc Hs].
  destruct s as [|d s].
  - unfold ends_with_slash. simpl. apply negb_true_iff, Hc.
  - rewrite ends_with_slash_cons; [apply IH, Hs | discriminate].
Qed.

Lemma join_nonempty (segs : list string) :
  segs <> [] -> forallb plain_name segs = true -> join segs <> "".
Proof.
  destruct segs as [|x [|y r]]; intros Hne H; [congruence | |].
  - simpl in *. apply andb_true_iff in H as [Hx _].
    apply plain_name_inv in Hx as (Hx & _). exact Hx.
  - change (join (x :: y :: r)) with (x +:+ String slash (join (y :: r))).
    destruct x; simpl; discriminate.
Qed.

Lemma join_ends (segs : list string) :
  segs <> [] -> forallb plain_name segs = true ->
  ends_with_slash (join segs) = false.
Proof.
  induction segs as [|x [|y r] IH]; intros Hne H; [congruence | |].
  - simpl in *. apply andb_true_iff in H as [Hx _].
    apply no_slash_ends, plain_name_no_slash, Hx.
  - change (join (x :: y :: r)) with (x +:+ String slash (join (y :: r))).
    apply andb_true_iff in H as [Hx Hr].
    rewrite ends_with_slash_app; [|discriminate].
    rewrite ends_with_slash_cons; [apply IH; [discriminate | exact Hr]|].
    apply join_nonempty; [discriminate | exact Hr].
Qed.

Lemma url_of_ends (segs : list string) :
  plain_path segs = true -> ends_with_slash (url_of segs) = false.
Proof.
  intros H. apply plain_path_inv in H as [Hne H]. unfold url_of. simpl.
  rewrite ends_with_slash_cons; [apply join_ends | apply join_nonempty]; assumption.
Qed.

Lemma ends_with_slash_added (s : string) : ends_with_slash (s +:+ "/") = true.
Proof. rewrite ends_with_slash_app; [reflexivity | discriminate]. Qed.

End StrFacts.

(** ** Decoding and normalising a plain path *)

Module PathFacts.

Import Str Spec StrFacts.

Lemma all_chars_app (f : ascii -> bool) (a b : string) :
  all_chars f (a +:+ b) = all_chars f a && all_chars f b.
Proof.
  induction a as [|x a IH]; simpl; [reflexivity|].
  rewrite IH. apply andb_assoc.
Qed.

Lemma all_chars_join (f : ascii -> bool) (segs : list string) :
  f slash = true ->
  forallb (all_chars f) segs = true -> all_chars f (join segs) = true.
Proof.
  intros Hs. induction segs as [|x [|y r] IH]; intros H; [reflexivity | |].
  - simpl in *. apply andb_true_iff in H as [Hx _]. exact Hx.
  - change (join (x :: y :: r)) with (x +:+ String slash (join (y :: r))).
    simpl forallb in H. apply andb_true_iff in H as [Hx Hr].
    rewrite all_chars_app, Hx. cbn [all_chars andb]. rewrite Hs. apply IH, Hr.
Qed.

Lemma forallb_impl {A : Type} (f g : A -> bool) (l : list A) :
  (forall x, f x = true -> g x = true) ->
  forallb f l = true -> forallb g l = true.
Proof.
  intros Hfg. induction l as [|x l IH]; simpl; [reflexivity|].
  intros H. apply andb_true_iff in H as [Hx Hl].
  rewrite (Hfg _ Hx), (IH Hl). reflexivity.
Qed.

Lemma contains_all_chars (c : ascii) (s : string) :
  all_chars (fun x => negb (Ascii.eqb x c)) s = true -> contains c s = false.
Proof.
  induction s as [|x s IH]; simpl; [reflexivity|].
  intros H. apply andb_true_iff in H as [Hx Hs].
  apply negb_true_iff in Hx. rewrite Hx, (IH Hs). reflexivity.
Qed.

(** *** [decodeURIComponent] without escapes *)

Lemma unescape_raw (s : string) :
  all_chars (fun c => negb (Ascii.eqb c percent)) s = true ->
  URI.unescape s = Some (map URI.Raw (list_ascii_of_string s)).
Proof.
  induction s as [|c s IH]; [reflexivity|]. simpl all_chars.
  intros H. apply andb_true_iff in H as [Hc Hs]. apply negb_true_iff in Hc.
  simpl. rewrite Hc, (IH Hs). reflexivity.
Qed.

Lemma utf8_raw (s : string) :
  URI.utf8 0 128 191 (map URI.Raw (list_ascii_of_string s)) = Some s.
Proof. induction s as [|c s IH]; simpl; [reflexivity | rewrite IH; reflexivity]. Qed.

Lemma decode_no_percent (s : string) :
  all_chars (fun c => negb (Ascii.eqb c percent)) s = true ->
  URI.decodeURIComponent s = Some s.
Proof.
  intros H. unfold URI.decodeURIComponent.
  rewrite (unescape_raw _ H). apply utf8_raw.
Qed.

Lemma decode_cons (c : ascii) (s : string) :
  Ascii.eqb c percent = false ->
  URI.decodeURIComponent (String c s) =
  option_map (String c) (URI.decodeURIComponent s).
Proof.
  intros Hc. unfold URI.decodeURIComponent. simpl URI.unescape. rewrite Hc.
  destruct (URI.unescape s) as [ts|]; [|reflexivity].
  simpl. destruct (URI.utf8 0 128 191 ts); reflexivity.
Qed.

Lemma url_of_chars (f : ascii -> bool) (segs : list string) :
  f slash = true -> (forall c, plain_char c = true -> f c = true) ->
  forallb plain_name segs = true -> all_chars f (url_of segs) = true.
Proof.
  intros Hs Hf H. unfold url_of.
  change ("/" +:+ join segs) with (String slash (join segs)).
  cbn [all_chars]. rewrite Hs. cbn [andb].
  apply all_chars_join; [exact Hs|].
  revert H. apply forallb_impl. intros x Hx.
  apply plain_name_inv in Hx as (_ & _ & Hx).
  revert Hx. apply all_chars_impl, Hf.
Qed.

Lemma decode_url_of (segs : list string) :
  forallb plain_name segs = true ->
  URI.decodeURIComponent (url_of segs) = Some (url_of segs).
Proof.
  intros H. apply decode_no_percent, url_of_chars; [reflexivity | | exact H].
  intros c Hc. rewrite (plain_char_not_percent _ Hc). reflexivity.
Qed.

Lemma nul_url_of (segs : list string) :
  forallb plain_name segs = true -> contains nul (url_of segs) = false.
Proof.
  intros H. apply contains_all_chars, url_of_chars; [reflexivity | | exact H].
  intros c Hc. rewrite (plain_char_not_nul _ Hc). reflexivity.
Qed.

(** *** Normalisation of plain names *)

Lemma plain_name_ordinary (s : string) :
  plain_name s = true ->
  String.eqb s "" = false /\ String.eqb s "." = false
  /\ String.eqb s ".." = false.
Proof.
  intros H. apply plain_name_inv in H as (Hne & Hd & _).
  destruct s as [|c s]; [congruence|]. simpl in Hd. unfold dot in Hd.
  split; [reflexivity|]. split; simpl; rewrite Hd; reflexivity.
Qed.

Lemma normalize_plain (b : bool) (segs rest stack : list string) :
  forallb plain_name segs = true ->
  Path.normalize_segments b stack (segs ++ rest) =
  Path.normalize_segments b (rev segs ++ stack) rest.
Proof.
  revert stack. induction segs as [|x segs IH]; intros stack H; [reflexivity|].
  simpl forallb in H. apply andb_true_iff in H as [Hx Hs].
  apply plain_name_ordinary in Hx as (H1 & H2 & H3).
  simpl. rewrite H1, H2, H3. simpl. rewrite (IH _ Hs), <- app_assoc.
  reflexivity.
Qed.

Lemma normalize_url_of (segs : list string) :
  plain_path segs = true ->
  Path.normalize_relative (url_of segs) = (segs, false).
Proof.
  intros H. pose proof (url_of_ends _ H) as He.
  apply plain_path_inv in H as [Hne H].
  unfold Path.normalize_relative. rewrite He. f_equal.
  unfold url_of. simpl. rewrite (split_join _ Hne H).
  rewrite <- (app_nil_r segs) at 1. rewrite (normalize_plain _ _ _ _ H).
  simpl. rewrite app_nil_r. apply rev_involutive.
Qed.

Lemma normalize_url_of_slash (segs : list string) :
  plain_path segs = true ->
  Path.normalize_relative (url_of segs +:+ "/") = (segs, true).
Proof.
  intros H. apply plain_path_inv in H as [Hne H].
  unfold Path.normalize_relative. rewrite ends_with_slash_added. f_equal.
  unfold url_of. simpl. rewrite (split_join_slash _ Hne H).
  rewrite (normalize_plain _ _ _ _ H).
  simpl. rewrite app_nil_r. apply rev_involutive.
Qed.

End PathFacts.

(** ** The file system *)

Module FSFacts.

Import Spec.

Lemma stat_walk (fs : FS.t) (p : list string) :
  FS.stat fs p false = FS.walk (FS.Dir fs) p.
Proof. unfold FS.stat. destruct (FS.walk (FS.Dir fs) p); reflexivity. Qed.

Lemma stat_file_not_trailing (fs : FS.t) (p : list string) (t : bool) (c : string) :
  FS.stat fs p t = FS.IsFile c -> t = false.
Proof.
  unfold FS.stat. destruct (FS.walk (FS.Dir fs) p); try discriminate.
  destruct t; [discriminate | reflexivity].
Qed.

(** A path that runs through a regular file does so whatever its last
    segment is. *)
Lemma walk_enotdir_sibling (n : FS.node) (pre : list string) (a b : string) :
  FS.walk n (pre ++ [a]) = FS.Err FS.ENOTDIR ->
  FS.walk n (pre ++ [b]) = FS.Err FS.ENOTDIR.
Proof.
  revert n. induction pre as [|s pre IH]; intros n; simpl.
  - destruct n as [c|es]; [reflexivity|].
    destruct (es !! a) as [[?|?]|]; simpl; discriminate.
  - destruct n as [c|es]; [reflexivity|].
    destruct (es !! s) as [n'|]; [apply IH | discriminate].
Qed.

Lemma enotdir_extension (fs : FS.t) (p : list string) (ext : string) :
  FS.stat fs p false = FS.Err FS.ENOTDIR ->
  FS.stat fs (Send.add_extension p ext) false = FS.Err FS.ENOTDIR.
Proof.
  rewrite !stat_walk. intros H.
  assert (Hne : p <> []) by (intros ->; discriminate H).
  rewrite (app_removelast_last "" Hne) in H.
  unfold Send.add_extension. revert H. apply walk_enotdir_sibling.
Qed.

End FSFacts.

(** ** [send] on plain paths *)

Module SendFacts.

Import Str Spec StrFacts PathFacts FSFacts Server.

Lemma up_path_plain (segs : list string) :
  forallb plain_name segs = true -> Send.up_path segs = false.
Proof.
  unfold Send.up_path. induction segs as [|x segs IH]; [reflexivity|].
  cbn [existsb forallb].
  intros H. apply andb_true_iff in H as [Hx Hs]. rewrite (IH Hs), orb_false_r.
  pose proof (plain_name_ordinary _ Hx) as (_ & _ & Hdd).
  apply plain_name_inv in Hx as (_ & _ & Hc).
  rewrite (split_on_none is_any_slash x).
  - cbn [existsb]. rewrite String.eqb_sym in Hdd. rewrite Hdd. reflexivity.
  - revert Hc. apply all_chars_impl, plain_char_not_any_slash.
Qed.

Lemma no_dotfile_plain (segs : list string) :
  forallb plain_name segs = true ->
  existsb (fun p => (1 <? String.length p)%nat && starts_with_dot p) segs = false.
Proof.
  induction segs as [|x segs IH]; [reflexivity|]. cbn [existsb forallb].
  intros H. apply andb_true_iff in H as [Hx Hs]. rewrite (IH Hs), orb_false_r.
  apply plain_name_inv in Hx as (_ & Hd & _). rewrite Hd. apply andb_false_r.
Qed.

Lemma containsDotFile_plain (segs : list string) (trailing : bool) :
  plain_path segs = true ->
  Send.containsDotFile (Send.parts segs trailing) = false.
Proof.
  intros H. apply plain_path_inv in H as [Hne H].
  unfold Send.containsDotFile, Send.parts.
  destruct segs as [|x segs]; [congruence|].
  destruct trailing.
  - rewrite existsb_app, (no_dotfile_plain _ H). reflexivity.
  - apply no_dotfile_plain, H.
Qed.

(** A request for a plain path without a trailing slash is a request for
    the file of that name below the root. *)
Lemma pipe_plain_file (o : Send.options) (root : list string) (fs : FS.t)
    (segs : list string) :
  plain_path segs = true ->
  Send.pipe o root fs (url_of segs) = Send.sendFile o fs (root ++ segs) false.
Proof.
  intros H. pose proof (plain_path_inv _ H) as [Hne Hall].
  unfold Send.pipe.
  rewrite (decode_url_of _ Hall), (nul_url_of _ Hall).
  change (url_of segs =? "") with false. cbv iota.
  rewrite (normalize_url_of _ H), (up_path_plain _ Hall).
  rewrite (containsDotFile_plain _ false H), (url_of_ends _ H).
  rewrite andb_false_r. reflexivity.
Qed.

(** With a trailing slash it is a request for the index of that
    directory. *)
Lemma pipe_plain_dir (root : list string) (fs : FS.t) (segs : list string) :
  plain_path segs = true ->
  Send.pipe static_options root fs (url_of segs +:+ "/") =
  Send.sendIndex static_options fs (root ++ segs).
Proof.
  intros H. pose proof (plain_path_inv _ H) as [Hne Hall].
  assert (Hd : URI.decodeURIComponent (url_of segs +:+ "/")
               = Some (url_of segs +:+ "/")).
  { apply decode_no_percent. rewrite all_chars_app.
    rewrite url_of_chars; [reflexivity | reflexivity | | exact Hall].
    intros c Hc. rewrite (plain_char_not_percent _ Hc). reflexivity. }
  assert (Hn : contains nul (url_of segs +:+ "/") = false).
  { apply contains_all_chars. rewrite all_chars_app.
    rewrite url_of_chars; [reflexivity | reflexivity | | exact Hall].
    intros c Hc. rewrite (plain_char_not_nul _ Hc). reflexivity. }
  unfold Send.pipe. rewrite Hd, Hn.
  change (url_of segs +:+ "/" =? "") with false. cbv iota.
  rewrite (normalize_url_of_slash _ H), (up_path_plain _ Hall).
  rewrite (containsDotFile_plain _ true H), ends_with_slash_added.
  reflexivity.
Qed.

Lemma pipe_root (o : Send.options) (root : list string) (fs : FS.t) :
  Send.index o <> [] ->
  Send.pipe o root fs "/" = Send.sendIndex o fs root.
Proof.
  intros Hi. unfold Send.pipe. simpl. rewrite app_nil_r.
  destruct (Send.index o); [congruence | reflexivity].
Qed.

Lemma pipe_empty (o : Send.options) (root : list string) (fs : FS.t) :
  Send.pipe o root fs "" = Send.sendFile o fs root false.
Proof. unfold Send.pipe. simpl. rewrite app_nil_r, andb_false_r. reflexivity. Qed.

(** *** The results of [sendFile] and [sendIndex] *)

Lemma sendFile_file (o : Send.options) (fs : FS.t) (p : list string) (c : string) :
  FS.stat fs p false = FS.IsFile c -> Send.sendFile o fs p false = Send.Stream p c.
Proof. intros H. unfold Send.sendFile. rewrite H. reflexivity. Qed.

Lemma sendFile_dir (o : Send.options) (fs : FS.t) (p : list string) :
  FS.stat fs p false = FS.IsDir -> Send.sendFile o fs p false = Send.Directory.
Proof. intros H. unfold Send.sendFile. rewrite H. reflexivity. Qed.

Lemma sendFile_html (fs : FS.t) (p : list string) (c : string) :
  absent fs p = true -> Path.extname (List.last p "") = "" ->
  FS.stat fs (Send.add_extension p "html") false = FS.IsFile c ->
  Send.sendFile static_options fs p false =
  Send.Stream (Send.add_extension p "html") c.
Proof.
  unfold absent. intros Ha He Hf. unfold Send.sendFile.
  destruct (FS.stat fs p false) as [? | | []] eqn:Hs; try discriminate.
  - rewrite He. simpl. rewrite Hf. reflexivity.
  - rewrite (enotdir_extension _ _ "html" Hs) in Hf. discriminate.
Qed.

Lemma sendFile_miss (fs : FS.t) (p : list string) :
  misses fs p = true ->
  exists s, Send.sendFile static_options fs p false = Send.Error s.
Proof.
  unfold misses, absent, file_at. intros H.
  apply andb_true_iff in H as [Ha Hf]. apply negb_true_iff in Hf.
  unfold Send.sendFile.
  destruct (FS.stat fs p false) as [? | | []]; try discriminate; [|eauto].
  destruct (_ && _)%bool; [|eauto]. simpl.
  destruct (FS.stat fs (Send.add_extension p "html") false) as [? | | []];
    try discriminate; eauto.
Qed.

Lemma sendIndex_file (fs : FS.t) (p : list string) (c : string) :
  FS.stat fs (Path.join p "index.html") false = FS.IsFile c ->
  Send.sendIndex static_options fs p = Send.Stream (Path.join p "index.html") c.
Proof. intros H. unfold Send.sendIndex. simpl. rewrite H. reflexivity. Qed.

Lemma sendIndex_miss (fs : FS.t) (p : list string) :
  no_index fs p = true ->
  exists s, Send.sendIndex static_options fs p = Send.Error s.
Proof.
  unfold no_index, file_at. intros H. apply negb_true_iff in H.
  unfold Send.sendIndex. simpl.
  destruct (FS.stat fs (Path.join p "index.html") false) as [? | | []];
    try discriminate; eauto.
Qed.

End SendFacts.

(** ** [serve-static] and the mount point *)

Module StaticFacts.

Import Str Http Spec StrFacts PathFacts FSFacts SendFacts Server.

Lemma is_slash_eq (c : ascii) : is_slash c = true -> c = slash.
Proof. unfold is_slash. apply Ascii.eqb_eq. Qed.

(** *** Errors of [send] are client errors *)

Lemma try_extensions_error (fs : FS.t) (p exts : list string)
    (err : option FS.errno) (s : nat) :
  Send.try_extensions fs p exts err = Send.Error s -> s = 404%nat.
Proof.
  revert err. induction exts as [|e exts IH]; intros err; simpl.
  - destruct err as [[]|]; simpl; intros H; injection H as <-; reflexivity.
  - destruct (FS.stat fs (Send.add_extension p e) false); try discriminate; apply IH.
Qed.

Lemma try_indexes_error (fs : FS.t) (dir names : list string)
    (err : option FS.errno) (s : nat) :
  Send.try_indexes fs dir names err = Send.Error s -> s = 404%nat.
Proof.
  revert err. induction names as [|n names IH]; intros err; simpl.
  - destruct err as [[]|]; simpl; intros H; injection H as <-; reflexivity.
  - destruct (FS.stat fs (Path.join dir n) false); try discriminate; apply IH.
Qed.

Lemma try_indexes_not_directory (fs : FS.t) (dir names : list string)
    (err : option FS.errno) :
  Send.try_indexes fs dir names err <> Send.Directory.
Proof.
  revert err. induction names as [|n names IH]; intros err; simpl.
  - destruct err as [[]|]; discriminate.
  - destruct (FS.stat fs (Path.join dir n) false); try discriminate; apply IH.
Qed.

Lemma sendFile_error (o : Send.options) (fs : FS.t) (p : list string)
    (t : bool) (s : nat) :
  Send.sendFile o fs p t = Send.Error s -> s = 404%nat.
Proof.
  unfold Send.sendFile.
  destruct (FS.stat fs p t) as [? | | []]; try discriminate.
  - destruct (_ && _)%bool; [apply try_extensions_error|].
    simpl. intros H. injection H as <-. reflexivity.
  - simpl. intros H. injection H as <-. reflexivity.
Qed.

Lemma pipe_error (root : list string) (fs : FS.t) (raw : string) (s : nat) :
  Send.pipe static_options root fs raw = Send.Error s -> (s <? 500)%nat = true.
Proof.
  unfold Send.pipe.
  destruct (URI.decodeURIComponent raw) as [d|];
    [|intros H; injection H as <-; reflexivity].
  destruct (contains nul d); [intros H; injection H as <-; reflexivity|].
  destruct (if String.eqb d "" then _ else _) as [names tr].
  destruct (Send.up_path names); [intros H; injection H as <-; reflexivity|].
  destruct (Send.containsDotFile _).
  - unfold Send.dotfile_access. simpl Send.dotfiles. simpl Send.hidden.
    destruct (starts_with_dot _); [intros H; injection H as <-; reflexivity|].
    destruct (_ && _)%bool; intros H.
    + apply try_indexes_error in H. subst s. reflexivity.
    + apply sendFile_error in H. subst s. reflexivity.
  - destruct (_ && _)%bool; intros H.
    + apply try_indexes_error in H. subst s. reflexivity.
    + apply sendFile_error in H. subst s. reflexivity.
Qed.

Lemma pipe_directory (root : list string) (fs : FS.t) (raw : string) :
  Send.pipe static_options root fs raw = Send.Directory ->
  ends_with_slash raw = false.
Proof.
  unfold Send.pipe.
  destruct (URI.decodeURIComponent raw) as [d|]; [|discriminate].
  destruct (contains nul d); [discriminate|].
  destruct (if String.eqb d "" then _ else _) as [names tr].
  destruct (Send.up_path names); [discriminate|].
  assert (Hi : forall q, ends_with_slash raw = true ->
     (if (negb (Nat.eqb (List.length (Send.index static_options)) 0)
          && ends_with_slash raw)%bool
      then Send.sendIndex static_options fs q
      else Send.sendFile static_options fs q tr) <> Send.Directory).
  { intros q ->. simpl. apply try_indexes_not_directory. }
  destruct (ends_with_slash raw); [|reflexivity].
  destruct (Send.containsDotFile _).
  - destruct (Send.dotfile_access _ _); try discriminate.
    intros H. apply Hi in H; [destruct H | reflexivity].
  - intros H. apply Hi in H; [destruct H | reflexivity].
Qed.

(** *** What the middleware does with the result of a lookup *)

Lemma serveStatic_get (root : list string) (fs : FS.t) (req : request) :
  meth req = GET ->
  ServeStatic.serveStatic root static_options fs req =
  match answer (originalUrl req)
          (Send.pipe static_options root fs (ServeStatic.send_path req)) with
  | Some r => Respond r
  | None => Next
  end.
Proof.
  intros Hm. unfold ServeStatic.serveStatic. rewrite Hm.
  destruct (Send.pipe _ _ _ _) as [f c| |s] eqn:Hp; cbn [answer].
  - reflexivity.
  - unfold ServeStatic.onDirectory. rewrite (pipe_directory _ _ _ Hp).
    reflexivity.
  - unfold ServeStatic.forward. rewrite (pipe_error _ _ _ _ Hp). reflexivity.
Qed.

Lemma send_path_get (p : string) : ServeStatic.send_path (get p) = p.
Proof.
  unfold ServeStatic.send_path, get. cbn [url originalUrl].
  destruct (String.eqb_spec p "/") as [->|]; reflexivity.
Qed.

(** *** A doubled leading slash does not change a lookup *)

Lemma pipe_extra_slash (o : Send.options) (root : list string) (fs : FS.t)
    (s : string) :
  Send.pipe o root fs (String slash (String slash s)) =
  Send.pipe o root fs (String slash s).
Proof.
  unfold Send.pipe.
  rewrite !(decode_cons slash) by reflexivity.
  destruct (URI.decodeURIComponent s) as [d|]; [|reflexivity].
  cbn [option_map].
  change (contains nul (String slash (String slash d)))
    with (contains nul (String slash d)).
  destruct (contains nul (String slash d)); [reflexivity|].
  change (String slash (String slash d) =? "") with false.
  change (String slash d =? "") with false. cbv iota.
  assert (Hn : Path.normalize_relative (String slash (String slash d))
               = Path.normalize_relative (String slash d)).
  { reflexivity. }
  rewrite Hn. destruct (Path.normalize_relative (String slash d)) as [names tr].
  rewrite (ends_with_slash_cons slash (String slash s)) by discriminate.
  reflexivity.
Qed.

(** *** The mount point [/web] *)

Lemma strip_web_shape (p rest : string) :
  strip_prefix_ci "/web" p = Some rest ->
  exists a b c d,
    p = String a (String b (String c (String d rest))) /\ is_slash d = false.
Proof.
  destruct p as [|a [|b [|c [|d r]]]]; cbn [strip_prefix_ci];
    repeat (match goal with
            | |- (if ?t then _ else _) = _ -> _ => destruct t eqn:?
            end); try discriminate.
  intros H. injection H as <-. exists a, b, c, d. split; [reflexivity|].
  destruct (is_slash d) eqn:Hd; [|reflexivity].
  apply is_slash_eq in Hd. subst d.
  match goal with E : Ascii.eqb (to_lower slash) _ = true |- _ =>
    vm_compute in E; discriminate E end.
Qed.

Lemma mount_web_none (p : string) :
  strip_web p = None -> Express.match_mount "/web" p = None.
Proof.
  unfold strip_web, Express.match_mount.
  change (Express.without_trailing_slash "/web") with "/web".
  change ("/web" =? "/") with false. cbv iota.
  destruct (strip_prefix_ci "/web" p) as [[|x r]|]; [discriminate | | reflexivity].
  change (String x r =? "") with false. cbn [orb starts_with_slash].
  destruct (is_slash x); [discriminate | reflexivity].
Qed.

Lemma mount_web (p q : string) :
  strip_web p = Some q ->
  exists rest,
    Express.match_mount "/web" p = Some rest
    /\ forall o root fs,
         Send.pipe o root fs
           (ServeStatic.send_path (Express.trim_prefix rest (get p)))
         = Send.pipe o root fs q.
Proof.
  unfold strip_web, Express.match_mount.
  change (Express.without_trailing_slash "/web") with "/web".
  change ("/web" =? "/") with false. cbv iota.
  destruct (strip_prefix_ci "/web" p) as [r|] eqn:Hs; [|discriminate].
  destruct (strip_web_shape _ _ Hs) as (a & b & c & d & -> & Hd).
  unfold ServeStatic.send_path, Express.trim_prefix, get.
  cbn [url originalUrl meth].
  destruct r as [|x r].
  - intros H. injection H as <-. exists "". split; [reflexivity|].
    intros o root fs. cbn [starts_with_slash].
    change ("/" +:+ "") with "/". change ("/" =? "/") with true.
    unfold ends_with_slash. cbn [last_char]. rewrite Hd. reflexivity.
  - change (String x r =? "") with false. cbn [orb starts_with_slash].
    destruct (is_slash x) eqn:Hx; [|discriminate].
    intros H. injection H as <-. apply is_slash_eq in Hx. subst x.
    destruct r as [|y r].
    + exists "". split; [reflexivity|]. intros o root fs.
      cbn [starts_with_slash].
      change ("/" +:+ "") with "/". change ("/" =? "/") with true.
      reflexivity.
    + destruct (is_slash y) eqn:Hy.
      * exists (String y r). split.
        { cbn [starts_with_slash]. rewrite Hy, orb_true_r. reflexivity. }
        intros o root fs. cbn [starts_with_slash]. rewrite Hy.
        apply is_slash_eq in Hy. subst y.
        rewrite pipe_extra_slash.
        destruct (String.eqb_spec (String slash r) "/") as [E|E];
          [|reflexivity].
        rewrite E.
        replace (ends_with_slash _) with true; [reflexivity|].
        injection E as ->. reflexivity.
      * exists (String slash (String y r)). split.
        { cbn [starts_with_slash]. rewrite Hy.
          change (String y r =? "") with false. reflexivity. }
        intros o root fs. cbn [starts_with_slash].
        change (is_slash slash) with true. cbv iota.
        replace (String slash (String y r) =? "/") with false; [reflexivity|].
        symmetry. apply String.eqb_neq. discriminate.
Qed.

End StaticFacts.

(** ** The application as the ordered list of its strategies *)

Module AppFacts.

Import Str Http Spec StrFacts PathFacts FSFacts SendFacts StaticFacts Server.

Lemma run_use_root (h : Express.handler) (fs : FS.t) (req : request) :
  Express.run_layer (Express.Use "/" h) fs req = Some (h fs req).
Proof. reflexivity. Qed.

Lemma run_use_web (h : Express.handler) (fs : FS.t) (p : string) :
  Express.run_layer (Express.Use "/web" h) fs (get p) =
  match Express.match_mount "/web" p with
  | Some rest => Some (h fs (Express.trim_prefix rest (get p)))
  | None => None
  end.
Proof. reflexivity. Qed.

Lemma dispatch_cons (l : Express.layer) (stack : list Express.layer)
    (pos : nat) (fs : FS.t) (req : request) :
  Express.dispatch (l :: stack) pos fs req =
  match Express.run_layer l fs req with
  | None => Express.dispatch stack (S pos) fs req
  | Some (Respond r) => ([pos], r)
  | Some Next =>
      let '(tr, r) := Express.dispatch stack (S pos) fs req in (pos :: tr, r)
  | Some (NextError s) => ([pos], Express.finalhandler (Some s) req)
  end.
Proof. reflexivity. Qed.

Lemma app_routes (dirname : list string) :
  app dirname =
  Express.Use "/web" (ServeStatic.serveStatic (WEB_DIR dirname) static_options)
  :: Express.Use "/" (ServeStatic.serveStatic (WEB_DIR dirname) static_options)
  :: Express.Use "/" (ServeStatic.serveStatic dirname static_options)
  :: routes.
Proof. reflexivity. Qed.

(** The middleware stack of server.js answers a GET like the three
    strategies tried in order, followed by the two routes. *)
Lemma handle_static (dirname : list string) (fs : FS.t) (p : string) :
  handle_traced dirname fs (get p) =
  match first_answer fs p (strategies dirname p) with
  | (tr, Some r) => (tr, r)
  | (tr, None) =>
      let '(tr', r) := Express.dispatch routes 3 fs (get p) in (tr ++ tr', r)
  end.
Proof.
  unfold handle_traced, strategies. rewrite app_routes.
  do 3 rewrite dispatch_cons. rewrite run_use_web, !run_use_root.
  rewrite !(serveStatic_get _ _ (get p)) by reflexivity.
  rewrite send_path_get. cbn [originalUrl get].
  destruct (strip_web p) as [q|] eqn:Hq.
  - destruct (mount_web _ _ Hq) as (rest & Hm & Hp). rewrite Hm.
    rewrite serveStatic_get by reflexivity. rewrite Hp.
    cbn [List.app first_answer Express.trim_prefix originalUrl get].
    unfold lookup. cbn [fst snd].
    destruct (answer p (Send.pipe static_options (WEB_DIR dirname) fs q));
      [reflexivity|].
    destruct (answer p (Send.pipe static_options (WEB_DIR dirname) fs p));
      [reflexivity|].
    destruct (answer p (Send.pipe static_options dirname fs p));
      [reflexivity|].
    destruct (Express.dispatch routes 3 fs (get p)). reflexivity.
  - rewrite (mount_web_none _ Hq).
    cbn [List.app first_answer]. unfold lookup. cbn [fst snd].
    destruct (answer p (Send.pipe static_options (WEB_DIR dirname) fs p));
      [reflexivity|].
    destruct (answer p (Send.pipe static_options dirname fs p));
      [reflexivity|].
    destruct (Express.dispatch routes 3 fs (get p)). reflexivity.
Qed.

End AppFacts.

(** ** Requests for plain paths *)

Module PlainFacts.

Import Str Http Spec StrFacts PathFacts FSFacts SendFacts StaticFacts Server.
Import AppFacts.

Lemma answer_none (p : string) (r : Send.result) :
  answer p r = None <-> found r = false.
Proof. destruct r; simpl; split; intros H; congruence. Qed.

Lemma first_answer_snd (fs : FS.t) (p : string) (ss : list strategy) :
  snd (first_answer fs p ss) =
  first_of (map (fun s => answer p (lookup fs s)) ss).
Proof.
  induction ss as [|s ss IH]; [reflexivity|]. cbn [first_answer map first_of].
  destruct (answer p (lookup fs s)); [reflexivity|].
  destruct (first_answer fs p ss). exact IH.
Qed.

Lemma first_of_app (l1 l2 : list (option response)) (r : response) :
  Forall (fun a => a = None) l1 -> first_of (l1 ++ Some r :: l2) = Some r.
Proof.
  induction l1 as [|a l1 IH]; intros H; [reflexivity|].
  inversion H as [|? ? Ha Hl]; subst. simpl. apply IH, Hl.
Qed.

Lemma first_of_none (l : list (option response)) :
  Forall (fun a => a = None) l -> first_of l = None.
Proof.
  induction l as [|a l IH]; intros H; [reflexivity|].
  inversion H as [|? ? Ha Hl]; subst. simpl. apply IH, Hl.
Qed.

(** When some strategy answers, that is the response. *)
Lemma handle_answer (dirname : list string) (fs : FS.t) (p : string)
    (r : response) :
  first_of (map (fun s => answer p (lookup fs s)) (strategies dirname p))
    = Some r ->
  handle dirname fs (get p) = r.
Proof.
  intros H. unfold handle. rewrite handle_static.
  rewrite <- first_answer_snd in H.
  destruct (first_answer fs p (strategies dirname p)) as [tr [r'|]];
    simpl in H; [|discriminate].
  injection H as ->. reflexivity.
Qed.

(** When none does, the routes decide. *)
Lemma handle_routes (dirname : list string) (fs : FS.t) (p : string) :
  first_of (map (fun s => answer p (lookup fs s)) (strategies dirname p))
    = None ->
  handle dirname fs (get p) = snd (Express.dispatch routes 3 fs (get p)).
Proof.
  intros H. unfold handle. rewrite handle_static.
  rewrite <- first_answer_snd in H.
  destruct (first_answer fs p (strategies dirname p)) as [tr [r'|]];
    simpl in H; [discriminate|].
  destruct (Express.dispatch routes 3 fs (get p)). reflexivity.
Qed.

(** *** The prefix [/web] of a plain path *)

Lemma strip_web_name (h T : string) :
  plain_name h = true -> T = "" \/ starts_with_slash T = true ->
  strip_web (String slash (h +:+ T)) =
  if eqb_ci h "web" then Some T else None.
Proof.
  intros Hp HT.
  assert (H4 : forall c1 c2 c3 c4 r,
             h = String c1 (String c2 (String c3 (String c4 r))) ->
             is_slash c4 = false).
  { intros c1 c2 c3 c4 r ->. apply plain_name_inv in Hp as (_ & _ & Hc).
    cbn [all_chars] in Hc.
    repeat (apply andb_true_iff in Hc as [? Hc]).
    apply negb_true_iff, plain_char_not_slash. assumption. }
  unfold strip_web, eqb_ci.
  destruct h as [|c1 [|c2 [|c3 [|c4 h']]]]; [discriminate Hp | | | |];
    (destruct HT as [-> | HT];
     [| destruct T as [|t0 T']; [discriminate HT|];
        apply is_slash_eq in HT; subst t0]);
    cbn [strip_prefix_ci lower String.eqb String.append];
    change (to_lower slash) with slash;
    change (to_lower "/"%char) with slash;
    change (to_lower "w"%char) with "w"%char;
    change (to_lower "e"%char) with "e"%char;
    change (to_lower "b"%char) with "b"%char;
    change (Ascii.eqb slash slash) with true; cbv iota;
    repeat (match goal with
            | |- context [Ascii.eqb (to_lower ?c) ?x] =>
                destruct (Ascii.eqb (to_lower c) x) eqn:?
            end; cbn [andb]; try reflexivity; try discriminate);
    try (cbn [String.eqb orb starts_with_slash];
         rewrite (H4 _ _ _ _ _ eq_refl); reflexivity).
Qed.

Lemma append_empty (s : string) : s +:+ "" = s.
Proof. induction s as [|c s IH]; simpl; [reflexivity | f_equal; exact IH]. Qed.

Lemma url_of_cons (h : string) (t : list string) :
  url_of (h :: t) =
  String slash (h +:+ match t with [] => "" | _ => url_of t end).
Proof. destruct t; unfold url_of; simpl; [rewrite append_empty|]; reflexivity. Qed.

Lemma url_of_cons_slash (h : string) (t : list string) :
  url_of (h :: t) +:+ "/" =
  String slash (h +:+ match t with [] => "/" | _ => url_of t +:+ "/" end).
Proof.
  rewrite url_of_cons. destruct t; simpl; rewrite append_assoc; reflexivity.
Qed.

Lemma plain_path_cons (h : string) (t : list string) :
  plain_path (h :: t) = true ->
  plain_name h = true /\ (t <> [] -> plain_path t = true).
Proof.
  simpl. intros H. apply andb_true_iff in H as [Hh Ht]. split; [exact Hh|].
  destruct t; [congruence | intros _; exact Ht].
Qed.

Lemma strategies_plain_file (dirname : list string) (fs : FS.t)
    (p : string) (segs : list string) :
  plain_path segs = true ->
  map (fun s => answer p (lookup fs s)) (strategies dirname (url_of segs)) =
  map (fun q => answer p (Send.sendFile static_options fs q false))
      (lookups dirname segs).
Proof.
  intros H. unfold strategies, lookups, lookup.
  rewrite !map_app. cbn [map fst snd]. rewrite !(pipe_plain_file _ _ _ _ H).
  f_equal. destruct segs as [|h t]; [discriminate H|].
  apply plain_path_cons in H as [Hh Ht]. rewrite url_of_cons.
  rewrite (strip_web_name _ _ Hh); [|destruct t; [left|right]; reflexivity].
  cbn [hd tl]. destruct (eqb_ci h "web"); [|reflexivity].
  cbn [map fst snd]. destruct t as [|y r].
  - rewrite pipe_empty, app_nil_r. reflexivity.
  - rewrite pipe_plain_file; [reflexivity | apply Ht; discriminate].
Qed.

Lemma strategies_plain_dir (dirname : list string) (fs : FS.t)
    (p : string) (segs : list string) :
  plain_path segs = true ->
  map (fun s => answer p (lookup fs s))
      (strategies dirname (url_of segs +:+ "/")) =
  map (fun q => answer p (Send.sendIndex static_options fs q))
      (lookups dirname segs).
Proof.
  intros H. unfold strategies, lookups, lookup.
  rewrite !map_app. cbn [map fst snd]. rewrite !(pipe_plain_dir _ _ _ H).
  f_equal. destruct segs as [|h t]; [discriminate H|].
  apply plain_path_cons in H as [Hh Ht]. rewrite url_of_cons_slash.
  rewrite (strip_web_name _ _ Hh); [|destruct t; right; reflexivity].
  cbn [hd tl]. destruct (eqb_ci h "web"); [|reflexivity].
  cbn [map fst snd]. destruct t as [|y r].
  - rewrite pipe_root, app_nil_r; [reflexivity | discriminate].
  - rewrite pipe_plain_dir; [reflexivity | apply Ht; discriminate].
Qed.

(** The request for a plain path is answered by the first of its lookups
    that ends on a file or a directory. *)
Lemma handle_plain_file (dirname : list string) (fs : FS.t)
    (segs : list string) (pre post : list (list string)) (q : list string)
    (r : response) :
  plain_path segs = true ->
  lookups dirname segs = pre ++ q :: post ->
  forallb (misses fs) pre = true ->
  answer (url_of segs) (Send.sendFile static_options fs q false) = Some r ->
  handle dirname fs (get (url_of segs)) = r.
Proof.
  intros H Hl Hpre Hq. apply handle_answer.
  rewrite (strategies_plain_file _ _ _ _ H), Hl, map_app. cbn [map].
  rewrite Hq. apply first_of_app.
  apply Forall_map, Stdlib.Lists.List.Forall_forall. intros x Hx.
  rewrite forallb_forall in Hpre. apply (Hpre x) in Hx.
  destruct (sendFile_miss _ _ Hx) as [s ->]. reflexivity.
Qed.

Lemma handle_plain_dir (dirname : list string) (fs : FS.t)
    (segs : list string) (pre post : list (list string)) (q : list string)
    (r : response) :
  plain_path segs = true ->
  lookups dirname segs = pre ++ q :: post ->
  forallb (no_index fs) pre = true ->
  answer (url_of segs +:+ "/") (Send.sendIndex static_options fs q) = Some r ->
  handle dirname fs (get (url_of segs +:+ "/")) = r.
Proof.
  intros H Hl Hpre Hq. apply handle_answer.
  rewrite (strategies_plain_dir _ _ _ _ H), Hl, map_app. cbn [map].
  rewrite Hq. apply first_of_app.
  apply Forall_map, Stdlib.Lists.List.Forall_forall. intros x Hx.
  rewrite forallb_forall in Hpre. apply (Hpre x) in Hx.
  destruct (sendIndex_miss _ _ Hx) as [s ->]. reflexivity.
Qed.

End PlainFacts.

(** ** Small facts about lists of segments *)

Module SegFacts.

Import Str Http Spec Server.

Lemma last_app_nonempty {A : Type} (l1 l2 : list A) (d : A) :
  l2 <> [] -> List.last (l1 ++ l2) d = List.last l2 d.
Proof.
  intros Hne. induction l1 as [|x l1 IH]; [reflexivity|].
  simpl. destruct (l1 ++ l2) eqn:E; [|exact IH].
  apply app_eq_nil in E as [_ E]. congruence.
Qed.

Lemma add_extension_snoc (l : list string) (x ext : string) :
  Send.add_extension (l ++ [x]) ext = l ++ [x +:+ "." +:+ ext].
Proof.
  unfold Send.add_extension. rewrite removelast_last, last_last. reflexivity.
Qed.

Lemma absent_not_file (fs : FS.t) (p : list string) :
  absent fs p = true -> file_at fs p = false.
Proof.
  unfold absent, file_at. destruct (FS.stat fs p false); [discriminate | |];
    reflexivity.
Qed.

Lemma collapse_url_of (segs : list string) :
  plain_path segs = true ->
  ServeStatic.collapseLeadingSlashes (url_of segs +:+ "/") = url_of segs +:+ "/".
Proof.
  destruct segs as [|h t]; [discriminate|]. intros H.
  apply PlainFacts.plain_path_cons in H as [Hh _].
  rewrite PlainFacts.url_of_cons_slash.
  apply StrFacts.plain_name_inv in Hh as (Hne & _ & Hc).
  destruct h as [|c h]; [congruence|]. cbn [all_chars] in Hc.
  apply andb_true_iff in Hc as [Hc _].
  apply StrFacts.plain_char_not_slash, negb_true_iff in Hc.
  cbn [String.append ServeStatic.collapseLeadingSlashes].
  rewrite Hc, andb_false_r. reflexivity.
Qed.

End SegFacts.

(** ** Where a streamed file lies *)

Module SafetyFacts.

Import Str Http Spec StrFacts PathFacts FSFacts SendFacts StaticFacts Server.

Lemma split_no_slash (s x : string) :
  In x (split_on is_slash s) -> contains slash x = false.
Proof.
  revert x. induction s as [|c s IH]; intros x; cbn [split_on].
  - intros [<-|[]]. reflexivity.
  - destruct (is_slash c) eqn:Hc.
    + intros [<-|H]; [reflexivity | apply IH, H].
    + destruct (split_on is_slash s) as [|y ys] eqn:E.
      * intros [<-|[]]. cbn [contains]. unfold is_slash in Hc.
        rewrite Hc. reflexivity.
      * intros [<-|H].
        -- cbn [contains]. unfold is_slash in Hc. rewrite Hc.
           apply IH. left. reflexivity.
        -- apply IH. right. exact H.
Qed.

(** What normalisation keeps: [..], or a segment that is not empty, [.]
    or [..]. *)
Lemma normalize_elems (b : bool) (segs stack : list string) (x : string) :
  In x (Path.normalize_segments b stack segs) ->
  x = ".." \/ In x stack
  \/ (In x segs /\ String.eqb x "" = false /\ String.eqb x "." = false).
Proof.
  revert stack. induction segs as [|s segs IH]; intros stack;
    cbn [Path.normalize_segments].
  - intros H. right. left. apply in_rev, H.
  - destruct (String.eqb s "" || String.eqb s ".")%bool eqn:E1.
    + intros H. destruct (IH _ H) as [?|[?|(? & ? & ?)]]; auto.
      right. right. repeat split; auto. right. assumption.
    + destruct (String.eqb s "..") eqn:E2.
      * intros H.
        assert (Hsub : forall st, (forall y, In y st -> y = ".." \/ In y stack) ->
                  In x (Path.normalize_segments b st segs) ->
                  x = ".." \/ In x stack
                  \/ (In x (s :: segs) /\ String.eqb x "" = false
                      /\ String.eqb x "." = false)).
        { intros st Hst Hx. destruct (IH _ Hx) as [?|[Hin|(? & ? & ?)]]; auto.
          - destruct (Hst _ Hin); auto.
          - right. right. repeat split; auto. right. assumption. }
        destruct stack as [|top below].
        -- revert H. apply Hsub. intros y Hy.
           destruct b; [destruct Hy as [<-|[]]; auto | destruct Hy].
        -- destruct (String.eqb top "..").
           ++ revert H. apply Hsub. intros y Hy.
              destruct b; [destruct Hy as [<-|Hy]; auto | auto].
           ++ revert H. apply Hsub. intros y Hy. right. right. exact Hy.
      * intros H. destruct (IH _ H) as [?|[[<-|Hin]|(? & ? & ?)]]; auto.
        -- apply orb_false_iff in E1 as [Ea Eb].
           right. right. repeat split; auto. left. reflexivity.
        -- right. right. repeat split; auto. right. assumption.
Qed.

Lemma up_path_dotdot (names : list string) :
  In ".." names -> Send.up_path names = true.
Proof.
  intros H. unfold Send.up_path. apply existsb_exists.
  exists "..". split; [exact H | reflexivity].
Qed.

(** The names [send] accepts are names of directory entries. *)
Lemma names_proper (d : string) :
  Send.up_path (fst (Path.normalize_relative d)) = false ->
  forallb proper_name (fst (Path.normalize_relative d)) = true.
Proof.
  intros Hup. apply forallb_forall. intros x Hx.
  assert (Hdd : String.eqb x ".." = false).
  { destruct (String.eqb_spec x ".."); [|reflexivity]. subst x.
    rewrite (up_path_dotdot _ Hx) in Hup. discriminate. }
  unfold Path.normalize_relative in Hx. cbn [fst] in Hx.
  apply normalize_elems in Hx as [->|[[]|(Hin & H1 & H2)]]; [discriminate Hdd|].
  unfold proper_name. rewrite H1, H2, Hdd. cbn [negb andb].
  destruct Hin as [<-|Hin]; [discriminate H2|].
  rewrite (split_no_slash _ _ Hin). reflexivity.
Qed.

Lemma proper_html (x : string) :
  proper_name x = true -> proper_name (x +:+ "." +:+ "html") = true.
Proof.
  change ("." +:+ "html") with ".html".
  unfold proper_name. intros H.
  repeat (apply andb_true_iff in H as [H ?]).
  assert (Hs : contains slash (x +:+ ".html") = false).
  { match goal with Hc : negb (contains slash _) = true |- _ =>
      apply negb_true_iff in Hc; revert Hc end.
    clear. induction x as [|a s IH]; [reflexivity|].
    cbn [String.append contains].
    intros Hc. apply orb_false_iff in Hc as [-> Hc]. apply IH, Hc. }
  rewrite Hs.
  assert (E1 : String.eqb (x +:+ ".html") "" = false).
  { apply String.eqb_neq. destruct x; discriminate. }
  assert (E2 : String.eqb (x +:+ ".html") "." = false).
  { apply String.eqb_neq. destruct x as [|a [|a' x]]; discriminate. }
  assert (E3 : String.eqb (x +:+ ".html") ".." = false).
  { apply String.eqb_neq. destruct x as [|a [|a' [|a'' x]]]; discriminate. }
  rewrite E1, E2, E3. reflexivity.
Qed.

Lemma add_extension_app (root names : list string) (ext : string) :
  names <> [] ->
  Send.add_extension (root ++ names) ext =
  root ++ Send.add_extension names ext.
Proof.
  intros Hne. unfold Send.add_extension.
  rewrite (app_removelast_last "" Hne) at 1 2.
  rewrite app_assoc, removelast_last, last_last, <- app_assoc. reflexivity.
Qed.

Lemma proper_add_extension (names : list string) :
  names <> [] -> forallb proper_name names = true ->
  forallb proper_name (Send.add_extension names "html") = true.
Proof.
  intros Hne H. unfold Send.add_extension.
  rewrite (app_removelast_last "" Hne), forallb_app in H.
  apply andb_true_iff in H as [Hr Hl]. cbn [forallb] in Hl.
  apply andb_true_iff in Hl as [Hl _].
  rewrite forallb_app, Hr. cbn [forallb]. rewrite (proper_html _ Hl).
  reflexivity.
Qed.

Lemma resolve_stream (fs : FS.t) (root names f : list string) (c : string)
    (b tr : bool) :
  forallb proper_name names = true ->
  (if b then Send.sendIndex static_options fs (root ++ names)
   else Send.sendFile static_options fs (root ++ names) tr) = Send.Stream f c ->
  FS.stat fs f false = FS.IsFile c /\ placed fs root f.
Proof.
  intros Hn. destruct b.
  - unfold Send.sendIndex. cbn [Send.index static_options Send.try_indexes].
    destruct (FS.stat fs (Path.join (root ++ names) "index.html") false)
      as [c' | | e] eqn:Hs; try (destruct e); try discriminate.
    intros H. injection H as <- <-. split; [exact Hs|]. left.
    exists (names ++ ["index.html"]). unfold Path.join.
    rewrite app_assoc, forallb_app, Hn. split; reflexivity.
  - unfold Send.sendFile.
    destruct (FS.stat fs (root ++ names) tr) as [c' | | []] eqn:Hs;
      try discriminate.
    + intros H. injection H as <- <-.
      rewrite (stat_file_not_trailing _ _ _ _ Hs) in Hs. split; [exact Hs|].
      left. exists names. split; [reflexivity | exact Hn].
    + destruct (_ && negb tr)%bool eqn:Hc; [|discriminate].
      apply andb_true_iff in Hc as [_ Htr]. apply negb_true_iff in Htr.
      subst tr. cbn [Send.extensions static_options Send.try_extensions].
      destruct (FS.stat fs (Send.add_extension (root ++ names) "html") false)
        as [c' | | e] eqn:Hx; try (destruct e); try discriminate.
      intros H. injection H as <- <-. split; [exact Hx|].
      destruct names as [|n names].
      * right. rewrite app_nil_r in *. split; [reflexivity|].
        unfold absent. rewrite Hs. reflexivity.
      * left. exists (Send.add_extension (n :: names) "html").
        rewrite add_extension_app by discriminate. split; [reflexivity|].
        apply proper_add_extension; [discriminate | exact Hn].
Qed.

Lemma pipe_stream (fs : FS.t) (root : list string) (raw : string)
    (f : list string) (c : string) :
  Send.pipe static_options root fs raw = Send.Stream f c ->
  FS.stat fs f false = FS.IsFile c /\ placed fs root f.
Proof.
  unfold Send.pipe.
  destruct (URI.decodeURIComponent raw) as [d|]; [|discriminate].
  destruct (contains nul d); [discriminate|].
  destruct (String.eqb d "") eqn:Hd.
  - cbn [Send.up_path existsb]. cbv iota.
    change (Send.containsDotFile [""]) with false. cbv iota.
    apply resolve_stream. reflexivity.
  - destruct (Path.normalize_relative d) as [names tr] eqn:Hn.
    destruct (Send.up_path names) eqn:Hup; [discriminate|].
    assert (Hp : forallb proper_name names = true).
    { pose proof (names_proper d) as H. rewrite Hn in H. apply H, Hup. }
    destruct (Send.containsDotFile (Send.parts names tr)).
    + destruct (Send.dotfile_access static_options (Send.parts names tr));
        try discriminate.
      apply resolve_stream, Hp.
    + apply resolve_stream, Hp.
Qed.

End SafetyFacts.

(** ** Path traversal *)

Module TraversalFacts.

Import Str Http Spec StrFacts PathFacts FSFacts SendFacts StaticFacts Server.
Import SafetyFacts.

Lemma climbs_mono (segs : list string) (n : nat) :
  climbs (S n) segs = true -> climbs n segs = true.
Proof.
  revert n. induction segs as [|s segs IH]; intros n; cbn [climbs];
    [discriminate|].
  destruct (String.eqb s "" || String.eqb s ".")%bool; [apply IH|].
  destruct (String.eqb s ".."); [|apply IH].
  destruct n; [reflexivity | apply IH].
Qed.

(** Once [..] is on the stack it stays in the result. *)
Lemma dotdot_stays (segs stack : list string) :
  In ".." stack -> In ".." (Path.normalize_segments true stack segs).
Proof.
  revert stack. induction segs as [|s segs IH]; intros stack H;
    cbn [Path.normalize_segments].
  - apply in_rev. rewrite rev_involutive. exact H.
  - destruct (String.eqb s "" || String.eqb s ".")%bool; [apply IH, H|].
    destruct (String.eqb s "..").
    + destruct stack as [|top below]; [destruct H|].
      destruct (String.eqb_spec top "..") as [->|Hne].
      * apply IH. right. exact H.
      * apply IH. destruct H as [H|H]; [congruence | exact H].
    + apply IH. right. exact H.
Qed.

(** Segments that climb above the root leave a [..] after
    normalisation. *)
Lemma climbs_normalize (segs stack : list string) :
  ~ In ".." stack ->
  climbs (List.length stack) segs = true ->
  In ".." (Path.normalize_segments true stack segs).
Proof.
  revert stack. induction segs as [|s segs IH]; intros stack Hno;
    cbn [climbs Path.normalize_segments]; [discriminate|].
  destruct (String.eqb s "" || String.eqb s ".")%bool; [apply IH, Hno|].
  destruct (String.eqb_spec s "..") as [->|Hs].
  - destruct stack as [|top below]; cbn [List.length].
    + intros _. apply dotdot_stays. left. reflexivity.
    + destruct (String.eqb_spec top "..") as [->|Hne].
      * exfalso. apply Hno. left. reflexivity.
      * apply IH. intros H. apply Hno. right. exact H.
  - apply (IH (s :: stack)). intros [H|H]; [congruence | auto].
Qed.

(** A path that climbs above the root is refused, whatever the root. *)
Lemma pipe_climbs (o : Send.options) (root : list string) (fs : FS.t)
    (raw d : string) :
  URI.decodeURIComponent raw = Some d ->
  climbs 0 (split_on is_slash d) = true ->
  exists s, Send.pipe o root fs raw = Send.Error s.
Proof.
  intros Hd Hc. unfold Send.pipe. rewrite Hd.
  destruct (contains nul d); [eauto|].
  destruct (String.eqb_spec d "") as [->|Hne]; [discriminate Hc|].
  unfold Path.normalize_relative.
  change (Path.normalize_segments true [] ("." :: split_on is_slash d))
    with (Path.normalize_segments true [] (split_on is_slash d)).
  rewrite up_path_dotdot; [eauto|].
  apply climbs_normalize; [intros [] | exact Hc].
Qed.

(** *** Characters of a path that matches a route or the mount point *)

Lemma to_lower_fixed (c x : ascii) :
  to_lower x = x -> Ascii.eqb (to_lower c) x = false -> Ascii.eqb c x = false.
Proof.
  intros Hx H. destruct (Ascii.eqb_spec c x) as [->|]; [|reflexivity].
  rewrite Hx, Ascii.eqb_refl in H. discriminate.
Qed.

Lemma lower_all_chars (f : ascii -> bool) (s : string) :
  (forall c, f (to_lower c) = true -> f c = true) ->
  all_chars f (lower s) = true -> all_chars f s = true.
Proof.
  intros Hf. induction s as [|c s IH]; [reflexivity|].
  cbn [lower all_chars]. intros H. apply andb_true_iff in H as [Hc Hs].
  rewrite (Hf _ Hc), (IH Hs). reflexivity.
Qed.

Lemma tame_lower (c : ascii) : tame (to_lower c) = true -> tame c = true.
Proof.
  unfold tame. intros H. apply andb_true_iff in H as [H1 H2].
  apply negb_true_iff in H1, H2.
  rewrite (to_lower_fixed c dot eq_refl H1),
    (to_lower_fixed c percent eq_refl H2). reflexivity.
Qed.


Lemma eqb_ci_tame (p x : string) :
  eqb_ci p x = true -> all_chars tame (lower x) = true ->
  all_chars tame p = true.
Proof.
  unfold eqb_ci. intros H Hx. apply String.eqb_eq in H. rewrite <- H in Hx.
  revert Hx. apply lower_all_chars, tame_lower.
Qed.

Lemma split_all_chars (f : ascii -> bool) (s x : string) :
  all_chars f s = true -> In x (split_on is_slash s) -> all_chars f x = true.
Proof.
  revert x. induction s as [|c s IH]; intros x; cbn [split_on all_chars].
  - intros _ [<-|[]]. reflexivity.
  - intros H. apply andb_true_iff in H as [Hc Hs].
    destruct (is_slash c).
    + intros [<-|Hx]; [reflexivity | apply IH; assumption].
    + destruct (split_on is_slash s) as [|y ys] eqn:E.
      * intros [<-|[]]. cbn [all_chars]. rewrite Hc. reflexivity.
      * intros [<-|Hx].
        -- cbn [all_chars]. rewrite Hc. apply IH; [exact Hs | left; reflexivity].
        -- apply IH; [exact Hs | right; exact Hx].
Qed.

Lemma climbs_no_dotdot (segs : list string) (n : nat) :
  (forall x, In x segs -> String.eqb x ".." = false) -> climbs n segs = false.
Proof.
  revert n. induction segs as [|s segs IH]; intros n H; [reflexivity|].
  cbn [climbs]. rewrite (H s) by (left; reflexivity).
  assert (Hr : forall m, climbs m segs = false).
  { intros m. apply IH. intros x Hx. apply H. right. exact Hx. }
  destruct (String.eqb s "" || String.eqb s ".")%bool; apply Hr.
Qed.

Lemma tame_not_dotdot (x : string) :
  all_chars tame x = true -> String.eqb x ".." = false.
Proof.
  intros H. destruct (String.eqb_spec x "..") as [->|]; [|reflexivity].
  discriminate H.
Qed.

Lemma tame_decode (p : string) :
  all_chars tame p = true -> URI.decodeURIComponent p = Some p.
Proof.
  intros H. apply decode_no_percent. revert H. apply all_chars_impl.
  intros c Hc. unfold tame in Hc. apply andb_true_iff in Hc as [_ Hc].
  exact Hc.
Qed.

(** A path that matches one of the two routes does not climb. *)
Lemma route_no_climb (p d : string) :
  (Express.match_route "/health" p || Express.match_route "/" p)%bool = true ->
  URI.decodeURIComponent p = Some d ->
  climbs 0 (split_on is_slash d) = false.
Proof.
  intros Hm Hd.
  assert (Ht : all_chars tame p = true).
  { unfold Express.match_route in Hm.
    change (Express.without_trailing_slash "/health") with "/health" in Hm.
    change (Express.without_trailing_slash "/") with "" in Hm.
    repeat (apply orb_true_iff in Hm as [Hm|Hm]);
      apply (eqb_ci_tame _ _ Hm); reflexivity. }
  rewrite (tame_decode _ Ht) in Hd. injection Hd as <-.
  apply climbs_no_dotdot. intros x Hx.
  apply tame_not_dotdot, (split_all_chars tame p); assumption.
Qed.

(** *** The stripped path climbs when the whole path does *)

Lemma lower_slash (a : ascii) :
  Ascii.eqb (to_lower a) (to_lower slash) = true -> a = slash.
Proof.
  destruct a as [[] [] [] [] [] [] [] []]; vm_compute; intros H;
    first [discriminate H | reflexivity].
Qed.

Lemma ci_char (b x y : ascii) :
  Ascii.eqb (to_lower b) x = true -> to_lower y = y ->
  Ascii.eqb x y = false -> Ascii.eqb b y = false.
Proof.
  intros Hb Hy Hxy. apply Ascii.eqb_eq in Hb.
  apply (to_lower_fixed b y Hy). rewrite Hb. exact Hxy.
Qed.

Lemma strip_web_chars (p rest : string) :
  strip_prefix_ci "/web" p = Some rest ->
  exists b c e,
    p = String slash (String b (String c (String e rest)))
    /\ Forall (fun x => is_slash x = false /\ Ascii.eqb x percent = false
                       /\ Ascii.eqb x dot = false) [b; c; e].
Proof.
  destruct p as [|a [|b [|c [|e r]]]]; cbn [strip_prefix_ci];
    repeat (match goal with
            | |- (if ?t then _ else _) = _ -> _ => destruct t eqn:?
            end); try discriminate.
  intros H. injection H as <-.
  match goal with E : Ascii.eqb (to_lower a) _ = true |- _ =>
    apply lower_slash in E; subst a end.
  exists b, c, e. split; [reflexivity|].
  repeat constructor;
    match goal with
    | |- is_slash ?x = false =>
        match goal with E : Ascii.eqb (to_lower x) _ = true |- _ =>
          apply (ci_char x _ slash E); reflexivity end
    | |- Ascii.eqb ?x _ = false =>
        match goal with E : Ascii.eqb (to_lower x) _ = true |- _ =>
          apply (ci_char x _ _ E); reflexivity end
    end.
Qed.

Lemma strip_web_climbs (p q d : string) :
  strip_web p = Some q ->
  URI.decodeURIComponent p = Some d ->
  climbs 0 (split_on is_slash d) = true ->
  exists dq, URI.decodeURIComponent q = Some dq
             /\ climbs 0 (split_on is_slash dq) = true.
Proof.
  unfold strip_web.
  destruct (strip_prefix_ci "/web" p) as [r|] eqn:Hs; [|discriminate].
  destruct (strip_web_chars _ _ Hs) as (b & c & e & -> & Hch).
  inversion Hch as [|? ? (Hb1 & Hb2 & Hb3) Hch1]; subst.
  inversion Hch1 as [|? ? (Hc1 & Hc2 & Hc3) Hch2]; subst.
  inversion Hch2 as [|? ? (He1 & He2 & He3) _]; subst.
  rewrite (decode_cons slash) by reflexivity.
  rewrite (decode_cons b), (decode_cons c), (decode_cons e) by assumption.
  intros Hq Hd Hc. destruct r as [|x r].
  - injection Hq as <-. cbn in Hd. injection Hd as <-.
    exfalso. revert Hc. cbn [split_on]. rewrite Hb1, Hc1, He1.
    change (is_slash slash) with true. cbv iota. cbn [climbs String.eqb].
    unfold dot in Hb3. rewrite Hb3. cbn [orb].  discriminate.
  - cbn [String.eqb orb starts_with_slash] in Hq.
    destruct (is_slash x) eqn:Hx; [|discriminate].
    injection Hq as <-. apply is_slash_eq in Hx. subst x.
    rewrite (decode_cons slash) in Hd |- * by reflexivity.
    destruct (URI.decodeURIComponent r) as [dr|]; [|discriminate Hd].
    cbn [option_map] in Hd |- *. injection Hd as <-.
    exists (String slash dr). split; [reflexivity|].
    assert (Hsp : split_on is_slash
                     (String slash (String b (String c (String e
                        (String slash dr)))))
                  = "" :: String b (String c (String e ""))
                       :: split_on is_slash dr).
    { cbn [split_on]. rewrite Hb1, Hc1, He1.
      change (is_slash slash) with true. cbv iota.
      destruct (split_on is_slash dr) as [|y ys] eqn:E;
        [destruct (split_on_nonempty is_slash dr E) | reflexivity]. }
    revert Hc. rewrite Hsp. change (split_on is_slash (String slash dr))
      with ("" :: split_on is_slash dr).
    generalize (split_on is_slash dr). intros L.
    cbn [climbs String.eqb]. unfold dot in Hb3. rewrite Hb3. cbn [orb].
    apply climbs_mono.
Qed.

End TraversalFacts.

(** ** The application on whole requests *)

Module AnswerFacts.

Import Str Http Spec Server.

Lemma handle_plain_none (dirname : list string) (fs : FS.t) (segs : list string) :
  plain_path segs = true ->
  forallb (misses fs) (lookups dirname segs) = true ->
  handle dirname fs (get (url_of segs))
  = snd (Express.dispatch routes 3 fs (get (url_of segs))).
Proof.
  intros H Hm. apply PlainFacts.handle_routes.
  rewrite (PlainFacts.strategies_plain_file _ _ _ _ H).
  apply PlainFacts.first_of_none, Forall_map, Stdlib.Lists.List.Forall_forall.
  intros q Hq. rewrite forallb_forall in Hm. apply (Hm q) in Hq.
  destruct (SendFacts.sendFile_miss _ _ Hq) as [s ->]. reflexivity.
Qed.

Lemma web_url (segs : list string) :
  segs <> [] -> "/web" +:+ url_of segs = url_of ("web" :: segs).
Proof. destruct segs; [congruence | reflexivity]. Qed.

Lemma plain_web (segs : list string) :
  plain_path segs = true -> plain_path ("web" :: segs) = true.
Proof. intros H. apply StrFacts.plain_path_inv in H as [_ H]. exact H. Qed.

Lemma handle_web_file (dirname : list string) (fs : FS.t)
    (segs : list string) (c : string) :
  plain_path segs = true ->
  FS.stat fs (WEB_DIR dirname ++ segs) false = FS.IsFile c ->
  handle dirname fs (get ("/web" +:+ url_of segs))
  = ServeStatic.ok_file (WEB_DIR dirname ++ segs) c.
Proof.
  intros H Hf.
  assert (Hne : segs <> []) by (apply StrFacts.plain_path_inv in H; tauto).
  rewrite (web_url _ Hne).
  apply (PlainFacts.handle_plain_file dirname fs ("web" :: segs) []
           [WEB_DIR dirname ++ "web" :: segs; dirname ++ "web" :: segs]
           (WEB_DIR dirname ++ segs)).
  - apply plain_web, H.
  - reflexivity.
  - reflexivity.
  - rewrite (SendFacts.sendFile_file _ _ _ _ Hf). reflexivity.
Qed.

Lemma lookups_extname (dirname : list string) (segs q : list string) :
  plain_path segs = true -> Path.extname (List.last segs "") = "" ->
  In q (lookups dirname segs) -> Path.extname (List.last q "") = "".
Proof.
  intros H He Hq.
  assert (Hne : segs <> []) by (apply StrFacts.plain_path_inv in H; tauto).
  unfold lookups in Hq. apply in_app_or in Hq as [Hq|Hq].
  - destruct (eqb_ci (hd "" segs) "web"); [|destruct Hq].
    destruct Hq as [<-|[]]. destruct segs as [|h [|y r]]; [congruence | |].
    + unfold WEB_DIR, Path.join. cbn [tl]. rewrite app_nil_r, last_last.
      reflexivity.
    + cbn [tl]. rewrite SegFacts.last_app_nonempty by discriminate. exact He.
  - destruct Hq as [<-|[<-|[]]];
      rewrite SegFacts.last_app_nonempty by exact Hne; exact He.
Qed.

Lemma fails_answer (fs : FS.t) (p : string) (ss : list strategy) :
  forallb (fails fs) ss = true ->
  first_of (map (fun s => answer p (lookup fs s)) ss) = None.
Proof.
  intros H. apply PlainFacts.first_of_none, Forall_map,
    Stdlib.Lists.List.Forall_forall.
  intros s Hs. rewrite forallb_forall in H. apply (H s) in Hs.
  apply PlainFacts.answer_none. unfold fails in Hs.
  apply negb_true_iff in Hs. exact Hs.
Qed.

Lemma dispatch_trace (stack : list Express.layer) (pos : nat) (fs : FS.t)
    (req : request) :
  StronglySorted lt (fst (Express.dispatch stack pos fs req))
  /\ Forall (fun i => pos <= i) (fst (Express.dispatch stack pos fs req)).
Proof.
  revert pos. induction stack as [|l stack IH]; intros pos.
  - simpl. split; constructor.
  - rewrite AppFacts.dispatch_cons. destruct (IH (S pos)) as [Hs Hf].
    assert (Hlt : Forall (fun i => pos <= i)
                    (fst (Express.dispatch stack (S pos) fs req))).
    { revert Hf. apply Stdlib.Lists.List.Forall_impl. intros i Hi. lia. }
    destruct (Express.run_layer l fs req) as [[r| |s]|].
    + simpl. split; repeat constructor.
    + destruct (Express.dispatch stack (S pos) fs req) as [tr r]. simpl in *.
      split; constructor; auto.
    + simpl. split; repeat constructor.
    + split; assumption.
Qed.

Lemma first_answer_trace (fs : FS.t) (p : string)
    (pre post : list strategy) (s : strategy) :
  Stdlib.Lists.List.NoDup (map fst (pre ++ s :: post)) ->
  In (fst s) (fst (first_answer fs p (pre ++ s :: post)))
  <-> forallb (fails fs) pre = true.
Proof.
  induction pre as [|s0 pre IH]; intros Hnd.
  - simpl. split; [reflexivity|]. intros _.
    destruct (answer p (lookup fs s)); [left; reflexivity|].
    destruct (first_answer fs p post). left. reflexivity.
  - simpl in Hnd. inversion Hnd as [|? ? Hnot Hnd']; subst.
    assert (Hne : fst s0 <> fst s).
    { intros E. apply Hnot. rewrite E, map_app. apply in_elt. }
    cbn [List.app first_answer forallb]. unfold fails at 1.
    destruct (answer p (lookup fs s0)) as [r|] eqn:Ha.
    + assert (Hfd : found (lookup fs s0) = true).
      { destruct (found (lookup fs s0)) eqn:E; [reflexivity|].
        apply (proj2 (PlainFacts.answer_none p _)) in E. congruence. }
      rewrite Hfd. simpl. split; [intros [E|[]]; congruence | discriminate].
    + apply (proj1 (PlainFacts.answer_none p _)) in Ha. rewrite Ha.
      cbn [negb andb].
      rewrite <- (IH Hnd').
      destruct (first_answer fs p (pre ++ s :: post)) as [tr a]. simpl.
      split; [intros [E|H]; [congruence | exact H] | right; assumption].
Qed.

Lemma strategies_positions (dirname : list string) (p : string) :
  Stdlib.Lists.List.NoDup (map fst (strategies dirname p))
  /\ Forall (fun s => fst s < 3) (strategies dirname p).
Proof.
  unfold strategies. destruct (strip_web p); simpl; split;
    repeat constructor; simpl; intuition (try discriminate; try lia).
Qed.

(** The static layers that were called are those the ordered strategies
    tried. *)
Lemma consulted_static (dirname : list string) (fs : FS.t) (p : string)
    (i : nat) :
  i < 3 ->
  In i (consulted dirname fs p)
  <-> In i (fst (first_answer fs p (strategies dirname p))).
Proof.
  intros Hi. unfold consulted. rewrite AppFacts.handle_static.
  destruct (first_answer fs p (strategies dirname p)) as [tr [r|]];
    [reflexivity|].
  pose proof (dispatch_trace routes 3 fs (get p)) as [_ Hge].
  destruct (Express.dispatch routes 3 fs (get p)) as [tr' r]. simpl in *.
  rewrite in_app_iff. split; [|auto].
  intros [H|H]; [exact H|].
  rewrite Stdlib.Lists.List.Forall_forall in Hge. apply Hge in H. lia.
Qed.

Lemma first_of_in (l : list (option response)) (r : response) :
  first_of l = Some r -> In (Some r) l.
Proof.
  induction l as [|[x|] l IH]; simpl; [discriminate | |].
  - intros H. left. exact H.
  - intros H. right. apply IH, H.
Qed.

Lemma placed_web (dirname : list string) (fs : FS.t) (f : list string) :
  placed fs (WEB_DIR dirname) f -> below dirname f.
Proof.
  unfold WEB_DIR, Path.join. intros [(rel & -> & Hrel)|[-> _]].
  - exists ("web" :: rel). rewrite <- app_assoc.
    split; [reflexivity|]. split; [discriminate | exact Hrel].
  - rewrite SegFacts.add_extension_snoc. exists ["web.html"].
    split; [reflexivity|]. split; [discriminate | reflexivity].
Qed.

Lemma placed_base (dirname : list string) (fs : FS.t) (f : list string)
    (c : string) :
  FS.stat fs dirname false = FS.IsDir ->
  FS.stat fs f false = FS.IsFile c ->
  placed fs dirname f -> below dirname f.
Proof.
  intros Hd Hf [(rel & -> & Hrel)|[_ Ha]].
  - exists rel. split; [reflexivity|]. split; [|exact Hrel].
    intros ->. rewrite app_nil_r in Hf. congruence.
  - unfold absent in Ha. rewrite Hd in Ha. discriminate.
Qed.

Lemma routes_no_file (fs : FS.t) (req : request) (f : list string) (c : string) :
  entity (snd (Express.dispatch routes 3 fs req)) <> FileBody f c.
Proof.
  unfold routes. rewrite !AppFacts.dispatch_cons. unfold Express.run_layer.
  destruct (_ && Express.match_route "/health" _)%bool; [discriminate|].
  destruct (_ && Express.match_route "/" _)%bool; discriminate.
Qed.

Lemma strategy_roots (dirname : list string) (p : string) (s : strategy) :
  In s (strategies dirname p) ->
  fst (snd s) = WEB_DIR dirname \/ fst (snd s) = dirname.
Proof.
  unfold strategies. intros H. apply in_app_or in H as [H|H].
  - destruct (strip_web p); [|destruct H]. destruct H as [<-|[]]. auto.
  - destruct H as [<-|[<-|[]]]; auto.
Qed.

Lemma climbing_strategies_fail (dirname : list string) (fs : FS.t)
    (p d : string) :
  URI.decodeURIComponent p = Some d ->
  climbs 0 (split_on is_slash d) = true ->
  forallb (fails fs) (strategies dirname p) = true.
Proof.
  intros Hd Hc. unfold strategies. rewrite forallb_app. cbn [forallb].
  unfold fails, lookup. cbn [fst snd].
  destruct (TraversalFacts.pipe_climbs static_options (WEB_DIR dirname) fs
              p d Hd Hc) as [s1 ->].
  destruct (TraversalFacts.pipe_climbs static_options dirname fs
              p d Hd Hc) as [s2 ->].
  cbn [found negb andb]. rewrite andb_true_r.
  destruct (strip_web p) as [q|] eqn:Hq; [|reflexivity].
  destruct (TraversalFacts.strip_web_climbs _ _ _ Hq Hd Hc) as (dq & Hdq & Hcq).
  cbn [forallb fst snd].
  destruct (TraversalFacts.pipe_climbs static_options (WEB_DIR dirname) fs
              q dq Hdq Hcq) as [s0 ->].
  reflexivity.
Qed.


End AnswerFacts.

(** ** The listen port *)

Module PortFacts.

Import Js Server Spec.

Lemma digit_cases (c : ascii) :
  is_digit c = true ->
  In c ["0"; "1"; "2"; "3"; "4"; "5"; "6"; "7"; "8"; "9"]%char.
Proof.
  destruct c as [[] [] [] [] [] [] [] []]; intros H;
    try discriminate H; cbn; tauto.
Qed.

Lemma uint_digits (d : Decimal.uint) :
  all_chars is_digit (NilEmpty.string_of_uint d) = true.
Proof. induction d; cbn [NilEmpty.string_of_uint all_chars]; auto. Qed.

Lemma value_from_acc (d : Decimal.uint) (p : positive) :
  value_from 10 (N.pos p) (NilEmpty.string_of_uint d)
  = Some (N.pos (Pos.of_uint_acc d p)).
Proof.
  revert p.
  induction d; intros p;
    cbn [NilEmpty.string_of_uint value_from Pos.of_uint_acc];
    [reflexivity|..];
    match goal with
    | |- context [digit_of 10 ?c] =>
        let v := eval vm_compute in (digit_of 10 c) in
        change (digit_of 10 c) with v
    end;
    cbv iota beta; rewrite <- IHd; f_equal; lia.
Qed.

Lemma value_from_uint (d : Decimal.uint) :
  value_from 10 0 (NilEmpty.string_of_uint d) = Some (Pos.of_uint d).
Proof.
  induction d;
    cbn [NilEmpty.string_of_uint value_from Pos.of_uint];
    [reflexivity|..];
    match goal with
    | |- context [digit_of 10 ?c] =>
        let v := eval vm_compute in (digit_of 10 c) in
        change (digit_of 10 c) with v
    end;
    cbv iota beta;
    [exact IHd | apply (value_from_acc d _)..].
Qed.

Lemma numeral_digits (n : N) : all_chars is_digit (numeral n) = true.
Proof. apply uint_digits. Qed.

Lemma numeral_value (n : N) : value_from 10 0 (numeral n) = Some n.
Proof.
  unfold numeral. rewrite value_from_uint.
  f_equal. apply DecimalN.Unsigned.of_to.
Qed.

Lemma numeral_nonempty (n : N) : numeral n <> "".
Proof.
  intros H. pose proof (numeral_value n) as Hv. rewrite H in Hv.
  injection Hv as <-. discriminate H.
Qed.


Lemma all_chars_forallb (f : ascii -> bool) (s : string) :
  all_chars f s = forallb f (list_ascii_of_string s).
Proof.
  induction s as [|c s IH]; cbn [all_chars list_ascii_of_string forallb];
    [reflexivity | rewrite IH; reflexivity].
Qed.

Lemma all_chars_reverse (f : ascii -> bool) (s : string) :
  all_chars f (reverse s) = all_chars f s.
Proof.
  unfold reverse.
  rewrite !all_chars_forallb, list_ascii_of_string_of_list_ascii.
  induction (list_ascii_of_string s) as [|c l IH]; [reflexivity|].
  cbn [rev forallb]. rewrite forallb_app, IH. cbn [forallb].
  rewrite andb_true_r. apply andb_comm.
Qed.

Lemma reverse_reverse (s : string) : reverse (reverse s) = s.
Proof.
  unfold reverse.
  rewrite list_ascii_of_string_of_list_ascii, rev_involutive.
  apply string_of_list_ascii_of_string.
Qed.

(** No white space starts with a digit, and none ends with one. *)
Lemma strip_digits (fuel : nat) (s : string) :
  all_chars is_digit s = true ->
  strip white_space fuel s = s
  /\ strip (map reverse white_space) fuel s = s.
Proof.
  intros H. destruct fuel as [|fuel]; [split; reflexivity|].
  destruct s as [|c s]; [split; reflexivity|].
  cbn [all_chars] in H. apply andb_true_iff in H as [Hc _].
  apply digit_cases in Hc. cbn [In] in Hc.
  repeat (destruct Hc as [<-|Hc]; [split; reflexivity|]).
  destruct Hc.
Qed.

Lemma trim_digits (s : string) : all_chars is_digit s = true -> trim s = s.
Proof.
  intros H. unfold trim.
  rewrite (proj1 (strip_digits _ s H)).
  assert (Hr : all_chars is_digit (reverse s) = true)
    by (rewrite all_chars_reverse; exact H).
  rewrite (proj2 (strip_digits _ _ Hr)).
  apply reverse_reverse.
Qed.

Lemma span_digits_all (s : string) :
  all_chars is_digit s = true -> span_digits s = (s, "").
Proof.
  induction s as [|c s IH]; [reflexivity|].
  cbn [all_chars span_digits]. intros H.
  apply andb_true_iff in H as [Hc Hs]. unfold is_digit in Hc.
  destruct (digit_of 10 c); [|discriminate Hc].
  rewrite (IH Hs). reflexivity.
Qed.

Lemma non_decimal_digits (s : string) :
  all_chars is_digit s = true -> non_decimal s = None.
Proof.
  destruct s as [|a [|c s]]; [reflexivity | reflexivity |].
  cbn [all_chars]. intros H.
  apply andb_true_iff in H as [_ H]. apply andb_true_iff in H as [Hc _].
  unfold non_decimal. destruct (Ascii.eqb a "0"); [|reflexivity].
  apply digit_cases in Hc. cbn [In] in Hc.
  repeat (destruct Hc as [<-|Hc]; [reflexivity|]).
  destruct Hc.
Qed.

Lemma sign_digits (s : string) :
  all_chars is_digit s = true ->
  sign s = (false, s) /\ String.eqb s "Infinity" = false.
Proof.
  destruct s as [|c s]; [split; reflexivity|].
  cbn [all_chars]. intros H. apply andb_true_iff in H as [Hc _].
  apply digit_cases in Hc. cbn [In] in Hc.
  repeat (destruct Hc as [<-|Hc]; [split; reflexivity|]).
  destruct Hc.
Qed.

Lemma append_nil (s : string) : s +:+ "" = s.
Proof.
  induction s as [|c s IH]; [reflexivity|].
  cbn [String.append]. rewrite IH. reflexivity.
Qed.

(** [Number] reads the decimal numeral of [n] as [n]. *)
Lemma Number_numeral (n : N) : Number (numeral n) = Finite false n 0.
Proof.
  pose proof (numeral_digits n) as Hd.
  pose proof (numeral_nonempty n) as Hne.
  unfold Number. rewrite (trim_digits _ Hd).
  destruct (numeral n) as [|c s] eqn:E; [congruence|]. rewrite <- E in *.
  rewrite (non_decimal_digits _ Hd).
  destruct (sign_digits _ Hd) as [-> ->].
  unfold unsigned_decimal. rewrite (span_digits_all _ Hd), append_nil.
  unfold digits_value. rewrite numeral_value.
  rewrite E. reflexivity.
Qed.

Lemma rounds_to_exact (n : N) : rounds_to n 1 n = true.
Proof.
  unfold rounds_to. destruct (N.eqb_spec n 0) as [->|Hn]; [reflexivity|].
  cbv zeta. rewrite !N.mul_1_r.
  apply andb_true_iff. split; apply N.leb_le; lia.
Qed.

(** An integer is the double it is read as. *)
Lemma small_integer_exact (n : N) :
  small_integer n 1 = if (n <=? 65535)%N then Some n else None.
Proof.
  unfold small_integer. cbv zeta. rewrite N.div_1_r, rounds_to_exact.
  destruct (N.leb_spec n 65535) as [H|H]; [reflexivity|].
  cbn [andb]. destruct (N.leb_spec (n + 1) 65535); [lia | reflexivity].
Qed.

(** [listen] on the decimal numeral of [n]. *)
Lemma listen_numeral (n : N) : listen (JString (numeral n)) = port n.
Proof.
  unfold listen. rewrite Number_numeral.
  change (fraction n 0) with (n * 1, 1)%N. rewrite N.mul_1_r.
  cbn [andb]. rewrite (trim_digits _ (numeral_digits n)).
  destruct (String.eqb_spec (numeral n) "") as [E|_];
    [destruct (numeral_nonempty n E)|].
  rewrite small_integer_exact.
  destruct (n <=? 65535)%N eqn:H; [reflexivity|].
  unfold port. rewrite H. apply N.leb_gt in H.
  destruct (N.eqb_spec n 0); [lia | reflexivity].
Qed.

Lemma PORT_numeral (e : gmap string string) (n : N) :
  e !! "PORT" = Some (numeral n) -> listening (start e) = port n.
Proof.
  intros H. unfold start, PORT, or_default. cbn [listening]. rewrite H.
  destruct (String.eqb_spec (numeral n) "") as [E|_];
    [destruct (numeral_nonempty n E)|].
  apply listen_numeral.
Qed.

End PortFacts.

(** * The model at work *)

Module Examples.

Import Str Http Spec Server.

Example split_abs :
  split_on is_slash "/web/buyer/" = [""; "web"; "buyer"; ""].
Proof. reflexivity. Qed.

Example decode_escaped_dots :
  URI.decodeURIComponent "/%2e%2e/a%20b" = Some "/../a b".
Proof. reflexivity. Qed.

Example decode_bad_escape : URI.decodeURIComponent "/a%zz" = None.
Proof. reflexivity. Qed.

Example decode_lone_continuation : URI.decodeURIComponent "/%80" = None.
Proof. reflexivity. Qed.

Example normalize_inside :
  Path.normalize_relative "/web/../web/./about" = (["web"; "about"], false).
Proof. reflexivity. Qed.

Example normalize_above :
  Path.normalize_relative "/web/../../etc/passwd" = ([".."; "etc"; "passwd"], false).
Proof. reflexivity. Qed.

Example extname_cases :
  Path.extname "app.js" = ".js" /\ Path.extname ".env" = ""
  /\ Path.extname "about" = "" /\ Path.extname "a." = ".".
Proof. repeat split. Qed.

Example mount_cases :
  Express.match_mount "/web" "/web/buyer/" = Some "/buyer/"
  /\ Express.match_mount "/web" "/WEB" = Some ""
  /\ Express.match_mount "/web" "/website" = None
  /\ Express.match_mount "/web" "/web//x" = Some "/x".
Proof. repeat split. Qed.

Example route_cases :
  Express.match_route "/health" "/Health/" = true
  /\ Express.match_route "/health" "/health/x" = false
  /\ Express.match_route "/" "/" = true
  /\ Express.match_route "/" "//" = false.
Proof. repeat split. Qed.

(** The three layers are tried for a missing asset; no route matches it. *)
Example trace_missing :
  consulted Samples.dir Samples.site "/web/missing.png" = [0; 1; 2]%nat.
Proof. reflexivity. Qed.

(** A directory asked for without a trailing slash is answered with a
    redirect, whether or not it has an index. *)
Example empty_directory :
  handle Samples.dir Samples.empty_docs (get "/docs")
  = ServeStatic.moved "/docs/".
Proof. reflexivity. Qed.

(** An escaped traversal is decoded first and refused all the same. *)
Example escaped_traversal :
  status (handle Samples.dir Samples.with_passwd
            (get "/web/%2e%2e/%2e%2e/etc/passwd")) = 404%nat
  /\ status (handle Samples.dir Samples.with_passwd
               (get "/..%2f..%2fetc%2fpasswd")) = 404%nat.
Proof. split; reflexivity. Qed.

(** A HEAD request is resolved like a GET; a POST reaches no layer. *)
Example other_methods :
  status (handle Samples.dir Samples.site
            {| meth := HEAD; originalUrl := "/web/app.js"; url := "/web/app.js" |})
    = 200%nat
  /\ status (handle Samples.dir Samples.site
               {| meth := POST; originalUrl := "/health"; url := "/health" |})
     = 404%nat.
Proof. split; reflexivity. Qed.

Example port_cases :
  listen (PORT {[ "PORT" := "" ]}) = TcpPort 8080
  /\ listen (PORT {[ "PORT" := "3000" ]}) = TcpPort 3000
  /\ listen (PORT {[ "PORT" := "0x1F90" ]}) = TcpPort 8080
  /\ listen (PORT {[ "PORT" := " 8080" ]}) = TcpPort 8080
  /\ listen (PORT {[ "PORT" := "8.08e3" ]}) = TcpPort 8080
  /\ listen (PORT {[ "PORT" := "8080.0" ]}) = TcpPort 8080
  /\ listen (PORT {[ "PORT" := "+8080" ]}) = TcpPort 8080
  /\ listen (PORT {[ "PORT" := "0" ]}) = AnyPort
  /\ listen (PORT {[ "PORT" := "-0" ]}) = AnyPort
  /\ listen (PORT {[ "PORT" := "1e-400" ]}) = AnyPort
  /\ listen (PORT {[ "PORT" := "65535.0000000000001" ]}) = TcpPort 65535
  /\ listen (PORT {[ "PORT" := "Infinity" ]}) = BadPort
  /\ listen (PORT {[ "PORT" := "0x" ]}) = Pipe "0x"
  /\ listen (PORT {[ "PORT" := "8080px" ]}) = Pipe "8080px"
  /\ listen (PORT {[ "PORT" := "70000" ]}) = BadPort
  /\ listen (PORT {[ "PORT" := "80.5" ]}) = BadPort
  /\ listen (PORT {[ "PORT" := " " ]}) = BadPort
  /\ listen (PORT {[ "PORT" := "-1" ]}) = Pipe "-1"
  /\ listen (PORT {[ "PORT" := "/tmp/foody.sock" ]}) = Pipe "/tmp/foody.sock".
Proof. vm_compute. repeat split. Qed.

End Examples.

(** * The claims *)

Import Str Http Spec Server AnswerFacts.

(** ** C1: the root path *)

(** C1, as stated, fails: when root (a) holds an [index.html], a GET on [/]
    is answered by the static middleware with that file, not by the
    redirect. *)
Lemma C1_root_serves_index :
  FS.stat Samples.site (WEB_DIR Samples.dir ++ ["index.html"]) false
    = FS.IsFile "<h1>home</h1>"
  /\ handle Samples.dir Samples.site (get "/")
     = ServeStatic.ok_file (WEB_DIR Samples.dir ++ ["index.html"]) "<h1>home</h1>"
  /\ status (handle Samples.dir Samples.site (get "/")) <> 302%nat.
Proof. vm_compute. repeat split; discriminate. Qed.

(** C1 (amended): when neither root (a) nor the base directory holds a
    regular file [index.html] at its top, a GET on [/] is answered with
    status 302 and the location [/web/buyer/], whatever else the file system
    holds (in particular whether or not [/web/buyer/] resolves). *)
Theorem C1_root_redirect (dirname : list string) (fs : FS.t) :
  file_at fs (Path.join (WEB_DIR dirname) "index.html") = false ->
  file_at fs (Path.join dirname "index.html") = false ->
  let r := handle dirname fs (get "/") in
  status r = 302%nat /\ location_header r = Some (Exactly "/web/buyer/").
Proof.
  intros Ha Hb. cbv zeta.
  rewrite PlainFacts.handle_routes; [split; reflexivity|].
  change (strategies dirname "/")
    with [(1%nat, (WEB_DIR dirname, "/")); (2%nat, (dirname, "/"))].
  unfold lookup. cbn [map fst snd].
  rewrite !SendFacts.pipe_root by discriminate.
  destruct (SendFacts.sendIndex_miss fs (WEB_DIR dirname)) as [s1 ->].
  { unfold no_index. rewrite Ha. reflexivity. }
  destruct (SendFacts.sendIndex_miss fs dirname) as [s2 ->].
  { unfold no_index. rewrite Hb. reflexivity. }
  reflexivity.
Qed.

Lemma C1_root_redirect_witness :
  let r := handle Samples.dir Samples.bare (get "/") in
  status r = 302%nat /\ location_header r = Some (Exactly "/web/buyer/").
Proof. apply C1_root_redirect; reflexivity. Defined.

(** ** C2: the health check *)

(** C2, as stated, fails: with a directory named [health] in root (a), and
    no file named [health] or [health.html] in any root, a GET on [/health]
    is answered with a 301 to [/health/] and not with the JSON value. *)
Lemma C2_directory_named_health :
  FS.stat Samples.health_directory (WEB_DIR Samples.dir ++ ["health"]) false
    = FS.IsDir
  /\ file_at Samples.health_directory (WEB_DIR Samples.dir ++ ["health"])
     = false
  /\ file_at Samples.health_directory (WEB_DIR Samples.dir ++ ["health.html"])
     = false
  /\ file_at Samples.health_directory (Samples.dir ++ ["health"]) = false
  /\ file_at Samples.health_directory (Samples.dir ++ ["health.html"]) = false
  /\ status (handle Samples.dir Samples.health_directory (get "/health"))
     = 301%nat
  /\ location_header
       (handle Samples.dir Samples.health_directory (get "/health"))
     = Some (Exactly "/health/")
  /\ entity (handle Samples.dir Samples.health_directory (get "/health"))
     <> JsonBody (JObject [("ok", JBool true)]).
Proof. vm_compute. repeat split; discriminate. Qed.

(** C2 (amended): when the top of root (a) and the top of the base
    directory hold no entry [health], neither a file nor a directory, and no
    regular file [health.html], a GET on [/health] is answered with status
    200, a JSON content type and the JSON value [{ok: true}], whatever else
    the file system holds. *)
Theorem C2_health (dirname : list string) (fs : FS.t) :
  absent fs (WEB_DIR dirname ++ ["health"]) = true ->
  file_at fs (WEB_DIR dirname ++ ["health.html"]) = false ->
  absent fs (dirname ++ ["health"]) = true ->
  file_at fs (dirname ++ ["health.html"]) = false ->
  handle dirname fs (get "/health")
  = {| status := 200;
       location_header := None;
       ctype := Some ApplicationJson;
       entity := JsonBody (JObject [("ok", JBool true)]) |}.
Proof.
  intros Ha Hah Hb Hbh.
  change "/health" with (url_of ["health"]).
  rewrite handle_plain_none; [reflexivity | reflexivity |].
  change (lookups dirname ["health"])
    with [WEB_DIR dirname ++ ["health"]; dirname ++ ["health"]].
  cbn [forallb]. unfold misses.
  rewrite !SegFacts.add_extension_snoc.
  change ("health" +:+ "." +:+ "html") with "health.html".
  rewrite Ha, Hb, Hah, Hbh.
  reflexivity.
Qed.

Lemma C2_health_witness :
  handle Samples.dir Samples.site (get "/health")
  = {| status := 200;
       location_header := None;
       ctype := Some ApplicationJson;
       entity := JsonBody (JObject [("ok", JBool true)]) |}.
Proof. apply C2_health; reflexivity. Defined.

(** ** C3: the order of the strategies *)

(** C3, as stated, fails: a strategy that locates a directory ends the
    search although it located no file.  For [/web/docs], where root (a)
    holds a directory [docs] and a file [web/docs], the first strategy finds
    no file and the second would find one; yet the second is not consulted
    and the answer is a 301, not the file. *)
Lemma C3_directory_ends_search :
  strategies Samples.dir "/web/docs"
  = [ (0%nat, (WEB_DIR Samples.dir, "/docs"));
      (1%nat, (WEB_DIR Samples.dir, "/web/docs"));
      (2%nat, (Samples.dir, "/web/docs")) ]
  /\ FS.stat Samples.directory_first (WEB_DIR Samples.dir ++ ["docs"]) false
     = FS.IsDir
  /\ file_at Samples.directory_first (WEB_DIR Samples.dir ++ ["docs.html"])
     = false
  /\ file_at Samples.directory_first
       (WEB_DIR Samples.dir ++ ["docs"; "index.html"]) = false
  /\ lookup Samples.directory_first (1%nat, (WEB_DIR Samples.dir, "/web/docs"))
     = Send.Stream (WEB_DIR Samples.dir ++ ["web"; "docs"]) "the manual"
  /\ consulted Samples.dir Samples.directory_first "/web/docs" = [0%nat]
  /\ status (handle Samples.dir Samples.directory_first (get "/web/docs"))
     = 301%nat
  /\ entity (handle Samples.dir Samples.directory_first (get "/web/docs"))
     <> FileBody (WEB_DIR Samples.dir ++ ["web"; "docs"]) "the manual".
Proof. vm_compute. repeat split; discriminate. Qed.

(** C3 (amended): for every GET path the layers are called in the order of
    the stack (first the lookup of the path without its [/web] prefix in
    root (a), then of the whole path in root (a), then of the whole path in
    the base directory); a strategy is consulted exactly when every strategy
    before it located neither a file nor a directory; and the earliest
    strategy that locates something decides the response: its file is
    served with status 200, and for a directory the answer is a 301 to the
    path with a slash added. *)
Theorem C3_strategy_order (dirname : list string) (fs : FS.t) (p : string) :
  StronglySorted lt (consulted dirname fs p)
  /\ forall pre s post,
       strategies dirname p = pre ++ s :: post ->
       (In (fst s) (consulted dirname fs p) <-> forallb (fails fs) pre = true)
       /\ (forallb (fails fs) pre = true ->
           (forall f c,
              lookup fs s = Send.Stream f c ->
              status (handle dirname fs (get p)) = 200%nat
              /\ entity (handle dirname fs (get p)) = FileBody f c)
           /\ (lookup fs s = Send.Directory ->
               status (handle dirname fs (get p)) = 301%nat
               /\ location_header (handle dirname fs (get p))
                  = Some (encodeUrl
                            (ServeStatic.collapseLeadingSlashes (p +:+ "/"))))).
Proof.
  split; [apply dispatch_trace|].
  intros pre s post Hs.
  destruct (strategies_positions dirname p) as [Hnd Hlt]. split.
  - rewrite consulted_static.
    + rewrite Hs in *. apply first_answer_trace, Hnd.
    + rewrite Stdlib.Lists.List.Forall_forall in Hlt. apply Hlt.
      rewrite Hs. apply in_elt.
  - intros Hpre.
    assert (Hr : forall r, answer p (lookup fs s) = Some r ->
                           handle dirname fs (get p) = r).
    { intros r Hr. apply PlainFacts.handle_answer.
      rewrite Hs, map_app. cbn [map]. rewrite Hr.
      apply PlainFacts.first_of_app, Forall_map,
        Stdlib.Lists.List.Forall_forall.
      intros x Hx. rewrite forallb_forall in Hpre. apply (Hpre x) in Hx.
      apply PlainFacts.answer_none. unfold fails in Hx.
      apply negb_true_iff in Hx. exact Hx. }
    split.
    + intros f c Hf. rewrite (Hr (ServeStatic.ok_file f c)).
      * split; reflexivity.
      * rewrite Hf. reflexivity.
    + intros Hd.
      rewrite (Hr (ServeStatic.moved
                     (ServeStatic.collapseLeadingSlashes (p +:+ "/")))).
      * split; reflexivity.
      * rewrite Hd. reflexivity.
Qed.

Lemma C3_strategy_order_witness :
  In 2%nat (consulted Samples.dir Samples.shadowed_index "/web/missing")
  /\ ~ In 1%nat (consulted Samples.dir Samples.shadowed_index "/web/buyer/")
  /\ entity (handle Samples.dir Samples.shadowed_index (get "/web/buyer/"))
     = FileBody (WEB_DIR Samples.dir ++ ["buyer"; "index.html"]) "web buyer".
Proof.
  destruct (C3_strategy_order Samples.dir Samples.shadowed_index "/web/missing")
    as [_ H1].
  destruct (H1 [(0%nat, (WEB_DIR Samples.dir, "/missing"));
                (1%nat, (WEB_DIR Samples.dir, "/web/missing"))]
              (2%nat, (Samples.dir, "/web/missing")) [] eq_refl) as [H1a _].
  destruct (C3_strategy_order Samples.dir Samples.shadowed_index "/web/buyer/")
    as [_ H2].
  destruct (H2 [(0%nat, (WEB_DIR Samples.dir, "/buyer/"))]
              (1%nat, (WEB_DIR Samples.dir, "/web/buyer/"))
              [(2%nat, (Samples.dir, "/web/buyer/"))] eq_refl) as [H2a _].
  destruct (H2 [] (0%nat, (WEB_DIR Samples.dir, "/buyer/"))
              [(1%nat, (WEB_DIR Samples.dir, "/web/buyer/"));
               (2%nat, (Samples.dir, "/web/buyer/"))] eq_refl) as [_ H2b].
  split; [apply H1a; reflexivity|].
  split; [intros H; apply H2a in H; discriminate H|].
  destruct (H2b eq_refl) as [H2c _].
  apply (H2c (WEB_DIR Samples.dir ++ ["buyer"; "index.html"]) "web buyer").
  reflexivity.
Defined.

(** ** C4: files below [/web/] *)

(** C4, as stated, fails: a dot file that exists in root (a) is not served
    (a 404 is); neither is a file whose name, taken as it stands in the
    request path, is not a well-formed escape sequence. *)
Lemma C4_existing_file_not_served :
  (FS.stat Samples.with_dotfile (WEB_DIR Samples.dir ++ [".env"]) false
     = FS.IsFile "SECRET=1"
   /\ status (handle Samples.dir Samples.with_dotfile (get "/web/.env"))
      = 404%nat)
  /\ (FS.stat Samples.with_dotfile (WEB_DIR Samples.dir ++ ["100%.txt"]) false
        = FS.IsFile "all"
      /\ status (handle Samples.dir Samples.with_dotfile (get "/web/100%.txt"))
         = 404%nat).
Proof. vm_compute. repeat split. Qed.

(** C4 (amended): for every plain path [segs] (names that are not empty, do
    not start with a dot and hold no slash, backslash, percent sign or NUL)
    such that a regular file exists at root(a)/segs, a GET on [/web/segs] is
    answered with status 200 and that file. *)
Theorem C4_web_file (dirname : list string) (fs : FS.t) (segs : list string)
    (c : string) :
  plain_path segs = true ->
  FS.stat fs (WEB_DIR dirname ++ segs) false = FS.IsFile c ->
  let r := handle dirname fs (get ("/web" +:+ url_of segs)) in
  status r = 200%nat /\ entity r = FileBody (WEB_DIR dirname ++ segs) c.
Proof.
  intros H Hf. cbv zeta. rewrite (handle_web_file _ _ _ _ H Hf).
  split; reflexivity.
Qed.

Lemma C4_web_file_witness :
  let r := handle Samples.dir Samples.site (get "/web/app.js") in
  status r = 200%nat
  /\ entity r = FileBody (WEB_DIR Samples.dir ++ ["app.js"]) "run()".
Proof. apply (C4_web_file Samples.dir Samples.site ["app.js"]); reflexivity. Defined.

(** ** C5: nothing outside the roots *)

(** C5: provided the server's base directory exists, for every request
    path, (1) a file that a GET returns lies strictly below the base
    directory (which contains root (a)), under names that are neither empty
    nor [.] nor [..], and is the file the file system holds there; and
    (2) a path whose segments, once decoded, step above the root (such as
    [/web/../../etc/passwd]) is answered with a 404. *)
Theorem C5_no_escape (dirname : list string) (fs : FS.t) (p : string) :
  FS.stat fs dirname false = FS.IsDir ->
  (forall f c,
     entity (handle dirname fs (get p)) = FileBody f c ->
     below dirname f /\ FS.stat fs f false = FS.IsFile c)
  /\ (forall d,
        URI.decodeURIComponent p = Some d ->
        climbs 0 (split_on is_slash d) = true ->
        status (handle dirname fs (get p)) = 404%nat).
Proof.
  intros Hdir. split.
  - intros f c. unfold handle. rewrite AppFacts.handle_static.
    pose proof (PlainFacts.first_answer_snd fs p (strategies dirname p)) as Hfa.
    destruct (first_answer fs p (strategies dirname p)) as [tr [r|]].
    + cbn [snd] in *. intros He. symmetry in Hfa.
      apply first_of_in, in_map_iff in Hfa as (s & Hs & Hin).
      pose proof (strategy_roots _ _ _ Hin) as Hroot. unfold lookup in Hs.
      destruct (Send.pipe static_options (fst (snd s)) fs (snd (snd s)))
        as [f' c'| |e] eqn:Hp; cbn [answer] in Hs; try discriminate Hs.
      * injection Hs as <-. cbn [entity ServeStatic.ok_file] in He.
        injection He as -> ->.
        destruct (SafetyFacts.pipe_stream _ _ _ _ _ Hp) as [Hst Hpl].
        split; [|exact Hst].
        destruct Hroot as [E|E]; rewrite E in Hpl.
        -- apply (placed_web _ _ _ Hpl).
        -- apply (placed_base _ _ _ _ Hdir Hst Hpl).
      * injection Hs as <-. discriminate He.
    + intros He. exfalso. apply (routes_no_file fs (get p) f c).
      destruct (Express.dispatch routes 3 fs (get p)). exact He.
  - intros d Hd Hc.
    rewrite (PlainFacts.handle_routes _ _ _
               (fails_answer _ _ _ (climbing_strategies_fail _ _ _ _ Hd Hc))).
    destruct (Express.match_route "/health" p) eqn:Hh.
    { rewrite (TraversalFacts.route_no_climb p d) in Hc;
        [discriminate | rewrite Hh; reflexivity | exact Hd]. }
    destruct (Express.match_route "/" p) eqn:Hr.
    { rewrite (TraversalFacts.route_no_climb p d) in Hc;
        [discriminate | rewrite Hr; apply orb_true_r | exact Hd]. }
    unfold routes. rewrite !AppFacts.dispatch_cons.
    unfold Express.run_layer. cbn [url get Express.handles_method meth andb].
    rewrite Hh, Hr. reflexivity.
Qed.

Lemma C5_no_escape_witness :
  (forall f c,
     entity (handle Samples.dir Samples.with_passwd
               (get "/web/../../etc/passwd")) = FileBody f c ->
     below Samples.dir f /\ FS.stat Samples.with_passwd f false = FS.IsFile c)
  /\ status (handle Samples.dir Samples.with_passwd
               (get "/web/../../etc/passwd")) = 404%nat.
Proof.
  destruct (C5_no_escape Samples.dir Samples.with_passwd
              "/web/../../etc/passwd" eq_refl) as [H1 H2].
  split; [exact H1 | apply (H2 "/web/../../etc/passwd"); reflexivity].
Defined.

(** ** C6: the final 404 *)

(** C6, as stated, fails: on a file system without any file, [/health/]
    and [/HEALTH] are neither [/health] nor [/], every lookup for them
    fails, and yet they are answered by the health route, since the router
    ignores letter case and one trailing slash. *)
Lemma C6_not_always_404 :
  (map (lookup Samples.bare) (strategies Samples.dir "/health/")
     = [Send.Error 404; Send.Error 404]
   /\ status (handle Samples.dir Samples.bare (get "/health/")) = 200%nat)
  /\ (map (lookup Samples.bare) (strategies Samples.dir "/HEALTH")
        = [Send.Error 404; Send.Error 404]
      /\ status (handle Samples.dir Samples.bare (get "/HEALTH")) = 200%nat).
Proof. vm_compute. repeat split. Qed.

(** C6 (amended): for every GET path [p] such that none of the three
    lookups finds anything (a file, or a directory to redirect to), and [p]
    matches neither route ([/health] and [/], compared without regard to
    letter case and to one trailing slash), the response is a 404 with the
    default not-found page. *)
Theorem C6_not_found (dirname : list string) (fs : FS.t) (p : string) :
  forallb (fails fs) (strategies dirname p) = true ->
  Express.match_route "/health" p = false ->
  Express.match_route "/" p = false ->
  handle dirname fs (get p)
  = {| status := 404;
       location_header := None;
       ctype := Some TextHtml;
       entity := ErrorPage GET p |}.
Proof.
  intros Hf Hh Hr.
  rewrite (PlainFacts.handle_routes _ _ _ (fails_answer _ _ _ Hf)).
  unfold routes. rewrite !AppFacts.dispatch_cons.
  unfold Express.run_layer. cbn [url get Express.handles_method meth andb].
  rewrite Hh, Hr. reflexivity.
Qed.

Lemma C6_not_found_witness :
  handle Samples.dir Samples.site (get "/missing.css")
  = {| status := 404;
       location_header := None;
       ctype := Some TextHtml;
       entity := ErrorPage GET "/missing.css" |}.
Proof. apply C6_not_found; reflexivity. Defined.

(** ** C7: the [.html] extension *)

(** C7, as stated, fails: [about.html] exists in the base directory and
    [about] does not, yet a GET on [/about] returns the file [about] that
    root (a), searched first, holds. *)
Lemma C7_shadowed_by_earlier_root :
  absent Samples.shadowed_html (Samples.dir ++ ["about"]) = true
  /\ FS.stat Samples.shadowed_html (Samples.dir ++ ["about.html"]) false
     = FS.IsFile "from base"
  /\ entity (handle Samples.dir Samples.shadowed_html (get "/about"))
     = FileBody (WEB_DIR Samples.dir ++ ["about"]) "from web"
  /\ entity (handle Samples.dir Samples.shadowed_html (get "/about"))
     <> FileBody (Samples.dir ++ ["about.html"]) "from base".
Proof. vm_compute. repeat split; discriminate. Qed.

(** C7 (amended): let [segs] be a plain path whose last name has no
    extension, and [q] one of the places its lookups examine, in their order
    (root(a)/segs without a leading [web]; root(a)/segs; base/segs).  When
    nothing exists at [q], [q.html] is a regular file, and every place
    examined before [q] holds neither an entry of that name nor a file of
    that name with [.html] added, a GET on [/segs] is answered with status
    200 and the file [q.html]. *)
Theorem C7_html_fallback (dirname : list string) (fs : FS.t)
    (segs : list string) (pre post : list (list string)) (q : list string)
    (c : string) :
  plain_path segs = true ->
  Path.extname (List.last segs "") = "" ->
  lookups dirname segs = pre ++ q :: post ->
  forallb (misses fs) pre = true ->
  absent fs q = true ->
  FS.stat fs (Send.add_extension q "html") false = FS.IsFile c ->
  let r := handle dirname fs (get (url_of segs)) in
  status r = 200%nat /\ entity r = FileBody (Send.add_extension q "html") c.
Proof.
  intros H He Hl Hpre Ha Hf.
  rewrite (PlainFacts.handle_plain_file dirname fs segs pre post q
             (ServeStatic.ok_file (Send.add_extension q "html") c) H Hl Hpre).
  - split; reflexivity.
  - rewrite (SendFacts.sendFile_html fs q c Ha); [reflexivity | | exact Hf].
    apply (lookups_extname dirname segs); [exact H | exact He |].
    rewrite Hl. apply in_elt.
Qed.

Lemma C7_html_fallback_witness :
  let r := handle Samples.dir Samples.site (get "/about") in
  status r = 200%nat
  /\ entity r = FileBody (WEB_DIR Samples.dir ++ ["about.html"]) "<h1>about</h1>".
Proof.
  apply (C7_html_fallback Samples.dir Samples.site ["about"] []
           [Samples.dir ++ ["about"]] (WEB_DIR Samples.dir ++ ["about"]));
    reflexivity.
Defined.

(** ** C8: directories and their index *)

(** C8, as stated, fails: [buyer] is a directory of root (a) that holds an
    [index.html], and a GET on [/web/buyer] (no trailing slash) is answered
    with a 301 redirect, not with the index. *)
Lemma C8_directory_without_slash_redirects :
  FS.stat Samples.site (WEB_DIR Samples.dir ++ ["buyer"]) false = FS.IsDir
  /\ FS.stat Samples.site (WEB_DIR Samples.dir ++ ["buyer"; "index.html"]) false
     = FS.IsFile "<h1>buyer</h1>"
  /\ handle Samples.dir Samples.site (get "/web/buyer")
     = ServeStatic.moved "/web/buyer/"
  /\ status (handle Samples.dir Samples.site (get "/web/buyer")) <> 200%nat.
Proof. vm_compute. repeat split; discriminate. Qed.

(** C8 (amended): let [segs] be a plain path and [q] one of the places its
    lookups examine, in their order.  (1) When [q/index.html] is a regular
    file and no place examined before [q] has a file [index.html], a GET on
    [/segs/] is answered with status 200 and the file [q/index.html].
    (2) When [q] is a directory and every place examined before [q] holds
    neither an entry of that name nor a file of that name with [.html]
    added, a GET on [/segs] is answered with a 301 redirect to [/segs/]. *)
Theorem C8_directory_index (dirname : list string) (fs : FS.t)
    (segs : list string) (pre post : list (list string)) (q : list string) :
  plain_path segs = true ->
  lookups dirname segs = pre ++ q :: post ->
  (forall c,
     forallb (no_index fs) pre = true ->
     FS.stat fs (Path.join q "index.html") false = FS.IsFile c ->
     let r := handle dirname fs (get (url_of segs +:+ "/")) in
     status r = 200%nat /\ entity r = FileBody (Path.join q "index.html") c)
  /\ (forallb (misses fs) pre = true ->
      FS.stat fs q false = FS.IsDir ->
      let r := handle dirname fs (get (url_of segs)) in
      status r = 301%nat
      /\ location_header r = Some (encodeUrl (url_of segs +:+ "/"))).
Proof.
  intros H Hl. split.
  - intros c Hpre Hf.
    rewrite (PlainFacts.handle_plain_dir dirname fs segs pre post q
               (ServeStatic.ok_file (Path.join q "index.html") c) H Hl Hpre).
    + split; reflexivity.
    + rewrite (SendFacts.sendIndex_file _ _ _ Hf). reflexivity.
  - intros Hpre Hd.
    rewrite (PlainFacts.handle_plain_file dirname fs segs pre post q
               (ServeStatic.moved (url_of segs +:+ "/")) H Hl Hpre).
    + split; reflexivity.
    + rewrite (SendFacts.sendFile_dir _ _ _ Hd). cbn [answer].
      rewrite (SegFacts.collapse_url_of _ H). reflexivity.
Qed.

Lemma C8_directory_index_witness :
  (let r := handle Samples.dir Samples.site (get "/buyer/") in
   status r = 200%nat
   /\ entity r = FileBody (WEB_DIR Samples.dir ++ ["buyer"; "index.html"])
                   "<h1>buyer</h1>")
  /\ (let r := handle Samples.dir Samples.site (get "/buyer") in
      status r = 301%nat /\ location_header r = Some (Exactly "/buyer/")).
Proof.
  destruct (C8_directory_index Samples.dir Samples.site ["buyer"] []
              [Samples.dir ++ ["buyer"]] (WEB_DIR Samples.dir ++ ["buyer"])
              eq_refl eq_refl) as [H1 H2].
  split; [apply (H1 "<h1>buyer</h1>") | apply H2]; reflexivity.
Defined.

(** ** C9: the listen port *)



(** ** C10: with and without the prefix *)

(** C10, as stated, fails: for q = [web/logo.png], which exists in root (a),
    a GET on [/web/] + q returns that file, while a GET on [/] + q is taken
    by the first strategy and returns root(a)/logo.png. *)
Lemma C10_prefix_taken_twice :
  FS.stat Samples.nested_web (WEB_DIR Samples.dir ++ ["web"; "logo.png"]) false
    = FS.IsFile "inner"
  /\ entity (handle Samples.dir Samples.nested_web (get "/web/web/logo.png"))
     = FileBody (WEB_DIR Samples.dir ++ ["web"; "logo.png"]) "inner"
  /\ entity (handle Samples.dir Samples.nested_web (get "/web/logo.png"))
     = FileBody (WEB_DIR Samples.dir ++ ["logo.png"]) "outer"
  /\ entity (handle Samples.dir Samples.nested_web (get "/web/web/logo.png"))
     <> entity (handle Samples.dir Samples.nested_web (get "/web/logo.png")).
Proof. vm_compute. repeat split; discriminate. Qed.

(** C10 (amended): for every plain path [segs] whose first name is not
    [web] (in any letter case) and such that a regular file exists at
    root(a)/segs, a GET on [/web/segs] and a GET on [/segs] are both
    answered with status 200 and that same file. *)
Theorem C10_prefix_equivalence (dirname : list string) (fs : FS.t)
    (segs : list string) (c : string) :
  plain_path segs = true ->
  eqb_ci (List.hd "" segs) "web" = false ->
  FS.stat fs (WEB_DIR dirname ++ segs) false = FS.IsFile c ->
  let r1 := handle dirname fs (get ("/web" +:+ url_of segs)) in
  let r2 := handle dirname fs (get (url_of segs)) in
  status r1 = 200%nat /\ status r2 = 200%nat
  /\ entity r1 = FileBody (WEB_DIR dirname ++ segs) c
  /\ entity r2 = entity r1.
Proof.
  intros H Hw Hf.
  cbv zeta. rewrite (handle_web_file _ _ _ _ H Hf).
  rewrite (PlainFacts.handle_plain_file dirname fs segs []
             [dirname ++ segs] (WEB_DIR dirname ++ segs)
             (ServeStatic.ok_file (WEB_DIR dirname ++ segs) c) H).
  - repeat split.
  - unfold lookups. rewrite Hw. reflexivity.
  - reflexivity.
  - rewrite (SendFacts.sendFile_file _ _ _ _ Hf). reflexivity.
Qed.

Lemma C10_prefix_equivalence_witness :
  let r1 := handle Samples.dir Samples.site (get "/web/app.js") in
  let r2 := handle Samples.dir Samples.site (get "/app.js") in
  status r1 = 200%nat /\ status r2 = 200%nat
  /\ entity r1 = FileBody (WEB_DIR Samples.dir ++ ["app.js"]) "run()"
  /\ entity r2 = entity r1.
Proof.
  apply (C10_prefix_equivalence Samples.dir Samples.site ["app.js"]);
    reflexivity.
Defined.

(** * Further properties of the application *)

(** ** Requests of any method *)

Module MethodFacts.

Import Str Http Spec StrFacts PathFacts FSFacts SendFacts StaticFacts Server.
Import AppFacts PlainFacts AnswerFacts.

Lemma serveStatic_read (root : list string) (fs : FS.t) (req : request) :
  meth req <> POST ->
  ServeStatic.serveStatic root static_options fs req =
  match answer (originalUrl req)
          (Send.pipe static_options root fs (ServeStatic.send_path req)) with
  | Some r => Respond r
  | None => Next
  end.
Proof.
  intros Hm. unfold ServeStatic.serveStatic.
  destruct (meth req); [| |congruence];
    (destruct (Send.pipe _ _ _ _) as [f c| |s] eqn:Hp; cbn [answer];
     [ reflexivity
     | unfold ServeStatic.onDirectory; rewrite (pipe_directory _ _ _ Hp);
       reflexivity
     | unfold ServeStatic.forward; rewrite (pipe_error _ _ _ _ Hp);
       reflexivity ]).
Qed.

Lemma serveStatic_post (root : list string) (fs : FS.t) (req : request) :
  meth req = POST ->
  ServeStatic.serveStatic root static_options fs req = Next.
Proof. intros Hm. unfold ServeStatic.serveStatic. rewrite Hm. reflexivity. Qed.

Lemma send_path_incoming (m : method) (p : string) :
  ServeStatic.send_path (incoming m p) = p.
Proof.
  unfold ServeStatic.send_path, incoming. cbn [url originalUrl].
  destruct (String.eqb_spec p "/") as [->|]; reflexivity.
Qed.

Lemma send_path_trimmed (rest : string) (m : method) (p : string) :
  ServeStatic.send_path (Express.trim_prefix rest (incoming m p))
  = ServeStatic.send_path (Express.trim_prefix rest (get p)).
Proof. reflexivity. Qed.

Lemma run_use_web_any (h : Express.handler) (fs : FS.t) (req : request) :
  Express.run_layer (Express.Use "/web" h) fs req =
  match Express.match_mount "/web" (url req) with
  | Some rest => Some (h fs (Express.trim_prefix rest req))
  | None => None
  end.
Proof. reflexivity. Qed.

(** What the two routes answer to a GET or a HEAD. *)
Lemma routes_answer (fs : FS.t) (m : method) (p : string) :
  m <> POST ->
  Express.dispatch routes 3 fs (incoming m p) =
  if Express.match_route "/health" p
  then ([3%nat], Express.json_response (JObject [("ok", JBool true)]))
  else if Express.match_route "/" p
       then ([4%nat], Express.redirect_response "/web/buyer/")
       else ([], Express.finalhandler None (incoming m p)).
Proof.
  intros Hm. unfold routes. rewrite !dispatch_cons. unfold Express.run_layer.
  assert (Hh : Express.handles_method GET (incoming m p) = true)
    by (destruct m; [reflexivity | reflexivity | congruence]).
  rewrite Hh. cbn [andb url incoming].
  destruct (Express.match_route "/health" p); [reflexivity|].
  destruct (Express.match_route "/" p); reflexivity.
Qed.

(** The stack answers a GET or a HEAD like the ordered strategies followed
    by the routes. *)
Lemma handle_static_any (dirname : list string) (fs : FS.t) (m : method)
    (p : string) :
  m <> POST ->
  handle_traced dirname fs (incoming m p) =
  match first_answer fs p (strategies dirname p) with
  | (tr, Some r) => (tr, r)
  | (tr, None) =>
      let '(tr', r) := Express.dispatch routes 3 fs (incoming m p) in
      (tr ++ tr', r)
  end.
Proof.
  intros Hm. unfold handle_traced, strategies. rewrite app_routes.
  do 3 rewrite dispatch_cons. rewrite run_use_web_any, !run_use_root.
  rewrite !(serveStatic_read _ _ (incoming m p)) by exact Hm.
  rewrite send_path_incoming.
  change (originalUrl (incoming m p)) with p.
  change (url (incoming m p)) with p.
  destruct (strip_web p) as [q|] eqn:Hq.
  - destruct (mount_web _ _ Hq) as (rest & Hmt & Hp). rewrite Hmt.
    rewrite serveStatic_read by exact Hm.
    rewrite (send_path_trimmed rest m p), Hp.
    cbn [List.app first_answer Express.trim_prefix originalUrl incoming].
    unfold lookup. cbn [fst snd].
    destruct (answer p (Send.pipe static_options (WEB_DIR dirname) fs q));
      [reflexivity|].
    destruct (answer p (Send.pipe static_options (WEB_DIR dirname) fs p));
      [reflexivity|].
    destruct (answer p (Send.pipe static_options dirname fs p));
      [reflexivity|].
    destruct (Express.dispatch routes 3 fs _). reflexivity.
  - rewrite (mount_web_none _ Hq).
    cbn [List.app first_answer]. unfold lookup. cbn [fst snd].
    destruct (answer p (Send.pipe static_options (WEB_DIR dirname) fs p));
      [reflexivity|].
    destruct (answer p (Send.pipe static_options dirname fs p));
      [reflexivity|].
    destruct (Express.dispatch routes 3 fs _). reflexivity.
Qed.

(** No layer answers a POST. *)
Lemma handle_post (dirname : list string) (fs : FS.t) (p : string) :
  handle dirname fs (incoming POST p)
  = Express.finalhandler None (incoming POST p).
Proof.
  unfold handle, handle_traced. rewrite app_routes. unfold routes.
  rewrite !dispatch_cons, run_use_web_any, !run_use_root.
  rewrite !(serveStatic_post _ _ (incoming POST p)) by reflexivity.
  unfold Express.run_layer. cbn [Express.handles_method meth incoming andb].
  destruct (Express.match_mount "/web" (url (incoming POST p))) as [rest|].
  - rewrite serveStatic_post by reflexivity. reflexivity.
  - reflexivity.
Qed.

(** What a strategy can answer. *)
Lemma answer_shape (p : string) (res : Send.result) (r : response) :
  answer p res = Some r ->
  (exists f c, res = Send.Stream f c /\ r = ServeStatic.ok_file f c)
  \/ (res = Send.Directory
      /\ r = ServeStatic.moved
               (ServeStatic.collapseLeadingSlashes (p +:+ "/"))).
Proof.
  destruct res as [f c| |e]; cbn [answer]; intros H; try discriminate H;
    injection H as <-; [left; eauto | right; auto].
Qed.

Lemma first_answer_from (fs : FS.t) (p : string) (ss : list strategy)
    (tr : list nat) (r : response) :
  first_answer fs p ss = (tr, Some r) ->
  exists s, In s ss /\ answer p (lookup fs s) = Some r.
Proof.
  intros H. pose proof (first_answer_snd fs p ss) as Hs. rewrite H in Hs.
  cbn [snd] in Hs. symmetry in Hs.
  apply first_of_in, in_map_iff in Hs as (s & Hs & Hin). eauto.
Qed.

End MethodFacts.

(** ** Redirects *)

Module RedirectFacts.

Import Str Http Spec StrFacts PathFacts FSFacts SendFacts StaticFacts Server.
Import AppFacts PlainFacts AnswerFacts MethodFacts.

Lemma drop_slashes_first (s : string) :
  starts_with_slash (ServeStatic.drop_slashes s) = false.
Proof.
  induction s as [|c s IH]; [reflexivity|]. cbn [ServeStatic.drop_slashes].
  destruct (is_slash c) eqn:Hc; [exact IH|]. cbn [starts_with_slash]. exact Hc.
Qed.

Lemma collapse_no_double (s : string) :
  double_slash (ServeStatic.collapseLeadingSlashes s) = false.
Proof.
  destruct s as [|a [|b rest]]; [reflexivity | reflexivity |].
  cbn [ServeStatic.collapseLeadingSlashes].
  destruct (is_slash a && is_slash b)%bool eqn:E; [|exact E].
  pose proof (drop_slashes_first rest) as H.
  destruct (ServeStatic.drop_slashes rest) as [|x r]; [reflexivity|].
  cbn [double_slash starts_with_slash] in *. rewrite H. apply andb_false_r.
Qed.

Lemma drop_slashes_ends (s : string) :
  ends_with_slash s = true ->
  ServeStatic.drop_slashes s = ""
  \/ ends_with_slash (ServeStatic.drop_slashes s) = true.
Proof.
  induction s as [|c s IH]; [discriminate|]. cbn [ServeStatic.drop_slashes].
  intros H. destruct (is_slash c); [|right; exact H].
  destruct s as [|d s]; [left; reflexivity|].
  apply IH. rewrite ends_with_slash_cons in H by discriminate. exact H.
Qed.

Lemma collapse_ends (s : string) :
  ends_with_slash s = true ->
  ends_with_slash (ServeStatic.collapseLeadingSlashes s) = true.
Proof.
  destruct s as [|a [|b rest]]; [discriminate | intros H; exact H |].
  cbn [ServeStatic.collapseLeadingSlashes]. intros H.
  destruct (is_slash a && is_slash b)%bool eqn:E; [|exact H].
  apply andb_true_iff in E as [_ Eb].
  destruct rest as [|c rest]; [reflexivity|].
  do 2 rewrite ends_with_slash_cons in H by discriminate.
  destruct (drop_slashes_ends _ H) as [->|Hd]; [reflexivity|].
  destruct (ServeStatic.drop_slashes (String c rest)) as [|x r] eqn:Ed;
    [discriminate Hd|].
  rewrite ends_with_slash_cons by discriminate. exact Hd.
Qed.

Lemma strip_web_ends (p q : string) :
  strip_web p = Some q -> ends_with_slash p = true ->
  ends_with_slash q = true.
Proof.
  unfold strip_web.
  destruct (strip_prefix_ci "/web" p) as [r|] eqn:Hs; [|discriminate].
  destruct (strip_web_shape _ _ Hs) as (a & b & c & d & -> & Hd).
  destruct (_ || _)%bool; [|discriminate]. intros H. injection H as <-.
  destruct r as [|x r].
  - unfold ends_with_slash. cbn [last_char]. rewrite Hd. discriminate.
  - do 4 rewrite ends_with_slash_cons by discriminate. trivial.
Qed.

(** No strategy finds a directory to redirect to when the path ends with a
    slash. *)
Lemma no_directory_on_slash (dirname : list string) (fs : FS.t) (p : string)
    (s : strategy) :
  ends_with_slash p = true -> In s (strategies dirname p) ->
  lookup fs s <> Send.Directory.
Proof.
  intros He Hin Hd. unfold lookup in Hd. apply pipe_directory in Hd.
  unfold strategies in Hin. apply in_app_or in Hin as [Hin|Hin].
  - destruct (strip_web p) as [q|] eqn:Hq; [|destruct Hin].
    destruct Hin as [<-|[]]. cbn [fst snd] in Hd.
    rewrite (strip_web_ends _ _ Hq He) in Hd. discriminate.
  - destruct Hin as [<-|[<-|[]]]; cbn [fst snd] in Hd; congruence.
Qed.

Lemma no_redirect_on_slash (dirname : list string) (fs : FS.t) (p : string) :
  ends_with_slash p = true ->
  status (handle dirname fs (get p)) <> 301%nat.
Proof.
  intros He. unfold handle. rewrite handle_static.
  destruct (first_answer fs p (strategies dirname p)) as [tr [r|]] eqn:Hfa.
  - cbn [snd]. destruct (first_answer_from _ _ _ _ _ Hfa) as (s & Hin & Ha).
    destruct (answer_shape _ _ _ Ha) as [(f & c & _ & ->)|[Hd _]];
      [discriminate|].
    destruct (no_directory_on_slash _ _ _ _ He Hin Hd).
  - change (get p) with (incoming GET p).
    rewrite routes_answer by discriminate.
    destruct (Express.match_route "/health" p); [discriminate|].
    destruct (Express.match_route "/" p); discriminate.
Qed.

End RedirectFacts.

(** ** The theorems *)

Import Str Http Spec Server StrFacts AppFacts PlainFacts AnswerFacts.
Import MethodFacts RedirectFacts.

(** X1: a POST request is answered with the default 404 page, whatever the
    path and the file system: the static middlewares pass it on and both
    routes are registered for GET. *)
Theorem post_not_found (dirname : list string) (fs : FS.t)
    (p : string) :
  handle dirname fs (incoming POST p)
  = {| status := 404;
       location_header := None;
       ctype := Some TextHtml;
       entity := ErrorPage POST p |}.
Proof. apply handle_post. Qed.

(** X2: a HEAD request is resolved like the GET request for the same path:
    same status, same [Location], same content type, and the same entity
    (the file, the JSON value or the redirect) unless both are the not-found
    page, which names the method. *)
Theorem head_like_get (dirname : list string) (fs : FS.t) (p : string) :
  let g := handle dirname fs (get p) in
  let h := handle dirname fs (incoming HEAD p) in
  status h = status g
  /\ location_header h = location_header g
  /\ ctype h = ctype g
  /\ (entity h = entity g
      \/ (entity g = ErrorPage GET p /\ entity h = ErrorPage HEAD p)).
Proof.
  cbv zeta. unfold handle. change (get p) with (incoming GET p).
  rewrite !handle_static_any by discriminate.
  destruct (first_answer fs p (strategies dirname p)) as [tr [r|]].
  - cbn [snd]. auto.
  - rewrite !routes_answer by discriminate.
    destruct (Express.match_route "/health" p); [cbn [snd]; auto|].
    destruct (Express.match_route "/" p); cbn [snd]; auto.
    repeat split. right. split; reflexivity.
Qed.

(** X4: a 301 of the server only adds a slash to the path asked for:
    its [Location] is the request path followed by a slash, with a run of
    leading slashes reduced to one, so that it never starts with two
    slashes. *)
Theorem redirect_adds_slash (dirname : list string) (fs : FS.t) (p : string) :
  status (handle dirname fs (get p)) = 301%nat ->
  let t := ServeStatic.collapseLeadingSlashes (p +:+ "/") in
  location_header (handle dirname fs (get p)) = Some (encodeUrl t)
  /\ double_slash t = false.
Proof.
  cbv zeta. intros H. split; [|apply collapse_no_double].
  revert H. unfold handle. rewrite handle_static.
  destruct (first_answer fs p (strategies dirname p)) as [tr [r|]] eqn:Hfa.
  - cbn [snd]. destruct (first_answer_from _ _ _ _ _ Hfa) as (s & _ & Ha).
    destruct (answer_shape _ _ _ Ha) as [(f & c & _ & ->)|[_ ->]];
      [discriminate | reflexivity].
  - change (get p) with (incoming GET p).
    rewrite routes_answer by discriminate.
    destruct (Express.match_route "/health" p); [discriminate|].
    destruct (Express.match_route "/" p); discriminate.
Qed.

Lemma redirect_adds_slash_witness :
  location_header (handle Samples.dir Samples.site (get "//web//buyer"))
  = Some (Exactly "/web//buyer/").
Proof.
  apply (redirect_adds_slash Samples.dir Samples.site "//web//buyer").
  reflexivity.
Defined.

(** X5: a path that ends with a slash is never answered with a 301; in
    particular the target of a 301 is not answered with another one. *)
Theorem no_redirect_chain (dirname : list string) (fs : FS.t) (p : string) :
  (ends_with_slash p = true -> status (handle dirname fs (get p)) <> 301%nat)
  /\ status (handle dirname fs
               (get (ServeStatic.collapseLeadingSlashes (p +:+ "/"))))
     <> 301%nat.
Proof.
  split; [apply no_redirect_on_slash|].
  apply no_redirect_on_slash, collapse_ends, ends_with_slash_added.
Qed.

Lemma no_redirect_chain_witness :
  status (handle Samples.dir Samples.empty_docs (get "/docs/")) <> 301%nat.
Proof.
  apply (proj1 (no_redirect_chain Samples.dir Samples.empty_docs "/docs/")).
  reflexivity.
Defined.

(** ** Dot files *)

Module DotFacts.

Import Str Http Spec StrFacts PathFacts FSFacts SendFacts StaticFacts Server.
Import SafetyFacts AppFacts PlainFacts AnswerFacts MethodFacts.

Lemma last_in (l : list string) : l <> [] -> In (List.last l "") l.
Proof.
  intros Hne. rewrite (app_removelast_last "" Hne) at 2. apply in_elt.
Qed.

Lemma starts_with_dot_app (x y : string) :
  x <> "" -> starts_with_dot (x +:+ y) = starts_with_dot x.
Proof. destruct x; [congruence | reflexivity]. Qed.

(** A proper name that starts with a dot has more than one character. *)
Lemma proper_dot_long (x : string) :
  proper_name x = true -> starts_with_dot x = true ->
  (1 <? String.length x)%nat = true.
Proof.
  unfold proper_name. intros H Hd.
  repeat (apply andb_true_iff in H as [H ?]).
  destruct x as [|c [|c' x]]; [discriminate Hd | | reflexivity].
  cbn [starts_with_dot] in Hd. apply Ascii.eqb_eq in Hd. subst c.
  discriminate.
Qed.

Lemma no_dot_last (names : list string) :
  forallb proper_name names = true -> names <> [] ->
  Send.containsDotFile names = false ->
  starts_with_dot (List.last names "") = false.
Proof.
  intros Hp Hne Hc. pose proof (last_in _ Hne) as Hin.
  destruct (starts_with_dot (List.last names "")) eqn:Hd; [|reflexivity].
  rewrite forallb_forall in Hp.
  pose proof (proper_dot_long _ (Hp _ Hin) Hd) as Hl.
  assert (Send.containsDotFile names = true); [|congruence].
  unfold Send.containsDotFile. apply existsb_exists.
  exists (List.last names ""). rewrite Hl, Hd. auto.
Qed.

(** The file a lookup streams has a name without a leading dot, unless it
    is the root itself or the root's name with [.html] added. *)
Lemma resolve_name (fs : FS.t) (root names f : list string) (c : string)
    (b tr : bool) :
  forallb proper_name names = true ->
  (tr = false -> names <> [] ->
   starts_with_dot (List.last names "") = false) ->
  (if b then Send.sendIndex static_options fs (root ++ names)
   else Send.sendFile static_options fs (root ++ names) tr) = Send.Stream f c ->
  starts_with_dot (List.last f "") = false
  \/ (f = root /\ FS.stat fs root false = FS.IsFile c)
  \/ (f = Send.add_extension root "html" /\ absent fs root = true).
Proof.
  intros Hpr Hn. destruct b.
  - unfold Send.sendIndex. cbn [Send.index static_options Send.try_indexes].
    destruct (FS.stat fs (Path.join (root ++ names) "index.html") false)
      as [c' | | e] eqn:Hs; try (destruct e); try discriminate.
    intros H. injection H as <- <-. left. unfold Path.join.
    rewrite last_last. reflexivity.
  - unfold Send.sendFile.
    destruct (FS.stat fs (root ++ names) tr) as [c' | | []] eqn:Hs;
      try discriminate.
    + intros H. injection H as <- <-.
      pose proof (stat_file_not_trailing _ _ _ _ Hs) as ->.
      destruct names as [|n names].
      * right. left. rewrite app_nil_r in *. auto.
      * left. rewrite SegFacts.last_app_nonempty by discriminate.
        apply Hn; [reflexivity | discriminate].
    + destruct (_ && negb tr)%bool eqn:Hc; [|discriminate].
      apply andb_true_iff in Hc as [_ Htr]. apply negb_true_iff in Htr.
      subst tr. cbn [Send.extensions static_options Send.try_extensions].
      destruct (FS.stat fs (Send.add_extension (root ++ names) "html") false)
        as [c' | | e] eqn:Hx; try (destruct e); try discriminate.
      intros H. injection H as <- <-.
      destruct names as [|n names].
      * right. right. rewrite app_nil_r in *. split; [reflexivity|].
        unfold absent. rewrite Hs. reflexivity.
      * left. unfold Send.add_extension. rewrite last_last.
        rewrite SegFacts.last_app_nonempty by discriminate.
        assert (Hne : List.last (n :: names) "" <> "").
        { assert (Hin : In (List.last (n :: names) "") (n :: names))
            by (apply last_in; discriminate).
          rewrite forallb_forall in Hpr. apply Hpr in Hin.
          intros E. rewrite E in Hin. discriminate Hin. }
        rewrite starts_with_dot_app by exact Hne.
        apply Hn; [reflexivity | discriminate].
Qed.

Lemma pipe_stream_name (fs : FS.t) (root : list string) (raw : string)
    (f : list string) (c : string) :
  Send.pipe static_options root fs raw = Send.Stream f c ->
  starts_with_dot (List.last f "") = false
  \/ (f = root /\ FS.stat fs root false = FS.IsFile c)
  \/ (f = Send.add_extension root "html" /\ absent fs root = true).
Proof.
  unfold Send.pipe.
  destruct (URI.decodeURIComponent raw) as [d|]; [|discriminate].
  destruct (contains nul d); [discriminate|].
  destruct (String.eqb d "") eqn:Hd.
  - cbn [Send.up_path existsb]. cbv iota.
    change (Send.containsDotFile [""]) with false. cbv iota.
    apply resolve_name; [reflexivity | congruence].
  - destruct (Path.normalize_relative d) as [names tr] eqn:Hn.
    destruct (Send.up_path names) eqn:Hup; [discriminate|].
    assert (Hp : forallb proper_name names = true).
    { pose proof (names_proper d) as H. rewrite Hn in H. apply H, Hup. }
    destruct (Send.containsDotFile (Send.parts names tr)) eqn:Hc.
    + unfold Send.dotfile_access.
      cbn [Send.dotfiles Send.hidden static_options].
      destruct (starts_with_dot (List.last (Send.parts names tr) "")) eqn:Hl;
        [discriminate|].
      apply resolve_name; [exact Hp|]. intros -> Hne.
      destruct names; [congruence | exact Hl].
    + apply resolve_name; [exact Hp|]. intros -> Hne.
      apply no_dot_last; [exact Hp | exact Hne |].
      destruct names; [congruence | exact Hc].
Qed.

End DotFacts.

Import DotFacts.

(** X6: dot files are never served.  Provided the server's base directory
    exists, the name of a file returned for a request, whatever its method
    and path, does not start with a dot. *)
Theorem dot_files_never_served (dirname : list string) (fs : FS.t)
    (m : method) (p : string) (f : list string) (c : string) :
  FS.stat fs dirname false = FS.IsDir ->
  entity (handle dirname fs (incoming m p)) = FileBody f c ->
  starts_with_dot (List.last f "") = false.
Proof.
  intros Hdir.
  destruct m; [| |rewrite handle_post; discriminate];
    (unfold handle; rewrite handle_static_any by discriminate;
     destruct (first_answer fs p (strategies dirname p)) as [tr [r|]] eqn:Hfa;
     [ cbn [snd]; intros He;
       destruct (first_answer_from _ _ _ _ _ Hfa) as (s & Hin & Ha);
       destruct (answer_shape _ _ _ Ha) as [(f' & c' & Hs & ->)|[_ ->]];
       [|discriminate He];
       cbn [entity ServeStatic.ok_file] in He; injection He as -> ->;
       unfold lookup in Hs;
       destruct (pipe_stream_name _ _ _ _ _ Hs) as [H|[[E Hf]|[E Ha']]];
       [ exact H | | ];
       destruct (strategy_roots _ _ _ Hin) as [Er|Er]; rewrite Er in *
     | rewrite routes_answer by discriminate;
       destruct (Express.match_route "/health" p); [discriminate|];
       destruct (Express.match_route "/" p); discriminate ]).
  all: try (subst f; unfold WEB_DIR, Path.join;
            rewrite ?SegFacts.add_extension_snoc, last_last; reflexivity).
  all: try (rewrite Hdir in Hf; discriminate Hf).
  all: try (unfold absent in Ha'; rewrite Hdir in Ha'; discriminate Ha').
Qed.

Lemma dot_files_never_served_witness :
  starts_with_dot
    (List.last (WEB_DIR Samples.dir ++ ["app.js"]) "") = false.
Proof.
  apply (dot_files_never_served Samples.dir Samples.site GET "/web/app.js"
           (WEB_DIR Samples.dir ++ ["app.js"]) "run()"); reflexivity.
Defined.

(** ** Precedence, fallback and the mount point *)

Module FallbackFacts.

Import Str Http Spec StrFacts PathFacts FSFacts SendFacts StaticFacts Server.
Import SafetyFacts AppFacts PlainFacts AnswerFacts.

(** Below something that does not exist there is nothing. *)
Lemma walk_err_below (n : FS.node) (p q : list string) (e : FS.errno) :
  FS.walk n p = FS.Err e -> exists e', FS.walk n (p ++ q) = FS.Err e'.
Proof.
  revert n. induction p as [|s p IH]; intros n; cbn [FS.walk List.app].
  - destruct n; discriminate.
  - destruct n as [c|es]; [eauto|].
    destruct (es !! s) as [n'|]; [apply IH | eauto].
Qed.

Lemma absent_below (fs : FS.t) (p q : list string) :
  absent fs p = true -> absent fs (p ++ q) = true.
Proof.
  unfold absent. rewrite !stat_walk.
  destruct (FS.walk (FS.Dir fs) p) as [? | | e] eqn:Hw; try discriminate.
  intros _. destruct (walk_err_below _ _ q _ Hw) as [e' ->]. reflexivity.
Qed.

Lemma misses_below (fs : FS.t) (root segs : list string) :
  segs <> [] -> absent fs root = true -> misses fs (root ++ segs) = true.
Proof.
  intros Hne Ha. unfold misses.
  rewrite (absent_below _ _ segs Ha), (add_extension_app _ _ _ Hne).
  rewrite (SegFacts.absent_not_file _ _ (absent_below _ _ _ Ha)).
  reflexivity.
Qed.

(** The strategies of a plain path below [/web]. *)
Lemma strategies_web (dirname : list string) (segs : list string) :
  plain_path segs = true ->
  strategies dirname ("/web" +:+ url_of segs)
  = [ (0%nat, (WEB_DIR dirname, url_of segs));
      (1%nat, (WEB_DIR dirname, "/web" +:+ url_of segs));
      (2%nat, (dirname, "/web" +:+ url_of segs)) ].
Proof.
  intros H. unfold strategies.
  change ("/web" +:+ url_of segs) with (String slash ("web" +:+ url_of segs)).
  rewrite (strip_web_name "web" (url_of segs));
    [reflexivity | reflexivity | right; reflexivity].
Qed.

End FallbackFacts.

Import FallbackFacts.

(** X7: an [index.html] at the top of a root takes precedence over the
    route of [/]: a GET on [/] returns the one of root (a) when it is a
    regular file, and otherwise the one of the base directory when that is
    a regular file. *)
Theorem root_serves_index (dirname : list string) (fs : FS.t) (c : string) :
  (FS.stat fs (Path.join (WEB_DIR dirname) "index.html") false = FS.IsFile c ->
   handle dirname fs (get "/")
   = ServeStatic.ok_file (Path.join (WEB_DIR dirname) "index.html") c)
  /\ (file_at fs (Path.join (WEB_DIR dirname) "index.html") = false ->
      FS.stat fs (Path.join dirname "index.html") false = FS.IsFile c ->
      handle dirname fs (get "/")
      = ServeStatic.ok_file (Path.join dirname "index.html") c).
Proof.
  split.
  - intros Ha. apply handle_answer.
    change (strategies dirname "/")
      with [(1%nat, (WEB_DIR dirname, "/")); (2%nat, (dirname, "/"))].
    unfold lookup. cbn [map fst snd].
    rewrite SendFacts.pipe_root by discriminate.
    rewrite (SendFacts.sendIndex_file _ _ _ Ha). reflexivity.
  - intros Ha Hb. apply handle_answer.
    change (strategies dirname "/")
      with [(1%nat, (WEB_DIR dirname, "/")); (2%nat, (dirname, "/"))].
    unfold lookup. cbn [map fst snd].
    rewrite !SendFacts.pipe_root by discriminate.
    destruct (SendFacts.sendIndex_miss fs (WEB_DIR dirname)) as [s1 ->].
    { unfold no_index. rewrite Ha. reflexivity. }
    rewrite (SendFacts.sendIndex_file _ _ _ Hb). reflexivity.
Qed.

Lemma root_serves_index_witness :
  handle Samples.dir Samples.site (get "/")
  = ServeStatic.ok_file (Path.join (WEB_DIR Samples.dir) "index.html")
      "<h1>home</h1>".
Proof.
  apply (proj1 (root_serves_index Samples.dir Samples.site "<h1>home</h1>")).
  reflexivity.
Defined.

(** X8: a file takes precedence over the health route: when root (a) has a
    regular file [health], or no entry [health] but a regular file
    [health.html], a GET on [/health] returns that file and not the JSON
    answer. *)
Theorem health_shadowed_by_file (dirname : list string) (fs : FS.t)
    (c : string) :
  (FS.stat fs (WEB_DIR dirname ++ ["health"]) false = FS.IsFile c ->
   handle dirname fs (get "/health")
   = ServeStatic.ok_file (WEB_DIR dirname ++ ["health"]) c)
  /\ (absent fs (WEB_DIR dirname ++ ["health"]) = true ->
      FS.stat fs (WEB_DIR dirname ++ ["health.html"]) false = FS.IsFile c ->
      handle dirname fs (get "/health")
      = ServeStatic.ok_file (WEB_DIR dirname ++ ["health.html"]) c).
Proof.
  change "/health" with (url_of ["health"]). split.
  - intros Hf.
    apply (handle_plain_file dirname fs ["health"] [] [dirname ++ ["health"]]
             (WEB_DIR dirname ++ ["health"])); try reflexivity.
    rewrite (SendFacts.sendFile_file _ _ _ _ Hf). reflexivity.
  - intros Ha Hf.
    apply (handle_plain_file dirname fs ["health"] [] [dirname ++ ["health"]]
             (WEB_DIR dirname ++ ["health"])); try reflexivity.
    rewrite (SendFacts.sendFile_html fs _ c Ha).
    + rewrite SegFacts.add_extension_snoc. reflexivity.
    + rewrite last_last. reflexivity.
    + rewrite SegFacts.add_extension_snoc. exact Hf.
Qed.

Lemma health_shadowed_by_file_witness :
  handle Samples.dir Samples.with_health_file (get "/health")
  = ServeStatic.ok_file (WEB_DIR Samples.dir ++ ["health"]) "not json".
Proof.
  apply (proj1 (health_shadowed_by_file Samples.dir Samples.with_health_file
                  "not json")).
  reflexivity.
Defined.

(** X9: the mount path [/web] is matched without regard to letter case:
    for a plain path [segs] with a regular file at root(a)/segs, and a first
    segment [h] that equals [web] up to case, a GET on [/h/segs] returns
    that file. *)
Theorem mount_ignores_case (dirname : list string) (fs : FS.t) (h : string)
    (segs : list string) (c : string) :
  plain_name h = true -> eqb_ci h "web" = true ->
  plain_path segs = true ->
  FS.stat fs (WEB_DIR dirname ++ segs) false = FS.IsFile c ->
  handle dirname fs (get (url_of (h :: segs)))
  = ServeStatic.ok_file (WEB_DIR dirname ++ segs) c.
Proof.
  intros Hh Hw H Hf.
  apply (handle_plain_file dirname fs (h :: segs) []
           [WEB_DIR dirname ++ h :: segs; dirname ++ h :: segs]
           (WEB_DIR dirname ++ segs)).
  - apply StrFacts.plain_path_inv in H as [_ H]. cbn [plain_path forallb].
    rewrite Hh, H. reflexivity.
  - unfold lookups. cbn [hd tl]. rewrite Hw. reflexivity.
  - reflexivity.
  - rewrite (SendFacts.sendFile_file _ _ _ _ Hf). reflexivity.
Qed.

Lemma mount_ignores_case_witness :
  handle Samples.dir Samples.site (get "/WeB/app.js")
  = ServeStatic.ok_file (WEB_DIR Samples.dir ++ ["app.js"]) "run()".
Proof.
  apply (mount_ignores_case Samples.dir Samples.site "WeB" ["app.js"]);
    reflexivity.
Defined.

(** X10: the fallback to the base directory.  For a plain path [segs] whose
    first name is not [web], when root (a) does not exist at all, or holds
    neither an entry segs nor a file segs.html, a regular file at base/segs
    is returned for a GET on [/segs]. *)
Theorem base_directory_fallback (dirname : list string) (fs : FS.t)
    (segs : list string) (c : string) :
  plain_path segs = true ->
  eqb_ci (List.hd "" segs) "web" = false ->
  absent fs (WEB_DIR dirname) = true
  \/ misses fs (WEB_DIR dirname ++ segs) = true ->
  FS.stat fs (dirname ++ segs) false = FS.IsFile c ->
  let r := handle dirname fs (get (url_of segs)) in
  status r = 200%nat /\ entity r = FileBody (dirname ++ segs) c.
Proof.
  intros H Hw Hm Hf. cbv zeta.
  assert (Hne : segs <> []) by (apply StrFacts.plain_path_inv in H; tauto).
  rewrite (handle_plain_file dirname fs segs [WEB_DIR dirname ++ segs] []
             (dirname ++ segs) (ServeStatic.ok_file (dirname ++ segs) c) H).
  - split; reflexivity.
  - unfold lookups. rewrite Hw. reflexivity.
  - cbn [forallb]. rewrite andb_true_r.
    destruct Hm as [Ha|Hm]; [apply misses_below; assumption | exact Hm].
  - rewrite (SendFacts.sendFile_file _ _ _ _ Hf). reflexivity.
Qed.

Lemma base_directory_fallback_witness :
  let r := handle Samples.dir Samples.flat (get "/server.js") in
  status r = 200%nat
  /\ entity r = FileBody (Samples.dir ++ ["server.js"])
                  "const express = require('express');".
Proof.
  apply (base_directory_fallback Samples.dir Samples.flat ["server.js"]);
    [reflexivity | reflexivity | left; reflexivity | reflexivity].
Defined.

(** X11: root (a) is the directory [web] of the base directory, so that for
    a plain path below [/web] the third strategy examines the very place
    the first one examined: when the third middleware is called for such a
    request, the answer is a 404. *)
Theorem web_requests_end_before_fallback (dirname : list string) (fs : FS.t)
    (segs : list string) :
  plain_path segs = true ->
  In 2%nat (consulted dirname fs ("/web" +:+ url_of segs)) ->
  status (handle dirname fs (get ("/web" +:+ url_of segs))) = 404%nat.
Proof.
  intros H Hc.
  assert (Hne : segs <> []) by (apply StrFacts.plain_path_inv in H; tauto).
  pose proof (strategies_web dirname segs H) as Hs.
  apply consulted_static in Hc; [|lia]. rewrite Hs in Hc.
  apply (first_answer_trace fs _
           [(0%nat, (WEB_DIR dirname, url_of segs));
            (1%nat, (WEB_DIR dirname, "/web" +:+ url_of segs))]
           [] (2%nat, (dirname, "/web" +:+ url_of segs))) in Hc.
  2:{ repeat constructor; cbn; intuition discriminate. }
  cbn [forallb] in Hc. apply andb_true_iff in Hc as [H0 H1].
  apply andb_true_iff in H1 as [H1 _].
  assert (H2 : fails fs (2%nat, (dirname, "/web" +:+ url_of segs)) = true).
  { revert H0. unfold fails, lookup. cbn [fst snd].
    rewrite (web_url _ Hne).
    rewrite !SendFacts.pipe_plain_file by (exact H || apply plain_web, H).
    unfold WEB_DIR, Path.join. rewrite <- app_assoc. trivial. }
  rewrite (handle_routes dirname fs).
  - change (get ("/web" +:+ url_of segs))
      with (incoming GET ("/web" +:+ url_of segs)).
    rewrite routes_answer by discriminate. reflexivity.
  - apply fails_answer. rewrite Hs. cbn [forallb]. rewrite H0, H1, H2.
    reflexivity.
Qed.

Lemma web_requests_end_before_fallback_witness :
  status (handle Samples.dir Samples.site (get "/web/missing.png")) = 404%nat.
Proof.
  apply (web_requests_end_before_fallback Samples.dir Samples.site
           ["missing.png"]); [reflexivity|].
  right. right. left. reflexivity.
Defined.

(** X12: the listen port at the edges.  An empty [PORT] counts as no
    [PORT]: the listener binds 8080.  The numeral [0] asks for a port of the
    system's choice, and the decimal numeral of a number above 65535 makes
    [listen] throw, so that nothing is bound. *)
Theorem port_edge_cases (e : gmap string string) :
  (e !! "PORT" = Some "" -> listening (start e) = TcpPort 8080)
  /\ (e !! "PORT" = Some (numeral 0) -> listening (start e) = AnyPort)
  /\ (forall n,
        (65535 < n)%N -> e !! "PORT" = Some (numeral n) ->
        listening (start e) = BadPort).
Proof.
  split; [|split].
  - intros H. unfold start, PORT, or_default. cbn [listening]. rewrite H.
    reflexivity.
  - intros H. rewrite (PortFacts.PORT_numeral e 0 H). reflexivity.
  - intros n Hn H. rewrite (PortFacts.PORT_numeral e n H). unfold port.
    destruct (N.eqb_spec n 0) as [->|_]; [lia|].
    destruct (N.leb_spec n 65535); [lia | reflexivity].
Qed.

Lemma port_edge_cases_witness :
  listening (start {[ "PORT" := ""; "HOME" := "/root" ]}) = TcpPort 8080
  /\ listening (start {[ "PORT" := "65536" ]}) = BadPort.
Proof.
  split.
  - apply (proj1 (port_edge_cases _)). reflexivity.
  - apply (proj2 (proj2 (port_edge_cases _)) 65536%N); [lia | reflexivity].
Defined.

(** ** The answer depends on the base directory only *)

Module LocalFacts.

Import Str Http Spec StrFacts PathFacts FSFacts SendFacts StaticFacts Server.
Import SafetyFacts AppFacts.

Section Agree.

Variable dirname : list string.
Variables fs1 fs2 : FS.t.

(** The two file systems hold the same things at and below [dirname]. *)
Hypothesis agree :
  forall rel t, FS.stat fs1 (dirname ++ rel) t = FS.stat fs2 (dirname ++ rel) t.

Lemma try_indexes_agree (rel names : list string) (err : option FS.errno) :
  Send.try_indexes fs1 (dirname ++ rel) names err
  = Send.try_indexes fs2 (dirname ++ rel) names err.
Proof.
  revert err. induction names as [|n names IH]; intros err; [reflexivity|].
  cbn [Send.try_indexes]. unfold Path.join. rewrite <- app_assoc, agree.
  destruct (FS.stat fs2 (dirname ++ rel ++ [n]) false);
    [reflexivity | apply IH | apply IH].
Qed.

Lemma try_extensions_agree (rel exts : list string) (err : option FS.errno) :
  rel <> [] ->
  Send.try_extensions fs1 (dirname ++ rel) exts err
  = Send.try_extensions fs2 (dirname ++ rel) exts err.
Proof.
  intros Hne. revert err. induction exts as [|x exts IH]; intros err;
    [reflexivity|].
  cbn [Send.try_extensions]. rewrite (add_extension_app _ _ _ Hne), agree.
  destruct (FS.stat fs2 (dirname ++ Send.add_extension rel x) false);
    [reflexivity | apply IH | apply IH].
Qed.

Lemma sendFile_agree (o : Send.options) (rel : list string) (t : bool) :
  rel <> [] \/ FS.stat fs2 dirname t = FS.IsDir ->
  Send.sendFile o fs1 (dirname ++ rel) t = Send.sendFile o fs2 (dirname ++ rel) t.
Proof.
  intros H. unfold Send.sendFile. rewrite agree.
  destruct (FS.stat fs2 (dirname ++ rel) t) as [? | | []] eqn:Hs;
    try reflexivity.
  destruct (_ && _)%bool; [|reflexivity].
  destruct H as [Hne|Hd]; [apply try_extensions_agree, Hne|].
  destruct rel; [|apply try_extensions_agree; discriminate].
  rewrite app_nil_r in Hs. congruence.
Qed.

Lemma pipe_agree (o : Send.options) (r0 : list string) (raw : string) :
  r0 <> [] \/ FS.stat fs2 dirname false = FS.IsDir ->
  Send.pipe o (dirname ++ r0) fs1 raw = Send.pipe o (dirname ++ r0) fs2 raw.
Proof.
  intros H. unfold Send.pipe.
  destruct (URI.decodeURIComponent raw) as [d|]; [|reflexivity].
  destruct (contains nul d); [reflexivity|].
  destruct (if String.eqb d "" then _ else _) as [names tr].
  destruct (Send.up_path names); [reflexivity|].
  destruct (if Send.containsDotFile _ then _ else _); [reflexivity|].
  rewrite <- app_assoc.
  destruct (_ && _)%bool; [apply try_indexes_agree|].
  apply sendFile_agree. destruct H as [Hne|Hd].
  - left. destruct r0; [congruence | discriminate].
  - destruct (r0 ++ names); [right | left; discriminate].
    unfold FS.stat in *. destruct (FS.walk (FS.Dir fs2) dirname);
      try discriminate. reflexivity.
Qed.

Lemma serveStatic_agree (o : Send.options) (r0 : list string) (req : request) :
  r0 <> [] \/ FS.stat fs2 dirname false = FS.IsDir ->
  ServeStatic.serveStatic (dirname ++ r0) o fs1 req
  = ServeStatic.serveStatic (dirname ++ r0) o fs2 req.
Proof.
  intros H. unfold ServeStatic.serveStatic.
  rewrite (pipe_agree _ _ _ H). reflexivity.
Qed.

End Agree.

End LocalFacts.

(** X13: the answer depends on the base directory only.  When two file
    systems hold the same things at and below the base directory, which
    exists, every request gets the same response and calls the same layers
    on both, whatever they hold elsewhere. *)
Theorem answer_is_local (dirname : list string) (fs1 fs2 : FS.t)
    (req : request) :
  (forall rel t,
     FS.stat fs1 (dirname ++ rel) t = FS.stat fs2 (dirname ++ rel) t) ->
  FS.stat fs2 dirname false = FS.IsDir ->
  handle_traced dirname fs1 req = handle_traced dirname fs2 req.
Proof.
  intros Hag Hd. unfold handle_traced. rewrite app_routes.
  pose proof (LocalFacts.serveStatic_agree dirname fs1 fs2 Hag
                static_options ["web"]) as Hweb.
  pose proof (LocalFacts.serveStatic_agree dirname fs1 fs2 Hag
                static_options []) as Hbase.
  rewrite app_nil_r in Hbase. fold (Path.join dirname "web") in Hweb.
  fold (WEB_DIR dirname) in Hweb.
  rewrite !dispatch_cons. rewrite !MethodFacts.run_use_web_any.
  rewrite !run_use_root.
  rewrite !(Hbase req) by (right; exact Hd).
  rewrite !(Hweb req) by (left; discriminate).
  destruct (Express.match_mount "/web" (url req)) as [rest|]; [|reflexivity].
  rewrite (Hweb (Express.trim_prefix rest req)) by (left; discriminate).
  reflexivity.
Qed.

Lemma answer_is_local_witness :
  handle_traced Samples.dir Samples.bare (get "/etc/passwd")
  = handle_traced Samples.dir
      (<[ "etc" := FS.Dir {[ "passwd" := FS.File "root:x:0:0" ]} ]> Samples.bare)
      (get "/etc/passwd").
Proof.
  apply answer_is_local; [|reflexivity].
  intros rel t. reflexivity.
Defined.

(** ** The routes come last *)

Module RouteFacts.

Import Str Http Spec Server AppFacts PlainFacts AnswerFacts.

Lemma first_answer_positions (fs : FS.t) (p : string) (ss : list strategy)
    (i : nat) :
  In i (fst (first_answer fs p ss)) -> In i (map fst ss).
Proof.
  induction ss as [|s ss IH]; cbn [first_answer map]; [intros []|].
  destruct (answer p (lookup fs s)).
  - intros [<-|[]]. left. reflexivity.
  - destruct (first_answer fs p ss) as [tr a]. cbn [fst] in *.
    intros [<-|H]; [left; reflexivity | right; apply IH, H].
Qed.

Lemma first_answer_none (fs : FS.t) (p : string) (ss : list strategy) :
  snd (first_answer fs p ss) = None -> forallb (fails fs) ss = true.
Proof.
  induction ss as [|s ss IH]; cbn [first_answer forallb]; [reflexivity|].
  destruct (answer p (lookup fs s)) eqn:Ha; [discriminate|].
  apply (proj1 (answer_none p _)) in Ha. unfold fails at 1. rewrite Ha.
  destruct (first_answer fs p ss) as [tr a]. exact IH.
Qed.

Lemma ci_route (p : string) :
  eqb_ci p "/health" = true \/ eqb_ci p "/health/" = true ->
  Express.match_route "/health" p = true.
Proof.
  intros H. unfold Express.match_route.
  change (Express.without_trailing_slash "/health") with "/health".
  change ("/health" +:+ "/") with "/health/".
  apply orb_true_iff. exact H.
Qed.

End RouteFacts.

Import RouteFacts.

(** X14: the routes come after the files: when the handler of a route
    (position 3 or 4 of the stack) is called for a GET, every one of the
    static lookups for the path has failed. *)
Theorem routes_after_lookups (dirname : list string) (fs : FS.t) (p : string)
    (i : nat) :
  In i (consulted dirname fs p) -> 3 <= i ->
  forallb (fails fs) (strategies dirname p) = true.
Proof.
  unfold consulted. rewrite handle_static.
  pose proof (first_answer_positions fs p (strategies dirname p) i) as Hpos.
  pose proof (first_answer_none fs p (strategies dirname p)) as Hnone.
  destruct (first_answer fs p (strategies dirname p)) as [tr [r|]].
  - cbn [fst]. intros Hin Hi. apply Hpos in Hin.
    destruct (strategies_positions dirname p) as [_ Hlt].
    rewrite Stdlib.Lists.List.Forall_forall in Hlt.
    apply in_map_iff in Hin as (s & <- & Hs). apply Hlt in Hs. lia.
  - intros _ _. apply Hnone. reflexivity.
Qed.

Lemma routes_after_lookups_witness :
  forallb (fails Samples.site) (strategies Samples.dir "/health") = true.
Proof.
  apply (routes_after_lookups Samples.dir Samples.site "/health" 3);
    [right; right; left; reflexivity | lia].
Defined.

(** X15: the health route is matched without regard to letter case and to
    one trailing slash: for every path that is [/health] or [/health/] up to
    case and for which every static lookup fails, a GET is answered with the
    JSON value [{ok: true}] and status 200. *)
Theorem health_route_is_lenient (dirname : list string) (fs : FS.t)
    (p : string) :
  eqb_ci p "/health" = true \/ eqb_ci p "/health/" = true ->
  forallb (fails fs) (strategies dirname p) = true ->
  handle dirname fs (get p)
  = {| status := 200;
       location_header := None;
       ctype := Some ApplicationJson;
       entity := JsonBody (JObject [("ok", JBool true)]) |}.
Proof.
  intros Hp Hf.
  rewrite (handle_routes _ _ _ (fails_answer _ _ _ Hf)).
  change (get p) with (incoming GET p).
  rewrite MethodFacts.routes_answer by discriminate.
  rewrite (ci_route _ Hp). reflexivity.
Qed.

Lemma health_route_is_lenient_witness :
  handle Samples.dir Samples.site (get "/HEALTH/")
  = {| status := 200;
       location_header := None;
       ctype := Some ApplicationJson;
       entity := JsonBody (JObject [("ok", JBool true)]) |}.
Proof.
  apply health_route_is_lenient; [right; reflexivity | reflexivity].
Defined.
